(* ===== verification/_CoqProject ===== *)
-Q . S2P
Prelude.v
Unicode.v
PyConv.v
Token.v
Store.v
Mundo.v
Guard.v
Json.v
Webhook.v
Votar.v
EnviarVoto.v
Registro.v
Sistema.v
Especificacion.v
Concurrencia.v
Catalogo.v
