(* ===== verification/Prelude.v ===== *)
(** * A verification development of VotacionesSubna (src/app.py)

    The program is one Flask application, [src/app.py], that runs a
    WhatsApp-driven voter registration: a citizen registers a phone
    number on a web form ([generar_link]), writes to the WhatsApp number
    of the campaign, the inbound-message webhook ([whatsapp_webhook])
    answers with a link that carries a signed, timed token
    (itsdangerous [URLSafeTimedSerializer]), the link ([votar]) checks
    the token against the token stored for the number and opens a
    session, and the ballot form ([enviar_voto]) stores one [Voto] per
    number.  Unregistered numbers that write to the webhook are warned
    and, on the fourth attempt, blocked ([BloqueoWhatsapp]).

    ** Layout (one file per component, in dependency order)

    - [Prelude] (this file): code-point strings [ustr] and the Python
      string helpers the handlers use ([str.strip], [str.replace],
      [str.startswith], [x in s], [str.rstrip('/')]); the exception type
      [exc] of the handlers and a small state-and-exception monad [PyM]
      with its [x <- m ;; k] notation (scope [py_scope]); shared lemmas
      and the hint database [voto].
    - [Unicode]: the Unicode database the code reaches through
      [unicodedata.normalize] and [re]'s [\D], as a typeclass
      [UnicodeDB] with its laws; NFKD (full decomposition followed by
      canonical ordering); [limpiar_numero] (app.py 131-138), the
      canonical phone number used as the join key of every table.
    - [PyConv]: Python's [int(str)] and [float(str)] on form fields
      (grammar with signs, underscores, Unicode digits, the 4300-digit
      limit), used by [enviar_voto].
    - [Token]: the token service.  An interface (typeclass
      [TokenService]) states what [votar] relies on; the itsdangerous
      model ([dumps]/[loads] with [max_age], [SignatureExpired] and
      [BadSignature]) is an instance that discharges it.
    - [Store]: the four SQLAlchemy models (app.py 207-257) as records,
      each table a [gmap] keyed by its [unique=True] column, the commit
      operations with the unique constraint and the column bounds of the
      SQL dialect, and the well-formedness invariant of the store.
    - [Mundo]: what a handler acts on: the environment variables read
      ([AZURE_DOMAIN], [WABA_TOKEN], the SQL dialect), the outbox of
      WhatsApp sends, [enviar_mensaje_whatsapp] (app.py 141-168) and the
      commit of the store inside the [PyM] monad.
    - [Guard]: the progressive lockout of unregistered numbers
      (app.py 347-405) as a per-number transition function, the abstract
      [Unknown -> Warned n -> Blocked] machine of the design, and a
      refinement theorem between the two.
    - [Json]: the JSON payloads of the webhook, Python truthiness and
      [dict.get], [str()] of a JSON value, and the normalisation of the
      two provider formats (app.py 280-337).
    - [Webhook]: [whatsapp_webhook] (app.py 275-467), the whole handler,
      with its effect on the store as an inductive relation.
    - [Votar]: [votar] (app.py 542-585).
    - [EnviarVoto]: [enviar_voto] (app.py 593-687), split into its read
      phase [preparar_voto] and its commit [confirmar_voto].
    - [Registro]: [generar_link] (app.py 482-534).
    - [Sistema]: the application as a step relation [paso] over a state
      (store, outbox, session values the server signed, with the second
      each was signed at) and runs
      [ejecucion] of timed requests, computed by [ejecutar].
    - [Especificacion]: the design's abstract state of pending tokens and
      ballots, its transitions and invariant, and the refinement of the
      service's runs into runs of that machine.
    - [Concurrencia]: the three routes that write ([generar_link],
      [enviar_voto], [whatsapp_webhook]) split at each query and commit
      into requests in flight ([Hilo]), one step [avanzar] per access to
      the store, and interleavings [paso_conc] of any number of requests
      over the shared world, with schedules [planificar].
    - [Catalogo]: the reference data (app.py 29-123, 696-823): CSV files
      read through [csv.DictReader] (header, rows, byte-order mark), the
      candidates loader with its two indexes and its once-only cache,
      [_norm_text] over the Unicode and case-mapping ([CaseDB])
      interfaces, and the routes [api_recintos] and [api_candidatos].

    ** What the theorems show

    - Webhook: a message carrying an [id] changes nothing at all, since
      line 317 reads [numero_completo] before line 324 assigns it; in
      [Sistema], when every message has an id (as the providers send
      them), no run ever sends a voting link.  Without an id: link
      reissue for registered numbers, the lockout for the others, silence
      for blocked ones, and an answer of ["ok"] in every case.
    - The invariant of every reachable state ([Sistema.inv]): rows under
      their unique key, no number both voted and pending, the table of
      processed messages always empty, counter rows of the lockout
      machine, every ballot under a session value the server signed.
    - Refinement: every run of the service is a run of the design's
      abstract machine (issue a token for a number that has not voted,
      cast a number's only ballot and close its pending token).
    - The voter's path: a pending token opens the form within 600
      seconds, the ballot is stored and the pending row deleted, and the
      link is then dead; a reissue kills older links; a stored ballot is
      never changed; once voted, every link of the number is refused.
    - Liveness: from every reachable state a number with a pending token
      can still vote (the link visit and the submission that carries the
      cookie it returned are both served and store the ballot); from any
      reachable counter row four messages block an unregistered number,
      and after any run four webhook messages without [id] block it
      ([Sistema], Section [Bloqueo], composing the webhook with the guard
      and the invariant).
    - Concurrency: a request run alone is its route's handler (a lemma
      checking the split; the ballot's split shares the handler's own
      continuation [enviar_voto_tras_lectura]); every
      interleaving keeps the unique keys, the counter rows and every
      stored ballot (one ballot per number by the unique index); a
      registration racing a ballot leaves the number voted and pending,
      two registrations of a new number end in an uncaught
      [IntegrityError], and two messages can count once in the lockout.
    - Roundtrip: the token a registration stores reads back through
      [loads] as the payload it signed inside its window (and as
      [SignatureExpired] outside it), and [limpiar_numero] of the number
      it carries is the row's key again.
    - Submission: what a prepared ballot contains (required fields, the
      identity number when [pregunta3] is "Sí"), at most one ballot per
      number, the 400 of "Sí" without identity number, the 500 of an
      identity number beyond 64 bits or of a day [int()] rejects, the answer's
      independence from the pending authorisations (the session cookie
      alone authorises), and two concurrent submissions ending in an
      [IntegrityError] instead of the "already voted" page.
    - Link visit: the exact conditions under which a session opens,
      expiry, rotated tokens, and no session at all without
      [AZURE_DOMAIN].
    - Normalisation: [limpiar_numero] is ['+'] followed by the decimal
      digits of the compatibility decomposition, in order (the canonical
      ordering never moves a digit), is idempotent, and ignores
      characters that contribute no digit.
    - Reference data: the loader's indexes equal their reference
      definitions (filter by id; each id of a municipality once), the
      file is read at most once, [_norm_text] leaves single spaces as its
      only white space (a lemma), [api_candidatos] returns only mayors of the
      precinct's municipality, and a file the loader accepts can still
      make [api_candidatos] fail with [KeyError].

    ** Assumptions of the model

    In [Sistema] each request is served atomically ([paso]); in
    [Concurrencia] requests interleave between their queries and commits,
    each query reading the committed state and each commit atomic (READ
    COMMITTED, PostgreSQL's default; SQLite's database lock); the link
    visit, which only reads, is not split there.  A client presents only
    session values the server signed: the model assumes [SECRET_KEY] is
    secret, while its default in app.py 177 is a public constant.  Flask
    loads a session cookie younger than its lifetime (31 days by
    default, [Sistema.vida_sesion]) and treats an older one as an empty
    session; a response signs a new cookie only when the view modified
    the session.  Time is an integer number of seconds given with each
    request.

    ** Not modelled

    The static pages ([index], [preguntas_frecuentes]); reading and
    decoding the bytes of the CSV files.  HTML templates and redirects (a response
    is a constructor naming the template or the text); the HTTP transport
    of [requests.post] to 360dialog (an outbound send is an entry of an
    outbox; its delivery or failure is never observed by the code, whose
    [try/except] swallows it); HMAC itself (the signer is a parameter:
    theorems hold for every signing function); CSRF token generation of
    Flask-WTF (a request carries whether its CSRF token verified); the
    autoincrement [id] columns and [print] logging; the [paises] country
    list (only rendered).

    ** Bounds

    The lockout threshold 4 and the token age 600 seconds are the
    constants of the code; integer columns are checked against the
    ranges of the SQL dialect ([Integer]: 32 bits on PostgreSQL, 64 bits
    on SQLite; [BigInteger]: 64 bits), string columns against their
    declared length on PostgreSQL.  No definition uses fuel: every
    recursion is structural on a list or a string (the handlers contain
    no unbounded loop).  The lockout's progress is measured by the
    variant [umbral - intentos], which every counted message decreases. *)

From stdpp Require Export base list gmap.
From Stdlib Require Export ZArith.
From Stdlib Require Ascii String.
Export String.StringSyntax.
From Stdlib Require Import Lia.

(** ** Code-point strings *)

(** Python [str] values are sequences of Unicode code points. *)
Abbreviation ustr := (list N).

(** An ASCII literal as a code-point string. *)
Definition u (s : String.string) : ustr := map Ascii.N_of_ascii (String.list_ascii_of_string s).
Arguments u s%_string_scope.

Definition cp_plus : N := 43.    (** '+' *)
Definition cp_minus : N := 45.   (** '-' *)
Definition cp_space : N := 32.   (** ' ' *)
Definition cp_slash : N := 47.   (** '/' *)
Definition cp_comma : N := 44.   (** ',' *)
Definition cp_underscore : N := 95.
Definition cp_dot : N := 46.

(** [str.isspace()] of CPython: the characters of bidirectional class
    WS, B or S and those of category Zs. *)
Definition py_isspace (c : N) : bool :=
  ((9 <=? c) && (c <=? 13))%N || ((28 <=? c) && (c <=? 32))%N
  || (c =? 133)%N || (c =? 160)%N || (c =? 5760)%N
  || ((8192 <=? c) && (c <=? 8202))%N || (c =? 8232)%N || (c =? 8233)%N
  || (c =? 8239)%N || (c =? 8287)%N || (c =? 12288)%N.

(** [s.lstrip()], [s.rstrip()] and [s.strip()] with no argument. *)
Fixpoint lstrip_with (p : N -> bool) (s : ustr) : ustr :=
  match s with
  | [] => []
  | c :: s' => if p c then lstrip_with p s' else s
  end.

Definition rstrip_with (p : N -> bool) (s : ustr) : ustr :=
  rev (lstrip_with p (rev s)).

Definition py_strip (s : ustr) : ustr :=
  rstrip_with py_isspace (lstrip_with py_isspace s).

(** [s.rstrip('/')]. *)
Definition rstrip_slash (s : ustr) : ustr := rstrip_with (N.eqb cp_slash) s.

(** [s.replace(c, "")] for a one-character [c]. *)
Definition remove_char (c : N) (s : ustr) : ustr := filter (fun d => negb (N.eqb c d)) s.

(** [s.startswith(p)]. *)
Fixpoint startswith (p s : ustr) : bool :=
  match p, s with
  | [], _ => true
  | a :: p', b :: s' => N.eqb a b && startswith p' s'
  | _ :: _, [] => false
  end.

(** [p in s] for strings: substring test. *)
Fixpoint py_in (p s : ustr) : bool :=
  startswith p s || match s with [] => false | _ :: s' => py_in p s' end.

(** [s.split(sep)[0]]: the prefix before the first separator. *)
Fixpoint split_first (sep : N) (s : ustr) : ustr :=
  match s with
  | [] => []
  | c :: s' => if N.eqb sep c then [] else c :: split_first sep s'
  end.

(** Truthiness of a Python [str] and of [Optional[str]] form fields. *)
Definition truthy_str (s : ustr) : bool := negb (bool_decide (s = [])).
Definition truthy_opt (o : option ustr) : bool :=
  match o with Some s => truthy_str s | None => false end.

(** ** Exceptions and the handler monad *)

(** The Python exceptions the handlers can raise.  [ExcLookup] stands for
    [IndexError]/[KeyError], [ExcType] for [TypeError]/[AttributeError]
    on a value of the wrong type, [ExcData] for the database's
    [DataError] (value out of the column's range) or sqlite3's
    [OverflowError], [ExcIntegrity] for SQLAlchemy's [IntegrityError]
    (unique constraint), [ExcStale] for its [StaleDataError] (an UPDATE
    of a row that another transaction deleted), [ExcOS] for [OSError]
    ([FileNotFoundError] of [open]). *)
Inductive exc :=
| ExcUnboundLocal
| ExcValue
| ExcLookup
| ExcType
| ExcIntegrity
| ExcData
| ExcStale
| ExcOS.

#[export] Instance exc_eq_dec : EqDecision exc.
Proof. solve_decision. Defined.

Inductive res (A : Type) :=
| Ok (a : A)
| Exc (e : exc).
Arguments Ok {A} a.
Arguments Exc {A} e.

(** A handler threads a state [S] and may raise; the state reached when
    an exception is raised is kept (committed effects are durable). *)
Definition PyM (S A : Type) : Type := S -> S * res A.

Definition pret {S A} (a : A) : PyM S A := fun s => (s, Ok a).
Definition praise {S A} (e : exc) : PyM S A := fun s => (s, Exc e).
Definition pbind {S A B} (m : PyM S A) (k : A -> PyM S B) : PyM S B :=
  fun s => match m s with
           | (s', Ok a) => k a s'
           | (s', Exc e) => (s', Exc e)
           end.
Definition pget {S} : PyM S S := fun s => (s, Ok s).
Definition pmodify {S} (f : S -> S) : PyM S unit := fun s => (f s, Ok tt).
(** [try: m except: h] catching every exception. *)
Definition ptry {S A} (m : PyM S A) (h : exc -> PyM S A) : PyM S A :=
  fun s => match m s with
           | (s', Ok a) => (s', Ok a)
           | (s', Exc e) => h e s'
           end.
(** A pure computation that raises [e] when it has no result. *)
Definition plift {S A} (e : exc) (o : option A) : PyM S A :=
  match o with Some a => pret a | None => praise e end.

Declare Scope py_scope.
Delimit Scope py_scope with py.
Notation "x <- m ;; k" := (pbind m (fun x => k))
  (at level 100, m at next level, right associativity) : py_scope.
Notation "m ;;; k" := (pbind m (fun _ => k))
  (at level 100, right associativity) : py_scope.

(** ** Monad laws *)

Lemma pbind_pret {S A B} (a : A) (k : A -> PyM S B) s :
  pbind (pret a) k s = k a s.
Proof. reflexivity. Qed.

Lemma pbind_praise {S A B} e (k : A -> PyM S B) s :
  pbind (praise e) k s = (s, Exc e).
Proof. reflexivity. Qed.

Lemma pbind_assoc {S A B C} (m : PyM S A) (k : A -> PyM S B) (k' : B -> PyM S C) s :
  pbind (pbind m k) k' s = pbind m (fun a => pbind (k a) k') s.
Proof. unfold pbind. destruct (m s) as [s' [a|e]]; reflexivity. Qed.

Lemma ptry_pret {S A} (a : A) (h : exc -> PyM S A) s : ptry (pret a) h s = (s, Ok a).
Proof. reflexivity. Qed.

Lemma ptry_praise {S A} e (h : exc -> PyM S A) s : ptry (praise e) h s = h e s.
Proof. reflexivity. Qed.

Create HintDb voto.
Create Rewrite HintDb voto.
#[export] Hint Rewrite @pbind_pret @pbind_praise @pbind_assoc @ptry_pret @ptry_praise : voto.

(** ** Shared string lemmas *)

Lemma u_app s1 s2 : u (String.append s1 s2) = u s1 ++ u s2.
Proof. unfold u. induction s1 as [|a s1 IH]; simpl; [done|]. by rewrite IH. Qed.

Lemma lstrip_with_idem p s : lstrip_with p (lstrip_with p s) = lstrip_with p s.
Proof. induction s as [|c s IH]; simpl; [done|]. destruct (p c) eqn:E; simpl; [done|by rewrite E]. Qed.

Lemma remove_char_app c s1 s2 : remove_char c (s1 ++ s2) = remove_char c s1 ++ remove_char c s2.
Proof. apply filter_app. Qed.

Lemma remove_char_not_in c s : c ∉ remove_char c s.
Proof.
  unfold remove_char. rewrite list_elem_of_filter. intros [Hc _].
  by rewrite N.eqb_refl in Hc.
Qed.

Lemma startswith_app p s : startswith p (p ++ s) = true.
Proof. induction p as [|a p IH]; simpl; [done|]. by rewrite N.eqb_refl, IH. Qed.

Lemma py_in_app_r p s1 s2 : py_in p s2 = true -> py_in p (s1 ++ s2) = true.
Proof. intros H. induction s1 as [|c s1 IH]; [exact H|]. cbn [app py_in]. by rewrite IH, orb_true_r. Qed.

(** A string contains itself, and every string that embeds it. *)
Lemma py_in_embed p s1 s2 : py_in p (s1 ++ p ++ s2) = true.
Proof.
  apply py_in_app_r. destruct p as [|a p], s2; cbn [app py_in startswith]; try done;
    by rewrite N.eqb_refl, startswith_app.
Qed.

#[export] Hint Resolve py_in_embed startswith_app : voto.

(** A filter that keeps nothing. *)
Lemma filter_nil_forall {A} (P : A -> Prop) `{!forall x, Decision (P x)} (l : list A) :
  (forall x, x ∈ l -> ~ P x) -> filter P l = [].
Proof.
  induction l as [|x l IH]; intros Hl; [done|]. rewrite filter_cons.
  case_decide as Hx; [exfalso; eapply Hl; [left|done]|]. apply IH. intros y Hy. apply Hl. by right.
Qed.

(** Case analysis on a boolean test of the code, keeping the equation. *)
Ltac case_test t := let E := fresh "E" in destruct t eqn:E; simpl in *.

(** Unfold a monadic handler run one bind at a time. *)
Ltac py_simp := repeat (autorewrite with voto; simpl).
