(* ===== verification/Unicode.v ===== *)
(** * Phone-number normalisation: [limpiar_numero] (app.py 131-138)

    [limpiar_numero] applies [unicodedata.normalize("NFKD", .)], deletes
    every character matched by [re]'s [\D] (everything that is not a
    Unicode decimal digit, category Nd) and prefixes ['+'].  The result is
    the key of every table of the store.

    The Unicode character database is an interface: the typeclass
    [UnicodeDB] gives the full compatibility decomposition, the canonical
    combining class and the decimal value of a code point, with the laws
    of the UCD the proofs need.  NFKD is the decomposition followed by the
    canonical ordering of combining marks.  [ucd_excerpt] is an instance
    whose table is an exact excerpt of the UCD (Latin-1 Supplement, the
    combining marks U+0300-U+0314, U+0316-U+0319, U+0327-U+0328, the
    Arabic-Indic and extended Arabic-Indic digits, the fullwidth digits,
    plus and hyphen-minus); it is used for the concrete scenarios. *)

From S2P Require Import Prelude.

Class UnicodeDB := {
  ucd_decomp : N -> list N;
  ucd_ccc : N -> N;
  ucd_decimal : N -> option N;
  (** [str.isprintable()] of one character *)
  ucd_printable : N -> bool;
  (** the decomposition is full: its characters decompose to themselves *)
  ucd_decomp_full : forall c d, d ∈ ucd_decomp c -> ucd_decomp d = [d];
  (** decimal digits are starters (combining class 0) *)
  ucd_decimal_starter : forall c v, ucd_decimal c = Some v -> ucd_ccc c = 0%N;
  ucd_decomp_ascii : forall c, (c < 128)%N -> ucd_decomp c = [c];
  ucd_ccc_ascii : forall c, (c < 128)%N -> ucd_ccc c = 0%N;
  ucd_decimal_ascii : forall c, (c < 128)%N ->
    ucd_decimal c = if (48 <=? c)%N && (c <=? 57)%N then Some (c - 48)%N else None;
  ucd_printable_ascii : forall c, (c < 128)%N -> ucd_printable c = (32 <=? c)%N && (c <? 127)%N;
  (** white space decomposes to white space: it carries no digit *)
  ucd_space_no_digit : forall c d, py_isspace c = true -> d ∈ ucd_decomp c -> ucd_decimal d = None
}.

Section Normalisation.
Context {U : UnicodeDB}.

(** [\d] of [re] on [str] patterns: the Unicode decimal digits. *)
Definition is_decimal (c : N) : bool := bool_decide (is_Some (ucd_decimal c)).

(** Stable insertion of a combining mark into a run sorted by class. *)
Fixpoint insert_ccc (c : N) (run : list N) : list N :=
  match run with
  | [] => [c]
  | d :: run' => if (ucd_ccc c <? ucd_ccc d)%N then c :: run else d :: insert_ccc c run'
  end.

(** The canonical ordering algorithm: every maximal run of characters of
    non-zero combining class is stably sorted by class. *)
Fixpoint canonical_order_aux (run : list N) (s : ustr) : ustr :=
  match s with
  | [] => run
  | c :: s' =>
      if (ucd_ccc c =? 0)%N then run ++ c :: canonical_order_aux [] s'
      else canonical_order_aux (insert_ccc c run) s'
  end.

Definition nfkd (s : ustr) : ustr :=
  canonical_order_aux [] (flat_map ucd_decomp s).

(** [limpiar_numero(numero_raw)] on [str(numero_raw)]. *)
Definition limpiar_numero (numero : ustr) : ustr :=
  cp_plus :: filter is_decimal (nfkd numero).

(** The digits of a string after decomposition. *)
Definition digitos (s : ustr) : ustr := filter is_decimal (flat_map ucd_decomp s).

(** A character that contributes no digit. *)
Definition ruido (c : N) : Prop := digitos [c] = [].

#[global] Instance ruido_dec c : Decision (ruido c).
Proof. unfold ruido. apply _. Defined.

(** ** Lemmas *)

Lemma is_decimal_ccc c : is_decimal c = true -> ucd_ccc c = 0%N.
Proof.
  unfold is_decimal. rewrite bool_decide_eq_true. intros [v Hv].
  by eapply ucd_decimal_starter.
Qed.

Lemma insert_ccc_elem c d run : d ∈ insert_ccc c run -> d = c \/ d ∈ run.
Proof.
  induction run as [|e run IH]; simpl; [set_solver|].
  destruct (_ <? _)%N; [set_solver|].
  rewrite elem_of_cons. intros [->|Hd]; [set_solver|]. specialize (IH Hd). set_solver.
Qed.

(** A run of combining marks holds no digit. *)
Lemma run_no_digit run :
  Forall (fun d => ucd_ccc d <> 0%N) run -> filter is_decimal run = [].
Proof.
  induction 1 as [|d run Hd _ IH]; [done|].
  rewrite filter_cons. destruct (is_decimal d) eqn:E; [|done].
  by apply is_decimal_ccc in E.
Qed.

Lemma canonical_order_aux_digits run s :
  Forall (fun d => ucd_ccc d <> 0%N) run ->
  filter is_decimal (canonical_order_aux run s) = filter is_decimal s.
Proof.
  revert run. induction s as [|c s IH]; intros run Hrun; simpl.
  { by apply run_no_digit. }
  destruct (ucd_ccc c =? 0)%N eqn:Ec.
  - rewrite filter_app, run_no_digit by done. simpl. rewrite filter_cons, IH by constructor.
    done.
  - rewrite IH.
    + rewrite filter_cons. destruct (is_decimal c) eqn:Ed; [|done].
      apply is_decimal_ccc in Ed. by rewrite Ed in Ec.
    + apply Forall_forall. intros d Hd. apply insert_ccc_elem in Hd.
      destruct Hd as [->|Hd]; [by apply N.eqb_neq|].
      rewrite Forall_forall in Hrun. by apply Hrun.
Qed.

(** The canonical ordering never moves a digit: only the decomposition
    matters to [limpiar_numero]. *)
Lemma limpiar_numero_digitos s : limpiar_numero s = cp_plus :: digitos s.
Proof. unfold limpiar_numero, nfkd, digitos. f_equal. by apply canonical_order_aux_digits. Qed.

Lemma digitos_app s1 s2 : digitos (s1 ++ s2) = digitos s1 ++ digitos s2.
Proof. unfold digitos. by rewrite flat_map_app, filter_app. Qed.

Lemma digitos_cons c s : digitos (c :: s) = digitos [c] ++ digitos s.
Proof. apply (digitos_app [c] s). Qed.

(** Every character of [digitos s] is a decimal digit produced by a
    decomposition, hence decomposes to itself. *)


(** Every character of [digitos s] is a decimal digit produced by a
    decomposition, hence decomposes to itself. *)
Lemma digitos_fixed s d : d ∈ digitos s -> ucd_decomp d = [d] /\ is_decimal d.
Proof.
  unfold digitos. rewrite list_elem_of_filter, list_elem_of_In, in_flat_map.
  intros [Hd [c [_ Hc]]]. split; [|done]. by eapply ucd_decomp_full, list_elem_of_In.
Qed.

Lemma digitos_stable ds :
  (forall d, d ∈ ds -> ucd_decomp d = [d] /\ is_decimal d) -> digitos ds = ds.
Proof.
  induction ds as [|d ds IH]; intros Hds; [done|].
  rewrite digitos_cons, IH by set_solver.
  destruct (Hds d) as [Hdec Hdig]; [set_solver|].
  unfold digitos. simpl. rewrite Hdec, app_nil_r, filter_cons. by case_decide.
Qed.

Lemma digitos_ascii_nondigit c :
  (c < 128)%N -> ~ ((48 <= c)%N /\ (c <= 57)%N) -> digitos [c] = [].
Proof.
  intros Hc Hnd. unfold digitos. simpl. rewrite ucd_decomp_ascii by done. simpl.
  rewrite filter_cons. unfold is_decimal. rewrite ucd_decimal_ascii by done.
  destruct (48 <=? c)%N eqn:E1, (c <=? 57)%N eqn:E2; simpl; try done.
  apply N.leb_le in E1, E2. lia.
Qed.

Lemma ruido_plus : ruido cp_plus.
Proof. apply digitos_ascii_nondigit; unfold cp_plus; lia. Qed.

(** Characters whose whole decomposition is combining marks (accents,
    diaeresis, cedilla) contribute no digit. *)
Lemma ruido_combinante c :
  Forall (fun d => ucd_ccc d <> 0%N) (ucd_decomp c) -> ruido c.
Proof. intros Hc. unfold ruido, digitos. simpl. rewrite app_nil_r. by apply run_no_digit. Qed.

(** Inserting a noise character between two parts of a number. *)
Inductive equiv_ruido : ustr -> ustr -> Prop :=
| er_refl s : equiv_ruido s s
| er_ins s1 s2 c : ruido c -> equiv_ruido (s1 ++ s2) (s1 ++ c :: s2)
| er_sym s t : equiv_ruido s t -> equiv_ruido t s
| er_trans s t v : equiv_ruido s t -> equiv_ruido t v -> equiv_ruido s v.

#[global] Instance equiv_ruido_equivalence : Equivalence equiv_ruido.
Proof. split; [exact er_refl|exact er_sym|exact er_trans]. Qed.

Lemma equiv_ruido_digitos s t : equiv_ruido s t -> digitos s = digitos t.
Proof.
  induction 1 as [s|s1 s2 c Hc|s t _ IH|s t v _ IH1 _ IH2]; try congruence.
  by rewrite !digitos_app, digitos_cons, Hc.
Qed.

(** White space carries no digit. *)
Lemma ruido_espacio c : py_isspace c = true -> ruido c.
Proof.
  intros Hs. unfold ruido, digitos. simpl. rewrite app_nil_r.
  apply filter_nil_forall. intros d Hd. unfold is_decimal.
  rewrite (ucd_space_no_digit c d Hs Hd). intros Hb%bool_decide_unpack. by destruct Hb.
Qed.

(** Removing characters that carry no digit keeps the digits. *)
Lemma digitos_quitar (p : N -> bool) s :
  (forall c, p c = true -> ruido c) -> digitos (filter (fun c => negb (p c)) s) = digitos s.
Proof.
  intros Hp. induction s as [|c s IH]; [done|]. rewrite filter_cons.
  rewrite (digitos_cons c s). case_decide as Hc.
  - by rewrite digitos_cons, IH.
  - destruct (p c) eqn:E; [|done]. by rewrite (Hp c E), IH.
Qed.

Lemma digitos_lstrip (p : N -> bool) s :
  (forall c, p c = true -> ruido c) -> digitos (lstrip_with p s) = digitos s.
Proof.
  intros Hp. induction s as [|c s IH]; [done|]. simpl.
  destruct (p c) eqn:E; [|done]. by rewrite IH, digitos_cons, (Hp c E).
Qed.

Lemma digitos_rstrip (p : N -> bool) s :
  (forall c, p c = true -> ruido c) -> digitos (rstrip_with p s) = digitos s.
Proof.
  intros Hp. unfold rstrip_with. unfold digitos.
  rewrite <- (rev_involutive s) at 2. generalize (rev s) as r. intros r.
  induction r as [|c r IH]; [done|]. simpl.
  destruct (p c) eqn:E.
  - rewrite IH. rewrite flat_map_app, filter_app. simpl.
    pose proof (Hp c E) as Hc. unfold ruido, digitos in Hc. simpl in Hc. rewrite app_nil_r in Hc.
    by rewrite app_nil_r, Hc, app_nil_r.
  - done.
Qed.

Lemma digitos_strip s : digitos (py_strip s) = digitos s.
Proof. unfold py_strip. rewrite digitos_rstrip, digitos_lstrip; auto using ruido_espacio. Qed.

Lemma equiv_ruido_cons c s t : equiv_ruido s t -> equiv_ruido (c :: s) (c :: t).
Proof.
  induction 1 as [s|s1 s2 d Hd|s t _ IH|s t v _ IH1 _ IH2].
  - reflexivity.
  - apply (er_ins (c :: s1) s2 d Hd).
  - by symmetry.
  - by etransitivity.
Qed.

(** Deleting every noise character leaves an equivalent number. *)
Lemma equiv_ruido_filter s : equiv_ruido (filter (fun c => ~ ruido c) s) s.
Proof.
  induction s as [|c s IH]; [reflexivity|]. rewrite filter_cons. case_decide.
  - by apply equiv_ruido_cons.
  - etransitivity; [exact IH|]. apply (er_ins [] s c). destruct (decide (ruido c)); [done|tauto].
Qed.

#[global] Instance limpiar_numero_proper : Proper (equiv_ruido ==> eq) limpiar_numero.
Proof. intros s t Hst. rewrite !limpiar_numero_digitos. f_equal. by apply equiv_ruido_digitos. Qed.

End Normalisation.

#[export] Hint Resolve ruido_plus : voto.

Section Propiedades.
Context {U : UnicodeDB}.

(** Normalising an already normalised number yields the same value. *)
Lemma limpiar_numero_idempotente s : limpiar_numero (limpiar_numero s) = limpiar_numero s.
Proof.
  rewrite (limpiar_numero_digitos s), limpiar_numero_digitos, digitos_cons, ruido_plus.
  simpl. f_equal. apply digitos_stable. intros d Hd. by apply (digitos_fixed s d).
Qed.

(** C33: two numbers that differ only by characters contributing no digit
    (spaces, dashes, parentheses, letters, combining diacritics) have the
    same canonical form. *)
Theorem limpiar_numero_sin_ruido s t :
  filter (fun c => ~ ruido c) s = filter (fun c => ~ ruido c) t ->
  limpiar_numero s = limpiar_numero t.
Proof.
  intros Hst. rewrite <- (equiv_ruido_filter s), <- (equiv_ruido_filter t). by rewrite Hst.
Qed.

End Propiedades.

(** ** An excerpt of the Unicode character database *)

Module Excerpt.

Fixpoint assoc (c : N) (t : list (N * list N)) : option (list N) :=
  match t with
  | [] => None
  | (k, v) :: t' => if (k =? c)%N then Some v else assoc c t'
  end.

(** Compatibility decompositions (UnicodeData.txt, fully decomposed). *)
Definition tabla_decomp : list (N * list N) :=
  [(0xA0, [0x20]); (0xA8, [0x20; 0x308]); (0xAA, [0x61]); (0xAF, [0x20; 0x304]);
   (0xB2, [0x32]); (0xB3, [0x33]); (0xB4, [0x20; 0x301]); (0xB5, [0x3BC]);
   (0xB8, [0x20; 0x327]); (0xB9, [0x31]); (0xBA, [0x6F]);
   (0xBC, [0x31; 0x2044; 0x34]); (0xBD, [0x31; 0x2044; 0x32]); (0xBE, [0x33; 0x2044; 0x34]);
   (0xC0, [0x41; 0x300]); (0xC1, [0x41; 0x301]); (0xC2, [0x41; 0x302]); (0xC3, [0x41; 0x303]);
   (0xC4, [0x41; 0x308]); (0xC5, [0x41; 0x30A]); (0xC7, [0x43; 0x327]);
   (0xC8, [0x45; 0x300]); (0xC9, [0x45; 0x301]); (0xCA, [0x45; 0x302]); (0xCB, [0x45; 0x308]);
   (0xCC, [0x49; 0x300]); (0xCD, [0x49; 0x301]); (0xCE, [0x49; 0x302]); (0xCF, [0x49; 0x308]);
   (0xD1, [0x4E; 0x303]); (0xD2, [0x4F; 0x300]); (0xD3, [0x4F; 0x301]); (0xD4, [0x4F; 0x302]);
   (0xD5, [0x4F; 0x303]); (0xD6, [0x4F; 0x308]); (0xD9, [0x55; 0x300]); (0xDA, [0x55; 0x301]);
   (0xDB, [0x55; 0x302]); (0xDC, [0x55; 0x308]); (0xDD, [0x59; 0x301]);
   (0xE0, [0x61; 0x300]); (0xE1, [0x61; 0x301]); (0xE2, [0x61; 0x302]); (0xE3, [0x61; 0x303]);
   (0xE4, [0x61; 0x308]); (0xE5, [0x61; 0x30A]); (0xE7, [0x63; 0x327]);
   (0xE8, [0x65; 0x300]); (0xE9, [0x65; 0x301]); (0xEA, [0x65; 0x302]); (0xEB, [0x65; 0x308]);
   (0xEC, [0x69; 0x300]); (0xED, [0x69; 0x301]); (0xEE, [0x69; 0x302]); (0xEF, [0x69; 0x308]);
   (0xF1, [0x6E; 0x303]); (0xF2, [0x6F; 0x300]); (0xF3, [0x6F; 0x301]); (0xF4, [0x6F; 0x302]);
   (0xF5, [0x6F; 0x303]); (0xF6, [0x6F; 0x308]); (0xF9, [0x75; 0x300]); (0xFA, [0x75; 0x301]);
   (0xFB, [0x75; 0x302]); (0xFC, [0x75; 0x308]); (0xFD, [0x79; 0x301]); (0xFF, [0x79; 0x308]);
   (0xFF0B, [0x2B]); (0xFF0D, [0x2D]);
   (0xFF10, [0x30]); (0xFF11, [0x31]); (0xFF12, [0x32]); (0xFF13, [0x33]); (0xFF14, [0x34]);
   (0xFF15, [0x35]); (0xFF16, [0x36]); (0xFF17, [0x37]); (0xFF18, [0x38]); (0xFF19, [0x39])]%N.

Definition decomp (c : N) : list N :=
  match assoc c tabla_decomp with Some ds => ds | None => [c] end.

Definition en (a b c : N) : bool := (a <=? c)%N && (c <=? b)%N.

(** Canonical combining classes of the listed combining marks. *)
Definition ccc (c : N) : N :=
  if en 0x300 0x314 c then 230 else if en 0x316 0x319 c then 220
  else if en 0x327 0x328 c then 202 else 0.

(** Decimal values (category Nd) of the listed digits. *)
Definition decimal (c : N) : option N :=
  if en 0x30 0x39 c then Some (c - 0x30)%N
  else if en 0x660 0x669 c then Some (c - 0x660)%N
  else if en 0x6F0 0x6F9 c then Some (c - 0x6F0)%N
  else if en 0xFF10 0xFF19 c then Some (c - 0xFF10)%N
  else None.

Lemma assoc_in c t v : assoc c t = Some v -> (c, v) ∈ t.
Proof.
  induction t as [|[k w] t IH]; simpl; [done|].
  destruct (k =? c)%N eqn:E; [apply N.eqb_eq in E as ->; intros [= ->]; set_solver|].
  intros H. apply IH in H. set_solver.
Qed.

Lemma tabla_cerrada :
  forall c ds d, (c, ds) ∈ tabla_decomp -> d ∈ ds -> assoc d tabla_decomp = None.
Proof.
  assert (Hb : forallb (fun '(_, ds) => forallb (fun d => bool_decide (assoc d tabla_decomp = None)) ds)
                 tabla_decomp = true) by (vm_compute; reflexivity).
  intros c ds d Hin Hd. rewrite forallb_forall in Hb.
  specialize (Hb _ (proj1 (list_elem_of_In _ _) Hin)). simpl in Hb.
  rewrite forallb_forall in Hb. specialize (Hb d (proj1 (list_elem_of_In _ _) Hd)).
  by apply bool_decide_eq_true in Hb.
Qed.

Lemma tabla_claves c ds : (c, ds) ∈ tabla_decomp -> (160 <= c)%N /\ ((c <= 255)%N \/ (65291 <= c)%N).
Proof.
  assert (Hb : forallb (fun '(k, _) => (160 <=? k)%N && ((k <=? 255)%N || (65291 <=? k)%N)) tabla_decomp = true)
    by (vm_compute; reflexivity).
  intros Hin. rewrite forallb_forall in Hb.
  specialize (Hb _ (proj1 (list_elem_of_In _ _) Hin)). simpl in Hb.
  rewrite andb_true_iff, orb_true_iff, !N.leb_le in Hb. done.
Qed.

(** Walk an [if en a b c then .. else ..] chain one test at a time. *)
Ltac rangos :=
  unfold ccc, decimal in *;
  repeat match goal with
         | |- context [if en ?a ?b ?c then _ else _] =>
             let E := fresh "E" in destruct (en a b c) eqn:E;
             [unfold en in E; apply andb_true_iff in E as [?%N.leb_le ?%N.leb_le]|]
         | H : context [if en ?a ?b ?c then _ else _] |- _ =>
             let E := fresh "E" in destruct (en a b c) eqn:E;
             [unfold en in E; apply andb_true_iff in E as [?%N.leb_le ?%N.leb_le]|]
         end; simpl in *; try discriminate; try reflexivity; try lia.

Lemma en_falso a b c : (c < a \/ b < c)%N -> en a b c = false.
Proof.
  intros Hc. unfold en. destruct (N.leb_spec a c), (N.leb_spec c b); simpl; done || lia.
Qed.

Lemma decomp_ascii c : (c < 128)%N -> decomp c = [c].
Proof.
  intros Hc. unfold decomp. destruct (assoc c tabla_decomp) as [ds|] eqn:E; [|done].
  apply assoc_in, tabla_claves in E. lia.
Qed.

Lemma decomp_full c d : d ∈ decomp c -> decomp d = [d].
Proof.
  intros Hd. unfold decomp in *. destruct (assoc c tabla_decomp) as [ds|] eqn:E.
  - apply assoc_in in E. by rewrite (tabla_cerrada c ds d E Hd).
  - apply list_elem_of_singleton in Hd as ->. by rewrite E.
Qed.

Lemma ccc_fuera c : (c < 0x300 \/ 0x328 < c)%N -> ccc c = 0%N.
Proof. intros Hc. unfold ccc. rewrite !en_falso by lia. done. Qed.

Lemma decimal_starter c v : decimal c = Some v -> ccc c = 0%N.
Proof. intros Hv. apply ccc_fuera. rangos. Qed.

Lemma ccc_ascii c : (c < 128)%N -> ccc c = 0%N.
Proof. intros Hc. apply ccc_fuera. lia. Qed.

Lemma decimal_ascii c : (c < 128)%N ->
  decimal c = if (48 <=? c)%N && (c <=? 57)%N then Some (c - 48)%N else None.
Proof.
  intros Hc. unfold decimal. rewrite (en_falso 0x660), (en_falso 0x6F0), (en_falso 0xFF10) by lia.
  unfold en. by destruct ((48 <=? c)%N && (c <=? 57)%N).
Qed.

(** Not printable in the excerpt: C0 and C1 controls, DEL, NO-BREAK
    SPACE (Zs) and SOFT HYPHEN (Cf). *)
Definition printable (c : N) : bool :=
  negb ((c <? 32)%N || en 127 160 c || (c =? 173)%N).

Lemma printable_ascii c : (c < 128)%N -> printable c = (32 <=? c)%N && (c <? 127)%N.
Proof.
  intros Hc. unfold printable, en.
  destruct (N.ltb_spec c 32), (N.leb_spec 127 c), (N.leb_spec c 160), (N.eqb_spec c 173),
    (N.leb_spec 32 c), (N.ltb_spec c 127); simpl; done || lia.
Qed.

Lemma space_no_digit c d : py_isspace c = true -> d ∈ decomp c -> decimal d = None.
Proof.
  intros Hs Hd. unfold decomp in Hd. unfold py_isspace in Hs.
  repeat (apply orb_true_iff in Hs as [Hs|Hs]); rewrite ?andb_true_iff, ?N.leb_le, ?N.eqb_eq in Hs.
  all: destruct (assoc c tabla_decomp) as [ds|] eqn:E;
    [pose proof (tabla_claves _ _ (assoc_in _ _ _ E)); try lia|].
  all: try (apply list_elem_of_singleton in Hd as ->; unfold decimal, en;
            repeat match goal with |- context [(?a <=? ?b)%N] => destruct (N.leb_spec a b) end;
            simpl; try reflexivity; lia).
  subst c. vm_compute in E. injection E as <-. apply list_elem_of_singleton in Hd as ->. reflexivity.
Qed.

#[export] Instance ucd_excerpt : UnicodeDB :=
  {| ucd_decomp := decomp; ucd_ccc := ccc; ucd_decimal := decimal; ucd_printable := printable;
     ucd_printable_ascii := printable_ascii; ucd_space_no_digit := space_no_digit;
     ucd_decomp_full := decomp_full; ucd_decimal_starter := decimal_starter;
     ucd_decomp_ascii := decomp_ascii; ucd_ccc_ascii := ccc_ascii;
     ucd_decimal_ascii := decimal_ascii |}.

End Excerpt.

(** ** Concrete normalisations *)

Section Ejemplos.
Existing Instance Excerpt.ucd_excerpt.

(** The scenario of the design: "591 700-00000" is the key "+59170000000". *)
Example limpiar_numero_591 : limpiar_numero (u "591 700-00000") = u "+59170000000".
Proof. vm_compute. reflexivity. Qed.

(** Witness: spaces and a dash are noise. *)
Lemma limpiar_numero_sin_ruido_witness :
  filter (fun c => ~ ruido c) (u "591 700-00000") = filter (fun c => ~ ruido c) (u "59170000000") /\
  limpiar_numero (u "591 700-00000") = limpiar_numero (u "59170000000").
Proof.
  split; [vm_compute; reflexivity|].
  apply limpiar_numero_sin_ruido. vm_compute. reflexivity.
Defined.

(** Accented letters and fullwidth digits: "Nº ５９１" gives "+591". *)
Example limpiar_numero_compat : limpiar_numero [0x4E; 0xBA; 0x20; 0xFF15; 0xFF19; 0xFF11]%N = u "+591".
Proof. vm_compute. reflexivity. Qed.

(** Arabic-Indic digits are decimal digits without decomposition: they
    are kept as they are, so "٥٩١" and "591" are different keys. *)
Example limpiar_numero_arabe :
  limpiar_numero [0x665; 0x669; 0x661]%N = [cp_plus; 0x665; 0x669; 0x661]%N /\
  limpiar_numero [0x665; 0x669; 0x661]%N <> limpiar_numero (u "591").
Proof. split; vm_compute; [reflexivity|discriminate]. Qed.

End Ejemplos.
