(* ===== verification/PyConv.v ===== *)
(** * Python's [int(str)] and [float(str)] on form fields

    [enviar_voto] converts the identity number [ci] with [int(ci)]
    (app.py 641-645, [ValueError] caught), the birth date with
    [int(dia)], [int(mes)], [int(anio)] and the coordinates with
    [float(latitud)], [float(longitud)] (app.py 659-663, [ValueError] not
    caught).  CPython first maps every Unicode space to [' '] and every
    Unicode decimal digit to its ASCII digit, and rejects any other
    non-ASCII character ([_PyUnicode_TransformDecimalAndSpaceToASCII]);
    it then skips ASCII white space, reads an optional sign and digits
    with single underscores between them, skips trailing white space and
    fails if anything is left.  [int] refuses more than 4300 digits
    ([sys.get_int_max_str_digits()], Python 3.11 and later).  [None]
    stands for [ValueError]. *)

From S2P Require Import Prelude Unicode.

Local Open Scope N_scope.

(** [Py_ISSPACE] on the ASCII buffer: space, \t, \n, \v, \f, \r. *)
Definition ascii_space (c : N) : bool := ((9 <=? c) && (c <=? 13)) || (c =? 32).
Definition ascii_digit (c : N) : bool := (48 <=? c) && (c <=? 57).

Section Conversion.
Context {U : UnicodeDB}.

(** [_PyUnicode_TransformDecimalAndSpaceToASCII]. *)
Definition transformar (s : ustr) : option ustr :=
  mapM (fun c =>
          if c <? 127 then Some c
          else if py_isspace c then Some cp_space
          else match ucd_decimal c with Some d => Some (48 + d) | None => None end) s.

(** The digits after a first digit: [(["_"] digit)*]. *)
Fixpoint cola_digitos (s : ustr) : list N * ustr :=
  match s with
  | [] => ([], [])
  | c :: s' =>
      if ascii_digit c then let '(ds, r) := cola_digitos s' in (c :: ds, r)
      else if c =? cp_underscore then
        match s' with
        | d :: s'' => if ascii_digit d then let '(ds, r) := cola_digitos s'' in (d :: ds, r)
                      else ([], s)
        | [] => ([], s)
        end
      else ([], s)
  end.

(** [digitpart ::= digit (["_"] digit)*]. *)
Definition digitpart (s : ustr) : option (list N * ustr) :=
  match s with
  | c :: s' => if ascii_digit c then let '(ds, r) := cola_digitos s' in Some (c :: ds, r) else None
  | [] => None
  end.

Definition valor_digitos (ds : list N) : Z :=
  fold_left (fun acc d => (10 * acc + Z.of_N (d - 48))%Z) ds 0%Z.

(** An optional sign: [true] when negative. *)
Definition signo (s : ustr) : bool * ustr :=
  match s with
  | c :: s' => if c =? cp_plus then (false, s') else if c =? cp_minus then (true, s') else (false, s)
  | [] => (false, [])
  end.

Definition int_max_str_digits : nat := 4300.

(** [int(s)] for a [str] [s]. *)
Definition py_int (s : ustr) : option Z :=
  t ← transformar s;
  let '(neg, t1) := signo (lstrip_with ascii_space t) in
  '(ds, r) ← digitpart t1;
  if forallb ascii_space r && bool_decide (length ds <= int_max_str_digits)%nat then
    Some (if neg then Z.opp (valor_digitos ds) else valor_digitos ds)
  else None.

(** The value of [float(s)] before rounding to a double. *)
Inductive PyFloat :=
| PFNum (neg : bool) (mant : Z) (exp10 : Z)
| PFInf (neg : bool)
| PFNaN.

#[global] Instance pyfloat_eq_dec : EqDecision PyFloat.
Proof. solve_decision. Defined.

Definition ascii_lower (c : N) : N := if (65 <=? c) && (c <=? 90) then c + 32 else c.

(** The exponent [("e"|"E") [sign] digitpart], if present. *)
Definition exponente (s : ustr) : option (Z * ustr) :=
  match s with
  | c :: s' =>
      if ascii_lower c =? 101 then
        let '(neg, s1) := signo s' in
        '(ds, r) ← digitpart s1;
        Some (if neg then Z.opp (valor_digitos ds) else valor_digitos ds, r)
      else Some (0%Z, s)
  | [] => Some (0%Z, [])
  end.

(** [digitpart ["." [digitpart]] | "." digitpart]: integer and fraction digits. *)
Definition mantisa (s : ustr) : option (list N * list N * ustr) :=
  match digitpart s with
  | Some (ip, c :: r) =>
      if c =? cp_dot then
        match digitpart r with
        | Some (fp, r') => Some (ip, fp, r')
        | None => Some (ip, [], r)
        end
      else Some (ip, [], c :: r)
  | Some (ip, []) => Some (ip, [], [])
  | None =>
      match s with
      | c :: r => if c =? cp_dot then '(fp, r') ← digitpart r; Some ([], fp, r') else None
      | [] => None
      end
  end.

(** [float(s)] for a [str] [s]. *)
Definition py_float (s : ustr) : option PyFloat :=
  t ← transformar s;
  let '(neg, t1) := signo (lstrip_with ascii_space t) in
  let low := map ascii_lower t1 in
  let resto_ok r := forallb ascii_space r in
  if startswith (u "infinity") low && resto_ok (drop 8 low) then Some (PFInf neg)
  else if startswith (u "inf") low && resto_ok (drop 3 low) then Some (PFInf neg)
  else if startswith (u "nan") low && resto_ok (drop 3 low) then Some PFNaN
  else
    '(ip, fp, r) ← mantisa t1;
    '(e, r') ← exponente r;
    if resto_ok r' then
      let m := valor_digitos (ip ++ fp) in
      Some (PFNum neg m (e - Z.of_nat (length fp))%Z)
    else None.

End Conversion.

Section Ejemplos.
Existing Instance Excerpt.ucd_excerpt.

Example py_int_ejemplos :
  py_int (u " -1_000 ") = Some (-1000)%Z /\ py_int (u "1__0") = None /\
  py_int (u "_1") = None /\ py_int (u "1_") = None /\ py_int (u "") = None /\
  py_int (u "+007") = Some 7%Z /\ py_int [0xFF11; 0x662]%N = Some 12%Z /\
  py_int (u "1 2") = None /\ py_int [28; 49]%N = None.
Proof. vm_compute. repeat split. Qed.

Example py_float_ejemplos :
  py_float (u " -17.5 ") = Some (PFNum true 175 (-1)) /\ py_float (u "1e3") = Some (PFNum false 1 3) /\
  py_float (u ".5") = Some (PFNum false 5 (-1)) /\ py_float (u "5.") = Some (PFNum false 5 0) /\
  py_float (u "1e") = None /\ py_float (u "-Infinity") = Some (PFInf true) /\
  py_float (u "nan") = Some PFNaN /\ py_float (u "1_.5") = None /\ py_float (u ".") = None /\
  py_float (u "abc") = None.
Proof. vm_compute. repeat split. Qed.

End Ejemplos.
