(* ===== verification/Token.v ===== *)
(** * Token service: signed, timed link tokens

    The code builds one [URLSafeTimedSerializer(SECRET_KEY)] (app.py 182),
    signs [{"numero": n, "dominio": d}] with [serializer.dumps] when it
    issues a link (app.py 416-420, 509-513) and checks a presented token
    with [serializer.loads(token, max_age=600)] (app.py 550), catching
    [SignatureExpired] and [BadSignature] (app.py 567-570).

    [TokenService] is the contract the handlers rely on: issuing is
    deterministic and injective, a token issued at [t] validates at
    [now] exactly when [0 <= now - t <= max_age], fails with
    [SignatureExpired] otherwise, and every token that validates (or
    expires) was issued.  Module [ItsDangerous] models the library as an
    instance: a token is payload, timestamp and signature, the signature
    is a parameter [hmac] of the secret key (HMAC itself is not modelled),
    and [loads] follows [TimestampSigner.unsign]: signature first, then
    [age > max_age] or [age < 0] raise [SignatureExpired]. *)

From S2P Require Import Prelude.

Local Open Scope Z_scope.

(** The signed payload [{"numero": ..., "dominio": ...}]. *)
Record Payload := mkPayload { p_numero : ustr; p_dominio : ustr }.

#[export] Instance payload_eq_dec : EqDecision Payload.
Proof. solve_decision. Defined.

Inductive TokErr := SignatureExpired | BadSignature.

#[export] Instance tokerr_eq_dec : EqDecision TokErr.
Proof. solve_decision. Defined.

(** The window [0 <= now - t <= max_age] of a valid token. *)
Definition en_plazo (max_age t now : Z) : bool := (0 <=? now - t) && (now - t <=? max_age).

Class TokenService := {
  Tok : Type;
  tok_eq_dec :: EqDecision Tok;
  issue : Payload -> Z -> Tok;
  (** [bool(token)] of the token's text *)
  tok_truthy : Tok -> bool;
  validate : Tok -> Z -> Z -> TokErr + Payload;
  issue_inj : forall p t p' t', issue p t = issue p' t' -> p = p' /\ t = t';
  issue_truthy : forall p t, tok_truthy (issue p t) = true;
  validate_issue : forall p t max_age now,
    validate (issue p t) max_age now =
    if en_plazo max_age t now then inr p else inl SignatureExpired;
  validate_ok_issued : forall tok max_age now p,
    validate tok max_age now = inr p -> exists t, tok = issue p t;
  validate_expired_issued : forall tok max_age now,
    validate tok max_age now = inl SignatureExpired -> exists p t, tok = issue p t
}.

Section Contract.
Context {TS : TokenService}.

Lemma validate_ok_iff tok max_age now p :
  validate tok max_age now = inr p <-> exists t, tok = issue p t /\ en_plazo max_age t now = true.
Proof.
  split.
  - intros Hv. destruct (validate_ok_issued _ _ _ _ Hv) as [t ->]. exists t. split; [done|].
    rewrite validate_issue in Hv. by destruct (en_plazo max_age t now).
  - intros [t [-> Ht]]. by rewrite validate_issue, Ht.
Qed.

(** A token validates to the payload it was issued for, never another. *)
Lemma validate_issue_payload p t max_age now q :
  validate (issue p t) max_age now = inr q -> q = p.
Proof. rewrite validate_issue. by destruct (en_plazo _ _ _); intros [=]. Qed.

End Contract.

(** ** The itsdangerous model *)

Module ItsDangerous.

(** [payload.timestamp.signature] once split; [TkIlegible] is a string
    that does not split into the three parts. *)
Record Firmado := mkFirmado { f_payload : Payload; f_ts : Z; f_sig : Z }.
Inductive TokStr := TkFirmado (f : Firmado) | TkIlegible (s : ustr).

#[export] Instance firmado_eq_dec : EqDecision Firmado.
Proof. solve_decision. Defined.
#[export] Instance tokstr_eq_dec : EqDecision TokStr.
Proof. solve_decision. Defined.

Section Serializer.
Variable hmac : ustr -> Payload -> Z -> Z.
Variable secret_key : ustr.

(** [serializer.dumps(obj)] at time [now] ([int(time.time())]). *)
Definition dumps (p : Payload) (now : Z) : TokStr :=
  TkFirmado (mkFirmado p now (hmac secret_key p now)).

(** [serializer.loads(s, max_age)] at time [now]. *)
Definition loads (s : TokStr) (max_age now : Z) : TokErr + Payload :=
  match s with
  | TkIlegible _ => inl BadSignature
  | TkFirmado f =>
      if bool_decide (f_sig f = hmac secret_key (f_payload f) (f_ts f)) then
        let age := now - f_ts f in
        if age >? max_age then inl SignatureExpired
        else if age <? 0 then inl SignatureExpired
        else inr (f_payload f)
      else inl BadSignature
  end.

Lemma loads_dumps p t max_age now :
  loads (dumps p t) max_age now = if en_plazo max_age t now then inr p else inl SignatureExpired.
Proof.
  unfold loads, dumps, en_plazo. simpl. rewrite bool_decide_true by done.
  destruct (Z.gtb_spec (now - t) max_age), (Z.ltb_spec (now - t) 0),
    (Z.leb_spec 0 (now - t)), (Z.leb_spec (now - t) max_age); simpl; done || lia.
Qed.

Lemma loads_signed s max_age now r :
  loads s max_age now = r -> r <> inl BadSignature -> exists p t, s = dumps p t.
Proof.
  unfold loads. destruct s as [[p t sig]|]; simpl; [|by intros <-].
  case_bool_decide as Hs; [|by intros <-]. intros _ _. subst sig. by exists p, t.
Qed.

Definition truthy_tok (s : TokStr) : bool :=
  match s with TkFirmado _ => true | TkIlegible s => truthy_str s end.

Lemma dumps_truthy p t : truthy_tok (dumps p t) = true.
Proof. done. Qed.

Lemma dumps_inj p t p' t' : dumps p t = dumps p' t' -> p = p' /\ t = t'.
Proof. unfold dumps. by intros [= -> ->]. Qed.

Lemma loads_ok_issued s max_age now p :
  loads s max_age now = inr p -> exists t, s = dumps p t.
Proof.
  intros Hl. destruct (loads_signed s max_age now _ Hl) as [q [t ->]]; [done|].
  rewrite loads_dumps in Hl. exists t. destruct (en_plazo _ _ _); by simplify_eq.
Qed.

Lemma loads_expired_issued s max_age now :
  loads s max_age now = inl SignatureExpired -> exists p t, s = dumps p t.
Proof. intros Hl. by apply (loads_signed s max_age now _ Hl). Qed.

#[export] Instance itsdangerous : TokenService :=
  {| Tok := TokStr; issue := dumps; validate := loads; tok_truthy := truthy_tok;
     issue_inj := dumps_inj; issue_truthy := dumps_truthy; validate_issue := loads_dumps;
     validate_ok_issued := loads_ok_issued;
     validate_expired_issued := loads_expired_issued |}.

End Serializer.

End ItsDangerous.

(** A token service for concrete scenarios: the itsdangerous model with
    the default key of app.py 177 and a stand-in signing function. *)
Definition hmac_ejemplo (k : ustr) (p : Payload) (t : Z) : Z :=
  t + Z.of_nat (length k + length (p_numero p) + length (p_dominio p)).
Definition ts_ejemplo : TokenService :=
  ItsDangerous.itsdangerous hmac_ejemplo (u "clave-super-secreta").
