(* ===== verification/Store.v ===== *)
(** * The relational store: models [Voto], [NumeroTemporal],
    [WhatsappMensajeProcesado], [BloqueoWhatsapp] (app.py 207-257)

    Each table is a [gmap] keyed by its [unique=True] column ([numero],
    or [message_id]), so that the map itself is the unique index.  A
    handler's [db.session.commit()] applies a list of operations all or
    nothing: an insert whose key is taken raises [IntegrityError], an
    UPDATE of a row that is gone raises [StaleDataError], and a value
    that does not fit its column raises [DataError] (PostgreSQL: string
    longer than [String(n)], [Integer] outside 32 bits, [BigInteger]
    outside 64 bits) or [OverflowError] (sqlite3: integers outside 64
    bits).  In every case nothing of the commit is written. *)

From S2P Require Import Prelude Unicode PyConv Token.

Local Open Scope Z_scope.

Inductive Dialecto := SQLite | PostgreSQL.

Section Modelos.
Context {TS : TokenService}.

(** [class Voto] (app.py 207-227). *)
Record Voto := mkVoto {
  v_numero : ustr; v_genero : ustr; v_pais : ustr; v_departamento : ustr;
  v_provincia : ustr; v_id_municipio : option ustr; v_municipio : ustr; v_recinto : ustr;
  v_dia_nacimiento : Z; v_mes_nacimiento : Z; v_anio_nacimiento : Z;
  v_latitud : option PyFloat; v_longitud : option PyFloat;
  v_ip : ustr; v_fecha : Z; v_candidato : ustr; v_pregunta3 : ustr; v_ci : option Z }.

(** [class NumeroTemporal] (app.py 234-238): the pending authorisation. *)
Record NumeroTemporal := mkNumeroTemporal {
  nt_numero : ustr; nt_token : option Tok; nt_fecha : Z }.

(** [class WhatsappMensajeProcesado] (app.py 240-246). *)
Record MensajeProcesado := mkMensajeProcesado {
  mp_message_id : ustr; mp_numero : option ustr; mp_fecha : Z }.

(** [class BloqueoWhatsapp] (app.py 251-257). *)
Record Bloqueo := mkBloqueo {
  bw_numero : ustr; bw_intentos : Z; bw_bloqueado : bool }.

Record Db := mkDb {
  votos : gmap ustr Voto;
  temporales : gmap ustr NumeroTemporal;
  procesados : gmap ustr MensajeProcesado;
  bloqueos : gmap ustr Bloqueo }.

Definition db_vacia : Db := mkDb ∅ ∅ ∅ ∅.

(** ** Column bounds *)

(** [String(n)]: enforced by PostgreSQL, ignored by SQLite. *)
Definition cabe (d : Dialecto) (n : nat) (s : ustr) : bool :=
  match d with SQLite => true | PostgreSQL => bool_decide (length s <= n)%nat end.

Definition cabe_opt (d : Dialecto) (n : nat) (o : option ustr) : bool :=
  match o with Some s => cabe d n s | None => true end.

Definition int64_ok (z : Z) : bool := (- 2 ^ 63 <=? z) && (z <? 2 ^ 63).

(** [Integer]: 32 bits on PostgreSQL; any 64-bit value on SQLite. *)
Definition integer_ok (d : Dialecto) (z : Z) : bool :=
  match d with PostgreSQL => (- 2 ^ 31 <=? z) && (z <? 2 ^ 31) | SQLite => int64_ok z end.

Definition voto_ok (d : Dialecto) (v : Voto) : bool :=
  cabe d 50 (v_numero v) && cabe d 10 (v_genero v) && cabe d 100 (v_pais v)
  && cabe d 100 (v_departamento v) && cabe d 100 (v_provincia v)
  && cabe_opt d 20 (v_id_municipio v) && cabe d 100 (v_municipio v)
  && cabe d 100 (v_recinto v) && integer_ok d (v_dia_nacimiento v)
  && integer_ok d (v_mes_nacimiento v) && integer_ok d (v_anio_nacimiento v)
  && cabe d 50 (v_ip v) && cabe d 100 (v_candidato v) && cabe d 10 (v_pregunta3 v)
  && match v_ci v with Some ci => int64_ok ci | None => true end.

Definition temporal_ok (d : Dialecto) (nt : NumeroTemporal) : bool := cabe d 50 (nt_numero nt).

Definition procesado_ok (d : Dialecto) (mp : MensajeProcesado) : bool :=
  cabe d 120 (mp_message_id mp) && cabe_opt d 50 (mp_numero mp).

Definition bloqueo_ok (d : Dialecto) (b : Bloqueo) : bool :=
  cabe d 50 (bw_numero b) && integer_ok d (bw_intentos b).

(** ** Operations of a unit of work *)

Inductive Op :=
| InsVoto (v : Voto)
| InsTemporal (nt : NumeroTemporal)
| UpdTemporal (nt : NumeroTemporal)
| DelTemporal (numero : ustr)
| InsProcesado (mp : MensajeProcesado)
| InsBloqueo (b : Bloqueo)
| UpdBloqueo (b : Bloqueo).

(** INSERT under a unique index. *)
Definition insertar_unico {A} (ok : bool) (k : ustr) (r : A) (m : gmap ustr A) : res (gmap ustr A) :=
  if ok then match m !! k with Some _ => Exc ExcIntegrity | None => Ok (<[k:=r]> m) end
  else Exc ExcData.

(** UPDATE of a row loaded earlier in the request. *)
Definition actualizar {A} (ok : bool) (k : ustr) (r : A) (m : gmap ustr A) : res (gmap ustr A) :=
  if ok then match m !! k with Some _ => Ok (<[k:=r]> m) | None => Exc ExcStale end
  else Exc ExcData.

Definition aplicar (d : Dialecto) (op : Op) (db : Db) : res Db :=
  match op with
  | InsVoto v =>
      match insertar_unico (voto_ok d v) (v_numero v) v (votos db) with
      | Ok m => Ok (mkDb m (temporales db) (procesados db) (bloqueos db)) | Exc e => Exc e end
  | InsTemporal nt =>
      match insertar_unico (temporal_ok d nt) (nt_numero nt) nt (temporales db) with
      | Ok m => Ok (mkDb (votos db) m (procesados db) (bloqueos db)) | Exc e => Exc e end
  | UpdTemporal nt =>
      match actualizar (temporal_ok d nt) (nt_numero nt) nt (temporales db) with
      | Ok m => Ok (mkDb (votos db) m (procesados db) (bloqueos db)) | Exc e => Exc e end
  | DelTemporal n => Ok (mkDb (votos db) (delete n (temporales db)) (procesados db) (bloqueos db))
  | InsProcesado mp =>
      match insertar_unico (procesado_ok d mp) (mp_message_id mp) mp (procesados db) with
      | Ok m => Ok (mkDb (votos db) (temporales db) m (bloqueos db)) | Exc e => Exc e end
  | InsBloqueo b =>
      match insertar_unico (bloqueo_ok d b) (bw_numero b) b (bloqueos db) with
      | Ok m => Ok (mkDb (votos db) (temporales db) (procesados db) m) | Exc e => Exc e end
  | UpdBloqueo b =>
      match actualizar (bloqueo_ok d b) (bw_numero b) b (bloqueos db) with
      | Ok m => Ok (mkDb (votos db) (temporales db) (procesados db) m) | Exc e => Exc e end
  end.

(** [db.session.commit()]: every operation or none. *)
Fixpoint commit (d : Dialecto) (ops : list Op) (db : Db) : res Db :=
  match ops with
  | [] => Ok db
  | op :: ops' => match aplicar d op db with Ok db' => commit d ops' db' | Exc e => Exc e end
  end.

(** ** Well-formedness: every row is stored under its own key *)

Definition tabla_wf {A} (key : A -> ustr) (m : gmap ustr A) : Prop :=
  map_Forall (fun k r => key r = k) m.

Definition db_wf (db : Db) : Prop :=
  tabla_wf v_numero (votos db) /\ tabla_wf nt_numero (temporales db)
  /\ tabla_wf mp_message_id (procesados db) /\ tabla_wf bw_numero (bloqueos db).

#[global] Instance db_wf_dec db : Decision (db_wf db).
Proof. unfold db_wf, tabla_wf. apply _. Defined.

End Modelos.


Section Lemas.
Context {TS : TokenService}.

Lemma insertar_unico_wf {A} (key : A -> ustr) ok r m m' :
  tabla_wf key m -> insertar_unico ok (key r) r m = Ok m' -> tabla_wf key m'.
Proof.
  unfold insertar_unico. intros Hwf Hi. destruct ok; [|done].
  destruct (m !! key r); simplify_eq. by apply map_Forall_insert_2.
Qed.

Lemma actualizar_wf {A} (key : A -> ustr) ok r m m' :
  tabla_wf key m -> actualizar ok (key r) r m = Ok m' -> tabla_wf key m'.
Proof.
  unfold actualizar. intros Hwf Hi. destruct ok; [|done].
  destruct (m !! key r); simplify_eq. by apply map_Forall_insert_2.
Qed.

Lemma delete_wf {A} (key : A -> ustr) k m : tabla_wf key m -> tabla_wf key (delete k m).
Proof. apply map_Forall_delete. Qed.

Lemma aplicar_wf d op db db' : db_wf db -> aplicar d op db = Ok db' -> db_wf db'.
Proof.
  intros (H1 & H2 & H3 & H4) Ha.
  destruct op; simpl in Ha; repeat case_match; simplify_eq;
    repeat split; simpl; eauto using insertar_unico_wf, actualizar_wf, delete_wf.
Qed.

(** Every commit keeps each row stored under its unique key. *)
Lemma commit_wf d ops db db' : db_wf db -> commit d ops db = Ok db' -> db_wf db'.
Proof.
  revert db. induction ops as [|op ops IH]; intros db Hwf Hc; simpl in Hc; [by simplify_eq|].
  destruct (aplicar d op db) as [db1|] eqn:Ha; [|done]. eauto using aplicar_wf.
Qed.

Lemma commit_app d ops1 ops2 db :
  commit d (ops1 ++ ops2) db = match commit d ops1 db with Ok db' => commit d ops2 db' | Exc e => Exc e end.
Proof.
  revert db. induction ops1 as [|op ops1 IH]; intros db; simpl; [done|].
  destruct (aplicar d op db); [apply IH|done].
Qed.

Lemma db_vacia_wf : db_wf db_vacia.
Proof. repeat split; apply map_Forall_empty. Qed.

(** The unique index on [Voto.numero]: a second ballot for the same
    number is refused with [IntegrityError]. *)
Lemma insvoto_duplicado d v db :
  is_Some (votos db !! v_numero v) -> voto_ok d v = true -> aplicar d (InsVoto v) db = Exc ExcIntegrity.
Proof. intros [w Hw] Hok. simpl. unfold insertar_unico. by rewrite Hok, Hw. Qed.

(** ** What a successful commit of one operation did *)

Lemma insertar_unico_ok {A} ok k (r : A) m m' :
  insertar_unico ok k r m = Ok m' -> ok = true /\ m !! k = None /\ m' = <[k:=r]> m.
Proof. unfold insertar_unico. destruct ok; [|done]. destruct (m !! k); by intros [=]. Qed.

Lemma actualizar_ok {A} ok k (r : A) m m' :
  actualizar ok k r m = Ok m' -> ok = true /\ is_Some (m !! k) /\ m' = <[k:=r]> m.
Proof. unfold actualizar. destruct ok; [|done]. destruct (m !! k); by intros [=]. Qed.

Lemma commit_upd_temporal d nt db db' :
  commit d [UpdTemporal nt] db = Ok db' ->
  is_Some (temporales db !! nt_numero nt) /\
  db' = mkDb (votos db) (<[nt_numero nt := nt]> (temporales db)) (procesados db) (bloqueos db).
Proof.
  simpl. destruct (actualizar _ _ _ _) eqn:E; [intros [=<-]|done].
  apply actualizar_ok in E as (_ & ? & ->). done.
Qed.

Lemma commit_ins_temporal d nt db db' :
  commit d [InsTemporal nt] db = Ok db' ->
  temporales db !! nt_numero nt = None /\
  db' = mkDb (votos db) (<[nt_numero nt := nt]> (temporales db)) (procesados db) (bloqueos db).
Proof.
  simpl. destruct (insertar_unico _ _ _ _) eqn:E; [intros [=<-]|done].
  apply insertar_unico_ok in E as (_ & ? & ->). done.
Qed.

Lemma commit_bloqueo d b db db' :
  (commit d [InsBloqueo b] db = Ok db' \/ commit d [UpdBloqueo b] db = Ok db') ->
  db' = mkDb (votos db) (temporales db) (procesados db) (<[bw_numero b := b]> (bloqueos db)).
Proof.
  simpl. intros [H|H].
  - destruct (insertar_unico _ _ _ _) eqn:E; [injection H as <-|done]. by apply insertar_unico_ok in E as (_ & _ & ->).
  - destruct (actualizar _ _ _ _) eqn:E; [injection H as <-|done]. by apply actualizar_ok in E as (_ & _ & ->).
Qed.

Lemma commit_voto d v db db' :
  commit d [InsVoto v; DelTemporal (v_numero v)] db = Ok db' ->
  votos db !! v_numero v = None /\
  db' = mkDb (<[v_numero v := v]> (votos db)) (delete (v_numero v) (temporales db)) (procesados db) (bloqueos db).
Proof.
  simpl. destruct (insertar_unico _ _ _ _) eqn:E; [intros [=<-]|done].
  apply insertar_unico_ok in E as (_ & ? & ->). done.
Qed.

End Lemas.

#[export] Hint Resolve db_vacia_wf : voto.

