(* ===== verification/Mundo.v ===== *)
(** * What a handler acts on: configuration, outbound messages, store

    [Entorno] holds the environment variables the handlers read
    ([AZURE_DOMAIN], [WABA_TOKEN]) and the SQL dialect behind
    [DATABASE_URL].  An outbound WhatsApp message is an [Envio] appended
    to the outbox of the world: the code never observes whether 360dialog
    delivered it (every [requests.post] is inside a [try] whose
    [except] only logs), so the outbox records the requests made.
    [Mensaje] has one constructor per message text of app.py. *)

From S2P Require Import Prelude Token Store.

Record Entorno := mkEntorno {
  env_azure_domain : option ustr;
  env_waba_token : option ustr;
  env_dialecto : Dialecto }.

(** [os.environ.get("AZURE_DOMAIN", request.host_url.rstrip('/')).rstrip('/')]
    (app.py 414 and 506): the domain signed into a new token. *)
Definition dominio_emisor (env : Entorno) (host_url : ustr) : ustr :=
  rstrip_slash (default (rstrip_slash host_url) (env_azure_domain env)).

Section Mundo.
Context {TS : TokenService}.

(** The message texts of app.py. *)
Inductive Mensaje :=
| MsgAdvertencia (n : Z)                 (** app.py 372-378, "Advertencia n/3" *)
| MsgExcedido                            (** app.py 380-383 *)
| MsgEnlace (dominio : ustr) (token : Tok) (** app.py 432-438, link [dominio/votar?token=..] *)
| MsgYaUtilizado                         (** app.py 554 *)
| MsgDatosFalsos.                        (** app.py 574 *)

(** One POST to [https://waba-v2.360dialog.io/messages]. *)
Record Envio := mkEnvio { e_to : ustr; e_mensaje : Mensaje; e_api_key : option ustr }.

Record Mundo := mkMundo { m_db : Db; m_salida : list Envio }.

Definition poner_db (db : Db) : PyM Mundo unit :=
  pmodify (fun w => mkMundo db (m_salida w)).

(** [requests.post(...)] with the API key header [os.environ.get("WABA_TOKEN")]. *)
Definition post_whatsapp (env : Entorno) (numero : ustr) (m : Mensaje) : PyM Mundo unit :=
  pmodify (fun w => mkMundo (m_db w) (m_salida w ++ [mkEnvio numero m (env_waba_token env)])).

(** [enviar_mensaje_whatsapp(numero, mensaje)] (app.py 141-168): no
    request without [WABA_TOKEN]; its boolean result is ignored by both
    callers (app.py 554, 574). *)
Definition enviar_mensaje_whatsapp (env : Entorno) (numero : ustr) (m : Mensaje) : PyM Mundo unit :=
  match env_waba_token env with
  | None => pret tt
  | Some _ => post_whatsapp env numero m
  end.

(** [db.session.commit()] of a list of operations against the world's store. *)
Definition db_commit (env : Entorno) (ops : list Op) : PyM Mundo unit :=
  fun w => match commit (env_dialecto env) ops (m_db w) with
           | Ok db' => (mkMundo db' (m_salida w), Ok tt)
           | Exc e => (w, Exc e)
           end.

End Mundo.

Section Efectos.
Context {TS : TokenService}.

Lemma ptry_pret_fst {A} (m : PyM Mundo A) (a : A) w : (ptry m (fun _ => pret a) w).1 = (m w).1.
Proof. unfold ptry. by destruct (m w) as [? []]. Qed.

Lemma db_commit_efecto env ops w :
  ((db_commit env ops w).2 = Ok tt /\ m_salida (db_commit env ops w).1 = m_salida w /\
   commit (env_dialecto env) ops (m_db w) = Ok (m_db (db_commit env ops w).1)) \/
  ((db_commit env ops w).1 = w /\ exists e, (db_commit env ops w).2 = Exc e).
Proof. unfold db_commit. destruct (commit _ ops _); [left|right]; eauto. Qed.

Lemma post_whatsapp_db env n m w : m_db (post_whatsapp env n m w).1 = m_db w.
Proof. done. Qed.

Lemma enviar_mensaje_whatsapp_db env n m w : m_db (enviar_mensaje_whatsapp env n m w).1 = m_db w.
Proof. unfold enviar_mensaje_whatsapp. by destruct (env_waba_token env). Qed.

(** [c ;;; post] changes the store as [c] does. *)
Lemma pbind_post_db {A} (c : PyM Mundo A) env n m w :
  m_db ((c ;;; post_whatsapp env n m)%py w).1 = m_db (c w).1.
Proof. unfold pbind. by destruct (c w) as [w' []]. Qed.

End Efectos.
