(* ===== verification/Guard.v ===== *)
(** * Abuse guard: progressive lockout of unregistered numbers
    (app.py 347-405)

    For a number with no [NumeroTemporal] row the webhook creates a
    [BloqueoWhatsapp] row with [intentos = 1] or increments [intentos],
    sets [bloqueado] when [intentos >= 4], commits, and sends the warning
    "Advertencia n/3" while [intentos < 4], the "exceeded" text
    otherwise.  A blocked number is answered with nothing (app.py 352).

    [paso_guardia] is the per-number effect of one inbound message of an
    unregistered number; [paso_abstracto] is the machine of the design,
    [Desconocido -> Advertido n -> Bloqueado]; [guardia_refina] shows
    that every concrete step from a reachable row is a step of the
    machine that sends exactly the reply the machine prescribes. *)

From S2P Require Import Prelude Token Store Mundo.

Local Open Scope Z_scope.

Section Guardia.
Context {TS : TokenService}.

Definition umbral : Z := 4.

(** app.py 362-368: the row after one more unauthorised attempt, and
    the operation that the commit of line 369 writes. *)
Definition nuevo_intento (numero : ustr) (bloqueo : option Bloqueo) : Bloqueo * Op :=
  match bloqueo with
  | None => let b := mkBloqueo numero 1 false in (b, InsBloqueo b)
  | Some b =>
      let i := bw_intentos b + 1 in
      let b' := mkBloqueo (bw_numero b) i (if i >=? umbral then true else bw_bloqueado b) in
      (b', UpdBloqueo b')
  end.

(** app.py 371-383. *)
Definition advertencia (b : Bloqueo) : Mensaje :=
  if bw_intentos b <? umbral then MsgAdvertencia (bw_intentos b) else MsgExcedido.

(** app.py 361-405: update the counter, commit, send the reply; the
    send's own exception handler (402-403) swallows transport errors,
    which the outbox model never raises. *)
Definition manejar_no_autorizado (env : Entorno) (numero : ustr) (bloqueo : option Bloqueo)
  : PyM Mundo unit :=
  let '(b, op) := nuevo_intento numero bloqueo in
  (db_commit env [op] ;;; post_whatsapp env numero (advertencia b))%py.

(** The per-number effect of one message from an unregistered number:
    the test of line 352, then [manejar_no_autorizado]. *)
Definition paso_guardia (numero : ustr) (o : option Bloqueo) : option Bloqueo * option Mensaje :=
  match o with
  | Some b => if bw_bloqueado b then (o, None)
              else let b' := fst (nuevo_intento numero o) in (Some b', Some (advertencia b'))
  | None => let b' := fst (nuevo_intento numero o) in (Some b', Some (advertencia b'))
  end.

(** ** The machine of the design *)

Inductive Estado := Desconocido | Advertido (n : Z) | Bloqueado.

Definition abstraer (o : option Bloqueo) : Estado :=
  match o with
  | None => Desconocido
  | Some b => if bw_bloqueado b then Bloqueado else Advertido (bw_intentos b)
  end.

(** One inbound message and the reply it gets. *)
Inductive paso_abstracto : Estado -> Estado -> option Mensaje -> Prop :=
| pa_primero : paso_abstracto Desconocido (Advertido 1) (Some (MsgAdvertencia 1))
| pa_advertir n : 1 <= n < umbral - 1 ->
    paso_abstracto (Advertido n) (Advertido (n + 1)) (Some (MsgAdvertencia (n + 1)))
| pa_bloquear : paso_abstracto (Advertido (umbral - 1)) Bloqueado (Some MsgExcedido)
| pa_silencio : paso_abstracto Bloqueado Bloqueado None.

(** The reachable rows: [1 <= intentos <= 4] and blocked exactly at 4. *)
Definition bloqueo_inv (numero : ustr) (o : option Bloqueo) : Prop :=
  match o with
  | None => True
  | Some b => bw_numero b = numero /\ 1 <= bw_intentos b <= umbral
              /\ (bw_bloqueado b = true <-> bw_intentos b = umbral)
  end.

(** The row a counted message writes is again a reachable row. *)
Lemma nuevo_intento_inv numero o :
  bloqueo_inv numero o -> (forall b, o = Some b -> bw_bloqueado b = false) ->
  bloqueo_inv numero (Some (nuevo_intento numero o).1).
Proof.
  unfold bloqueo_inv. destruct o as [[n i bl]|]; simpl; unfold umbral.
  - intros (-> & Hi & Hbl) Hnb. specialize (Hnb _ eq_refl). simpl in Hnb. subst bl.
    assert (i <> 4) by (intros Hi4; by apply Hbl in Hi4).
    split; [done|]. destruct (Z.geb_spec (i + 1) 4); (split; [lia|]); split; intros; (done || lia).
  - intros _ _. repeat split; intros; (done || lia).
Qed.

(** The row a counted message writes fits its columns when the number
    fits [String(50)]: the counter stays below [2^31]. *)
Lemma nuevo_intento_ok d numero o :
  bloqueo_inv numero o -> cabe d 50 numero = true -> bloqueo_ok d (nuevo_intento numero o).1 = true.
Proof.
  unfold bloqueo_inv, bloqueo_ok, integer_ok, int64_ok, umbral.
  destruct o as [[n i bl]|]; simpl; [intros (-> & Hi & _)|intros _]; intros ->;
    destruct d; simpl; repeat (apply andb_true_iff; split); (apply Z.leb_le || apply Z.ltb_lt); lia.
Qed.

(** The row after any inbound message of an unregistered number is
    again a reachable row. *)
Lemma paso_guardia_inv numero o :
  bloqueo_inv numero o -> bloqueo_inv numero (paso_guardia numero o).1.
Proof.
  intros Hinv. destruct o as [[n i []]|]; [exact Hinv| |];
    (apply (nuevo_intento_inv numero _ Hinv); by intros ? [= <-]).
Qed.

(** C7: every step of the guard from a reachable row is a step of the
    design's machine, with the reply the machine prescribes, and leads to
    a reachable row. *)
Theorem guardia_refina numero o :
  bloqueo_inv numero o ->
  bloqueo_inv numero (paso_guardia numero o).1 /\
  paso_abstracto (abstraer o) (abstraer (paso_guardia numero o).1) (paso_guardia numero o).2.
Proof.
  unfold bloqueo_inv. destruct o as [[n i bl]|]; simpl; unfold umbral in *.
  - intros (-> & Hi & Hbl). destruct bl; simpl.
    + assert (i = 4) as -> by (by apply Hbl). split; [done|constructor].
    + assert (i <> 4) by (intros Hi4; by apply Hbl in Hi4).
      unfold advertencia, umbral; simpl.
      destruct (Z.geb_spec (i + 1) 4); simpl.
      * assert (i = 3) as -> by lia. split; [repeat split; intros; (done || lia)|exact pa_bloquear].
      * destruct (Z.ltb_spec (i + 1) 4); [|lia].
        split; [repeat split; intros; (done || lia)|]. apply pa_advertir. unfold umbral. lia.
  - intros _. split; [repeat split; intros; (done || lia)|]. constructor.
Qed.

(** [k] successive messages of the same unregistered number. *)
Fixpoint iterar_guardia (numero : ustr) (k : nat) (o : option Bloqueo)
  : option Bloqueo * list (option Mensaje) :=
  match k with
  | O => (o, [])
  | S k' => let '(o1, r) := paso_guardia numero o in
            let '(o2, rs) := iterar_guardia numero k' o1 in (o2, r :: rs)
  end.

(** The row of an unregistered number after [j <= 4] counted messages. *)
Definition fila_tras (numero : ustr) (j : nat) : option Bloqueo :=
  match j with
  | O => None
  | S _ => Some (mkBloqueo numero (Z.of_nat j) (bool_decide (j = 4)%nat))
  end.

(** The reply to the [i]-th message of an unregistered number. *)
Definition respuesta (i : nat) : option Mensaje :=
  if (i <? 4)%nat then Some (MsgAdvertencia (Z.of_nat i))
  else if (i =? 4)%nat then Some MsgExcedido else None.

Lemma paso_fila_tras numero j :
  (j <= 4)%nat -> paso_guardia numero (fila_tras numero j) = (fila_tras numero (Nat.min 4 (S j)), respuesta (S j)).
Proof. intros Hj. do 5 (destruct j as [|j]; [reflexivity|]). lia. Qed.

Lemma respuesta_silencio a k : (5 <= a)%nat -> map respuesta (seq a k) = replicate k None.
Proof.
  revert a. induction k as [|k IH]; intros a Ha; [done|]. simpl. rewrite IH by lia.
  unfold respuesta. destruct (Nat.ltb_spec a 4), (Nat.eqb_spec a 4); done || lia.
Qed.

Lemma iterar_fila_tras numero k j :
  (j <= 4)%nat ->
  iterar_guardia numero k (fila_tras numero j) = (fila_tras numero (Nat.min 4 (j + k)), map respuesta (seq (S j) k)).
Proof.
  revert j. induction k as [|k IH]; intros j Hj.
  { cbn [iterar_guardia seq map]. do 2 f_equal. lia. }
  cbn [iterar_guardia seq map]. rewrite paso_fila_tras by done. rewrite IH by lia.
  replace (Nat.min 4 (Nat.min 4 (S j) + k)) with (Nat.min 4 (j + S k)) by lia.
  destruct (decide (j = 4)%nat) as [->|Hne].
  - simpl. by rewrite !respuesta_silencio by lia.
  - by replace (Nat.min 4 (S j)) with (S j) by lia.
Qed.

(** C24: the guard over any number [k] of messages of an unregistered
    number: the [i]-th message is answered "Advertencia i/3" for
    [i < 4], the final notice for [i = 4], and nothing after; the row
    then holds [min 4 k] attempts and is blocked exactly when it holds
    four. *)
Theorem guardia_respuestas numero k :
  iterar_guardia numero k None = (fila_tras numero (Nat.min 4 k), map respuesta (seq 1 k)).
Proof. apply (iterar_fila_tras numero k 0). lia. Qed.

(** C25: a blocked number stays blocked and gets no reply, whatever
    number of messages it sends: there is no unblocking path. *)
Theorem guardia_bloqueo_permanente numero b k :
  bw_bloqueado b = true -> iterar_guardia numero k (Some b) = (Some b, replicate k None).
Proof.
  intros Hb. induction k as [|k IH]; [done|]. simpl. rewrite Hb, IH. done.
Qed.

(** The counter of a row, [0] for no row. *)
Definition intentos_de (o : option Bloqueo) : Z :=
  match o with Some b => bw_intentos b | None => 0 end.

Lemma intentos_de_inv numero o : bloqueo_inv numero o -> 0 <= intentos_de o <= umbral.
Proof. destruct o; simpl; [intros (_ & ? & _)|intros _]; unfold umbral in *; lia. Qed.

Lemma iterar_guardia_S_fst numero k o :
  (iterar_guardia numero (S k) o).1 = (iterar_guardia numero k (paso_guardia numero o).1).1.
Proof. simpl. destruct (paso_guardia numero o). by destruct (iterar_guardia _ _ _). Qed.

(** The variant of the guard: [umbral - intentos] messages are left
    before the row is blocked. *)
Lemma iterar_guardia_bloquea numero m : forall o,
  bloqueo_inv numero o -> (Z.to_nat (umbral - intentos_de o) <= m)%nat ->
  exists b, (iterar_guardia numero m o).1 = Some b /\ bw_bloqueado b = true.
Proof.
  induction m as [|m IH]; intros o Hinv Hm.
  - destruct o as [b|]; simpl in *; unfold umbral in *; [|lia].
    exists b. split; [done|]. apply Hinv. lia.
  - destruct (paso_guardia numero o) as [o1 r] eqn:Hp.
    rewrite iterar_guardia_S_fst, Hp. simpl.
    assert (Hinv1 := paso_guardia_inv numero o Hinv). rewrite Hp in Hinv1.
    apply IH; [done|]. clear IH Hinv1.
    destruct o as [[n i []]|]; simpl in Hp; injection Hp as <- _; simpl in *; unfold umbral in *; [|lia..].
    destruct Hinv as (_ & _ & Hb). assert (i = 4) by (by apply Hb). lia.
Qed.

(** C13: liveness of the guard.  Whatever reachable row an unregistered
    number has, [umbral] (four) further messages of that number leave it
    blocked. *)
Theorem guardia_bloquea numero o :
  bloqueo_inv numero o ->
  exists b, (iterar_guardia numero (Z.to_nat umbral) o).1 = Some b /\ bw_bloqueado b = true.
Proof.
  intros Hinv. apply iterar_guardia_bloquea; [done|].
  pose proof (intentos_de_inv numero o Hinv). lia.
Qed.

End Guardia.

Section Testigos.
#[local] Existing Instance ts_ejemplo.

Lemma guardia_refina_witness :
  bloqueo_inv (u "+591") (Some (mkBloqueo (u "+591") 3 false)) /\
  bloqueo_inv (u "+591") (paso_guardia (u "+591") (Some (mkBloqueo (u "+591") 3 false))).1 /\
  paso_abstracto (abstraer (Some (mkBloqueo (u "+591") 3 false)))
    (abstraer (paso_guardia (u "+591") (Some (mkBloqueo (u "+591") 3 false))).1)
    (paso_guardia (u "+591") (Some (mkBloqueo (u "+591") 3 false))).2.
Proof.
  assert (H : bloqueo_inv (u "+591") (Some (mkBloqueo (u "+591") 3 false)))
    by (vm_compute; repeat split; intros; (done || lia)).
  split; [exact H|]. apply guardia_refina. exact H.
Defined.

Lemma guardia_bloquea_witness :
  bloqueo_inv (u "+591") (Some (mkBloqueo (u "+591") 2 false)) /\
  exists b, (iterar_guardia (u "+591") (Z.to_nat umbral) (Some (mkBloqueo (u "+591") 2 false))).1 = Some b /\
            bw_bloqueado b = true.
Proof.
  assert (H : bloqueo_inv (u "+591") (Some (mkBloqueo (u "+591") 2 false)))
    by (vm_compute; repeat split; intros; (done || lia)).
  split; [exact H|]. exact (guardia_bloquea _ _ H).
Defined.

Lemma guardia_bloqueo_permanente_witness :
  bw_bloqueado (mkBloqueo (u "+591") 4 true) = true /\
  iterar_guardia (u "+591") 3
    (Some (mkBloqueo (u "+591") 4 true)) = (Some (mkBloqueo (u "+591") 4 true), replicate 3 None).
Proof. split; [reflexivity|]. apply guardia_bloqueo_permanente. reflexivity. Defined.

End Testigos.
