(* ===== verification/Json.v ===== *)
(** * Webhook payloads: JSON values as Python sees them (app.py 280-337)

    [request.get_json(force=True, silent=True) or {}] gives a Python
    value built by [json.loads]: [None], [bool], [int], [str], [list] or
    [dict] (a JSON object with a repeated key keeps its last value).
    JSON numbers with a fraction or an exponent ([float]) are not
    modelled.  This file has Python truthiness, [dict.get], [str()] of a
    value (used by [limpiar_numero(numero_raw)]) and the normalisation of
    the two provider formats: [extraer_mensajes] (288-299),
    [primer_mensaje] (307), [message_id_de] (308), [numero_raw_de] (323)
    and [texto_de] (327-337).  [None] as a result stands for an exception
    ([IndexError], [KeyError], [TypeError], [AttributeError]), which the
    handler's outer [except] (464-465) swallows. *)

From S2P Require Import Prelude Unicode.

Local Set Warnings "-register-all".

Inductive json :=
| JNull
| JBool (b : bool)
| JInt (z : Z)
| JStr (s : ustr)
| JArr (l : list json)
| JObj (kvs : list (ustr * json)).

(** Truthiness ([bool(x)]). *)
Definition truthy (j : json) : bool :=
  match j with
  | JNull => false
  | JBool b => b
  | JInt z => negb (Z.eqb z 0)
  | JStr s => truthy_str s
  | JArr l => negb (bool_decide (l = []))
  | JObj kvs => negb (bool_decide (kvs = []))
  end.

(** [d.get(k)]: the last binding of [k]. *)
Definition dget (k : ustr) (kvs : list (ustr * json)) : option json :=
  fold_left (fun acc '(k', v) => if bool_decide (k' = k) then Some v else acc) kvs None.

(** [d.get(k)] with [None] as a JSON value, and [k in d]. *)
Definition dget_null (k : ustr) (kvs : list (ustr * json)) : json := default JNull (dget k kvs).
Definition dmem (k : ustr) (kvs : list (ustr * json)) : bool := bool_decide (is_Some (dget k kvs)).

(** [x or y]. *)
Definition py_or (x y : json) : json := if truthy x then x else y.

(** ** [str()] of a value *)

Definition hex_digit (n : N) : N := if (n <? 10)%N then 48 + n else 87 + n.

(** [n] as [w] lowercase hexadecimal digits. *)
Fixpoint hex_w (w : nat) (n : N) : ustr :=
  match w with
  | O => []
  | S w' => hex_w w' (n / 16)%N ++ [hex_digit (n mod 16)%N]
  end.

Section Str.
Context {U : UnicodeDB}.
Local Open Scope N_scope.

(** One character inside [repr(str)] quoted with [q]. *)
Definition escapar (q c : N) : ustr :=
  if (c =? q)%N || (c =? 92)%N then [92; c]
  else if (c =? 9)%N then u "\t"
  else if (c =? 10)%N then [92; 110]
  else if (c =? 13)%N then [92; 114]
  else if ucd_printable c then [c]
  else if (c <? 256)%N then [92; 120] ++ hex_w 2 c
  else if (c <? 65536)%N then [92; 117] ++ hex_w 4 c
  else [92; 85] ++ hex_w 8 c.

(** [repr(s)] for a [str]: single quotes unless the text has a single
    quote and no double quote. *)
Definition repr_str (s : ustr) : ustr :=
  let q := if bool_decide (39%N ∈ s) && negb (bool_decide (34%N ∈ s)) then 34%N else 39%N in
  q :: flat_map (escapar q) s ++ [q].

(** [str(z)] for an [int]. *)
Fixpoint uint_digitos (d : Decimal.uint) : ustr :=
  match d with
  | Decimal.Nil => []
  | Decimal.D0 d' => 48 :: uint_digitos d' | Decimal.D1 d' => 49 :: uint_digitos d'
  | Decimal.D2 d' => 50 :: uint_digitos d' | Decimal.D3 d' => 51 :: uint_digitos d'
  | Decimal.D4 d' => 52 :: uint_digitos d' | Decimal.D5 d' => 53 :: uint_digitos d'
  | Decimal.D6 d' => 54 :: uint_digitos d' | Decimal.D7 d' => 55 :: uint_digitos d'
  | Decimal.D8 d' => 56 :: uint_digitos d' | Decimal.D9 d' => 57 :: uint_digitos d'
  end.

Definition str_int (z : Z) : ustr :=
  if (z <? 0)%Z then cp_minus :: uint_digitos (N.to_uint (Z.to_N (- z)))
  else uint_digitos (N.to_uint (Z.to_N z)).

Fixpoint unir (sep : ustr) (xs : list ustr) : ustr :=
  match xs with
  | [] => []
  | [x] => x
  | x :: xs' => x ++ sep ++ unir sep xs'
  end.

Fixpoint py_repr (j : json) : ustr :=
  match j with
  | JNull => u "None"
  | JBool true => u "True"
  | JBool false => u "False"
  | JInt z => str_int z
  | JStr s => repr_str s
  | JArr l => u "[" ++ unir (u ", ") (map py_repr l) ++ u "]"
  | JObj kvs => u "{" ++ unir (u ", ") (map (fun '(k, v) => repr_str k ++ u ": " ++ py_repr v) kvs) ++ u "}"
  end.

(** [str(x)]. *)
Definition py_str (j : json) : ustr :=
  match j with JStr s => s | _ => py_repr j end.

End Str.

(** ** Normalisation of the provider formats *)

(** [(x or [])[0] or {}]; [None] when the indexing raises. *)
Definition primero_o_vacio (x : json) : option json :=
  match py_or x (JArr []) with
  | JArr (e :: _) => Some (py_or e (JObj []))
  | JStr (c :: _) => Some (JStr [c])
  | _ => None
  end.

(** [d.get(k)] on a value that must be a [dict] ([AttributeError] otherwise). *)
Definition get_de (k : ustr) (d : json) : option json :=
  match d with JObj kvs => Some (dget_null k kvs) | _ => None end.

(** app.py 288-295, Meta Graph format, inside its own [try]: any
    exception leaves [messages = None]. *)
Definition mensajes_meta (data : json) : json :=
  match data with
  | JObj kvs =>
      if dmem (u "entry") kvs then
        default JNull (
          entry ← primero_o_vacio (dget_null (u "entry") kvs);
          ch ← get_de (u "changes") entry;
          changes ← primero_o_vacio ch;
          value ← (match changes with
                   | JObj ckvs => Some (py_or (default (JObj []) (dget (u "value") ckvs)) (JObj []))
                   | _ => None end);
          get_de (u "messages") value)
      else JNull
  | _ => JNull
  end.

(** app.py 285-299: [messages] after both formats were tried. *)
Definition extraer_mensajes (data : json) : json :=
  let messages := mensajes_meta data in
  match data with
  | JObj kvs => if negb (truthy messages) && dmem (u "messages") kvs then dget_null (u "messages") kvs
                else messages
  | _ => messages
  end.

(** app.py 280: [request.get_json(force=True, silent=True) or {}];
    [None] is a body that does not parse. *)
Definition datos_de (body : option json) : json :=
  match body with Some j => py_or j (JObj []) | None => JObj [] end.

(** app.py 307: [msg = messages[0] or {}] for a truthy [messages]. *)
Definition primer_mensaje (messages : json) : option json := primero_o_vacio messages.

(** [(x or "").strip()] on a [str] (a truthy non-[str] raises). *)
Definition str_o_vacio (x : json) : option ustr :=
  if truthy x then match x with JStr s => Some (py_strip s) | _ => None end else Some [].

(** app.py 308: [message_id = (msg.get("id") or "").strip()]. *)
Definition message_id_de (msg : json) : option ustr :=
  v ← get_de (u "id") msg; str_o_vacio v.

(** app.py 323: [msg.get('from') or msg.get('wa_id') or ""]. *)
Definition numero_raw_de (msg : json) : option json :=
  f ← get_de (u "from") msg; w ← get_de (u "wa_id") msg;
  Some (py_or f (py_or w (JStr []))).

(** app.py 327-337: the message text, from whichever field carries it. *)
Definition texto_de (msg : json) : option ustr :=
  match msg with
  | JObj kvs =>
      match dget_null (u "text") kvs with
      | JObj t => str_o_vacio (dget_null (u "body") t)
      | _ =>
        match dget_null (u "button") kvs with
        | JObj b => str_o_vacio (dget_null (u "text") b)
        | _ =>
          match dget_null (u "interactive") kvs with
          | JObj i =>
              match dget_null (u "button_reply") i with
              | JObj br => str_o_vacio (dget_null (u "title") br)
              | _ => match dget_null (u "list_reply") i with
                     | JObj lr => str_o_vacio (dget_null (u "title") lr)
                     | _ => Some []
                     end
              end
          | _ => Some []
          end
        end
      end
  | _ => None
  end.
