(* ===== verification/Webhook.v ===== *)
(** * The inbound-message webhook: [whatsapp_webhook] (app.py 275-467)

    The handler normalises the payload, takes the first message, and, when
    the message has an [id], looks it up in [WhatsappMensajeProcesado]:
    a known id is acknowledged, an unknown one is to be recorded with
    [numero=numero_completo] (app.py 315-318).  [numero_completo] is only
    assigned at line 324, so Python raises [UnboundLocalError] there; the
    outer [except Exception] (464-465) swallows it and the handler answers
    ["ok"] having done nothing.  A message without [id] goes on: the
    sender's number is normalised, a blocked number is ignored, an
    unregistered number goes through the abuse guard, and a registered
    number with a stored token gets a new token, stored over the old one,
    and a link message.

    [whatsapp_webhook] is the handler; its response is always [200 "ok"],
    so the model returns [unit] and the theorems are about its effect on
    the world (store and outbox). *)

From S2P Require Import Prelude Unicode Token Store Mundo Guard Json.

Section Webhook.
Context {U : UnicodeDB} {TS : TokenService}.

Definition esta_bloqueado (o : option Bloqueo) : bool :=
  match o with Some b => bw_bloqueado b | None => false end.

(** app.py 322-462: from the sender's number to the reply. *)
Definition atender_mensaje (env : Entorno) (now : Z) (host_url : ustr) (msg : json)
  : PyM Mundo unit :=
  (numero_raw <- plift ExcType (numero_raw_de msg) ;;
   let numero_completo := limpiar_numero (py_str numero_raw) in
   _texto <- plift ExcType (texto_de msg) ;;
   w <- pget ;;
   let bloqueo := bloqueos (m_db w) !! numero_completo in
   if esta_bloqueado bloqueo then pret tt
   else
     match temporales (m_db w) !! numero_completo with
     | None => manejar_no_autorizado env numero_completo bloqueo
     | Some autorizado =>
         match nt_token autorizado with
         | None => pret tt
         | Some _ =>
             let dominio := dominio_emisor env host_url in
             let token_nuevo := issue (mkPayload numero_completo dominio) now in
             db_commit env [UpdTemporal (mkNumeroTemporal numero_completo (Some token_nuevo) now)] ;;;
             post_whatsapp env numero_completo (MsgEnlace dominio token_nuevo)
         end
     end)%py.

(** app.py 278-462: the body of the outer [try]. *)
Definition cuerpo_webhook (env : Entorno) (now : Z) (host_url : ustr) (body : option json)
  : PyM Mundo unit :=
  let messages := extraer_mensajes (datos_de body) in
  if negb (truthy messages) then pret tt
  else
    (msg <- plift ExcLookup (primer_mensaje messages) ;;
     message_id <- plift ExcType (message_id_de msg) ;;
     if truthy_str message_id then
       w <- pget ;;
       match procesados (m_db w) !! message_id with
       | Some _ => pret tt
       | None => praise ExcUnboundLocal
       end
     else atender_mensaje env now host_url msg)%py.

(** app.py 275-467: every exception is logged and swallowed. *)
Definition whatsapp_webhook (env : Entorno) (now : Z) (host_url : ustr) (body : option json)
  : PyM Mundo unit :=
  ptry (cuerpo_webhook env now host_url body) (fun _ => pret tt).

End Webhook.

Section Propiedades.
Context {U : UnicodeDB} {TS : TokenService}.

(** C1: a message that carries an [id] changes nothing, whether its id
    was seen before or not: no [WhatsappMensajeProcesado] row, no token,
    no counter, no outbound message.  (Line 317 reads [numero_completo]
    before its assignment at line 324.) *)
Theorem webhook_con_id_sin_efecto env now host body w msg mid :
  truthy (extraer_mensajes (datos_de body)) = true ->
  primer_mensaje (extraer_mensajes (datos_de body)) = Some msg ->
  message_id_de msg = Some mid -> truthy_str mid = true ->
  whatsapp_webhook env now host body w = (w, Ok tt).
Proof.
  intros Ht Hp Hm Hid.
  unfold whatsapp_webhook, cuerpo_webhook, ptry, pbind, plift, pret, praise, pget.
  rewrite Ht. cbn [negb]. rewrite Hp. cbv beta iota zeta. rewrite Hm. cbv beta iota zeta.
  rewrite Hid. by destruct (procesados (m_db w) !! mid).
Qed.

(** the webhook always answers ["ok"]: no exception escapes it. *)
Theorem webhook_responde_ok env now host body w :
  (whatsapp_webhook env now host body w).2 = Ok tt.
Proof.
  unfold whatsapp_webhook, ptry. destruct (cuerpo_webhook env now host body w) as [w' [[]|e]]; done.
Qed.

(** A message without [id] is handled by [atender_mensaje]. *)
Lemma webhook_sin_id env now host body w msg :
  truthy (extraer_mensajes (datos_de body)) = true ->
  primer_mensaje (extraer_mensajes (datos_de body)) = Some msg ->
  message_id_de msg = Some [] ->
  whatsapp_webhook env now host body w = ptry (atender_mensaje env now host msg) (fun _ => pret tt) w.
Proof.
  intros Ht Hp Hm. unfold whatsapp_webhook, cuerpo_webhook, ptry, pbind, plift, pret, praise.
  rewrite Ht. cbn [negb]. rewrite Hp. cbv beta iota zeta. by rewrite Hm.
Qed.

(** The reads every branch of [atender_mensaje] starts with. *)
Lemma atender_mensaje_lecturas env now host msg raw txt w :
  numero_raw_de msg = Some raw -> texto_de msg = Some txt ->
  atender_mensaje env now host msg w =
  (let numero_completo := limpiar_numero (py_str raw) in
   let bloqueo := bloqueos (m_db w) !! numero_completo in
   if esta_bloqueado bloqueo then (w, Ok tt)
   else match temporales (m_db w) !! numero_completo with
        | None => manejar_no_autorizado env numero_completo bloqueo w
        | Some autorizado =>
            match nt_token autorizado with
            | None => (w, Ok tt)
            | Some _ =>
                let dominio := dominio_emisor env host in
                let token_nuevo := issue (mkPayload numero_completo dominio) now in
                (db_commit env [UpdTemporal (mkNumeroTemporal numero_completo (Some token_nuevo) now)] ;;;
                 post_whatsapp env numero_completo (MsgEnlace dominio token_nuevo))%py w
            end
        end).
Proof.
  intros Hr Ht. unfold atender_mensaje, pbind, plift. rewrite Hr, Ht. simpl.
  unfold pbind, pget, pret. simpl.
  destruct (esta_bloqueado _); [done|]. destruct (temporales (m_db w) !! _) as [[? [] ?]|]; done.
Qed.

(** The webhook's path to [atender_mensaje] for a message without
    [id] whose fields can be read. *)
Lemma webhook_atiende env now host body w msg raw txt :
  truthy (extraer_mensajes (datos_de body)) = true ->
  primer_mensaje (extraer_mensajes (datos_de body)) = Some msg ->
  message_id_de msg = Some [] -> numero_raw_de msg = Some raw -> texto_de msg = Some txt ->
  whatsapp_webhook env now host body w = ptry (atender_mensaje env now host msg) (fun _ => pret tt) w.
Proof. intros Ht Hp Hm _ _. by apply webhook_sin_id. Qed.

(** C26: a registered, unblocked number writing without a message id
    gets a new token, stored over the previous one (at most one live
    token per number), and exactly one link message. *)
Theorem webhook_reemite_token env now host body w msg raw txt nt t :
  truthy (extraer_mensajes (datos_de body)) = true ->
  primer_mensaje (extraer_mensajes (datos_de body)) = Some msg ->
  message_id_de msg = Some [] -> numero_raw_de msg = Some raw -> texto_de msg = Some txt ->
  esta_bloqueado (bloqueos (m_db w) !! limpiar_numero (py_str raw)) = false ->
  temporales (m_db w) !! limpiar_numero (py_str raw) = Some nt -> nt_token nt = Some t ->
  cabe (env_dialecto env) 50 (limpiar_numero (py_str raw)) = true ->
  whatsapp_webhook env now host body w =
  (let n := limpiar_numero (py_str raw) in
   let tok := issue (mkPayload n (dominio_emisor env host)) now in
   (mkMundo (mkDb (votos (m_db w)) (<[n := mkNumeroTemporal n (Some tok) now]> (temporales (m_db w)))
                  (procesados (m_db w)) (bloqueos (m_db w)))
            (m_salida w ++ [mkEnvio n (MsgEnlace (dominio_emisor env host) tok) (env_waba_token env)]),
    Ok tt)).
Proof.
  intros Ht Hp Hm Hr Htx Hb Hnt Htk Hc.
  rewrite (webhook_atiende env now host body w msg raw txt) by done. unfold ptry.
  rewrite (atender_mensaje_lecturas env now host msg raw txt) by done. cbv zeta.
  rewrite Hb, Hnt, Htk. unfold pbind, db_commit. simpl. unfold actualizar, temporal_ok. simpl.
  by rewrite Hc, Hnt.
Qed.

Lemma paso_guardia_no_bloqueado numero o :
  esta_bloqueado o = false ->
  paso_guardia numero o = (Some (nuevo_intento numero o).1, Some (advertencia (nuevo_intento numero o).1)).
Proof. destruct o as [[? ? []]|]; simpl; by intros. Qed.

(** The unauthorised branch of the webhook for a message without [id]:
    the counter row of [nuevo_intento] is written and its warning sent. *)
Lemma webhook_guardia env now host body w msg raw txt :
  db_wf (m_db w) ->
  truthy (extraer_mensajes (datos_de body)) = true ->
  primer_mensaje (extraer_mensajes (datos_de body)) = Some msg ->
  message_id_de msg = Some [] -> numero_raw_de msg = Some raw -> texto_de msg = Some txt ->
  temporales (m_db w) !! limpiar_numero (py_str raw) = None ->
  esta_bloqueado (bloqueos (m_db w) !! limpiar_numero (py_str raw)) = false ->
  bloqueo_ok (env_dialecto env)
    (nuevo_intento (limpiar_numero (py_str raw)) (bloqueos (m_db w) !! limpiar_numero (py_str raw))).1 = true ->
  whatsapp_webhook env now host body w =
  (mkMundo (mkDb (votos (m_db w)) (temporales (m_db w)) (procesados (m_db w))
                 (<[limpiar_numero (py_str raw) :=
                     (nuevo_intento (limpiar_numero (py_str raw)) (bloqueos (m_db w) !! limpiar_numero (py_str raw))).1]>
                    (bloqueos (m_db w))))
           (m_salida w ++ [mkEnvio (limpiar_numero (py_str raw))
                             (advertencia (nuevo_intento (limpiar_numero (py_str raw))
                                             (bloqueos (m_db w) !! limpiar_numero (py_str raw))).1)
                             (env_waba_token env)]), Ok tt).
Proof.
  intros Hwf Ht Hp Hm Hr Htx Hnt Hb Hok.
  rewrite (webhook_atiende env now host body w msg raw txt) by done. unfold ptry.
  rewrite (atender_mensaje_lecturas env now host msg raw txt) by done. cbv zeta.
  set (N := limpiar_numero (py_str raw)) in *.
  rewrite Hb, Hnt. unfold manejar_no_autorizado. revert Hb Hok.
  destruct (bloqueos (m_db w) !! N) as [[n i bl]|] eqn:Ebl; simpl; intros Hb Hok.
  - destruct Hwf as (_ & _ & _ & Hwf). pose proof (map_Forall_lookup_1 _ _ _ _ Hwf Ebl) as Hn.
    simpl in Hn. subst n. unfold pbind, db_commit. simpl. unfold actualizar. by rewrite Hok, Ebl.
  - unfold pbind, db_commit. simpl. unfold insertar_unico. by rewrite Hok, Ebl.
Qed.

(** an unregistered, unblocked number writing without a message id
    goes through the abuse guard: its counter row becomes the one of
    [paso_guardia] and the reply of [paso_guardia] is sent, nothing else
    changes. *)
Theorem webhook_no_registrado env now host body w msg raw txt :
  db_wf (m_db w) ->
  truthy (extraer_mensajes (datos_de body)) = true ->
  primer_mensaje (extraer_mensajes (datos_de body)) = Some msg ->
  message_id_de msg = Some [] -> numero_raw_de msg = Some raw -> texto_de msg = Some txt ->
  temporales (m_db w) !! limpiar_numero (py_str raw) = None ->
  esta_bloqueado (bloqueos (m_db w) !! limpiar_numero (py_str raw)) = false ->
  bloqueo_ok (env_dialecto env)
    (nuevo_intento (limpiar_numero (py_str raw)) (bloqueos (m_db w) !! limpiar_numero (py_str raw))).1 = true ->
  forall b r, paso_guardia (limpiar_numero (py_str raw)) (bloqueos (m_db w) !! limpiar_numero (py_str raw))
              = (Some b, Some r) ->
  whatsapp_webhook env now host body w =
  (mkMundo (mkDb (votos (m_db w)) (temporales (m_db w)) (procesados (m_db w))
                 (<[limpiar_numero (py_str raw) := b]> (bloqueos (m_db w))))
           (m_salida w ++ [mkEnvio (limpiar_numero (py_str raw)) r (env_waba_token env)]), Ok tt).
Proof.
  intros Hwf Ht Hp Hm Hr Htx Hnt Hb Hok b r Hpaso.
  rewrite paso_guardia_no_bloqueado in Hpaso by done. injection Hpaso as <- <-.
  by apply (webhook_guardia env now host body w msg raw txt).
Qed.

(** a blocked number is ignored: the world is unchanged. *)
Theorem webhook_bloqueado_sin_efecto env now host body w msg raw txt :
  truthy (extraer_mensajes (datos_de body)) = true ->
  primer_mensaje (extraer_mensajes (datos_de body)) = Some msg ->
  message_id_de msg = Some [] -> numero_raw_de msg = Some raw -> texto_de msg = Some txt ->
  esta_bloqueado (bloqueos (m_db w) !! limpiar_numero (py_str raw)) = true ->
  whatsapp_webhook env now host body w = (w, Ok tt).
Proof.
  intros Ht Hp Hm Hr Htx Hb.
  rewrite (webhook_atiende env now host body w msg raw txt) by done. unfold ptry.
  rewrite (atender_mensaje_lecturas env now host msg raw txt) by done. cbv zeta. by rewrite Hb.
Qed.

(** ** The webhook's effect on the store *)

(** Every run of the webhook leaves the store as it was, rewrites the
    token of a registered unblocked number, or applies the guard's
    counter update to an unregistered unblocked number. *)
Inductive efecto_webhook (env : Entorno) (now : Z) (host : ustr) (db : Db) : Db -> Prop :=
| ew_nada : efecto_webhook env now host db db
| ew_token k nt :
    temporales db !! k = Some nt -> esta_bloqueado (bloqueos db !! k) = false ->
    efecto_webhook env now host db
      (mkDb (votos db)
            (<[k := mkNumeroTemporal k (Some (issue (mkPayload k (dominio_emisor env host)) now)) now]>
               (temporales db))
            (procesados db) (bloqueos db))
| ew_guardia k :
    temporales db !! k = None -> esta_bloqueado (bloqueos db !! k) = false ->
    efecto_webhook env now host db
      (mkDb (votos db) (temporales db) (procesados db)
            (<[bw_numero (nuevo_intento k (bloqueos db !! k)).1 := (nuevo_intento k (bloqueos db !! k)).1]>
               (bloqueos db))).

Lemma nuevo_intento_op k o :
  (nuevo_intento k o).2 = InsBloqueo (nuevo_intento k o).1 \/
  (nuevo_intento k o).2 = UpdBloqueo (nuevo_intento k o).1.
Proof. destruct o; simpl; auto. Qed.

Lemma atender_mensaje_efecto env now host msg w :
  efecto_webhook env now host (m_db w) (m_db (atender_mensaje env now host msg w).1).
Proof.
  destruct (numero_raw_de msg) as [raw|] eqn:Hr;
    [|unfold atender_mensaje, pbind, plift, praise; rewrite Hr; constructor].
  destruct (texto_de msg) as [txt|] eqn:Htx;
    [|unfold atender_mensaje, pbind, plift, praise, pret; rewrite Hr, Htx; constructor].
  rewrite (atender_mensaje_lecturas env now host msg raw txt w Hr Htx). cbv zeta.
  set (k := limpiar_numero (py_str raw)).
  destruct (esta_bloqueado (bloqueos (m_db w) !! k)) eqn:Hb; [constructor|].
  destruct (temporales (m_db w) !! k) as [nt|] eqn:Ht.
  - destruct (nt_token nt); [|constructor].
    rewrite pbind_post_db.
    destruct (db_commit_efecto env [UpdTemporal (mkNumeroTemporal k (Some (issue (mkPayload k (dominio_emisor env host)) now)) now)] w)
      as [(_ & _ & Hc)|[-> _]]; [|constructor].
    apply commit_upd_temporal in Hc as [_ ->]. by econstructor.
  - unfold manejar_no_autorizado.
    destruct (nuevo_intento_op k (bloqueos (m_db w) !! k)) as [Hop|Hop];
      destruct (nuevo_intento k (bloqueos (m_db w) !! k)) as [b op] eqn:Hn; simpl in Hop; subst op;
      rewrite pbind_post_db;
      (match goal with |- context [db_commit env ?ops w] =>
         destruct (db_commit_efecto env ops w) as [(_ & _ & Hc)|[-> _]]; [|constructor] end);
      (rewrite (commit_bloqueo _ b _ _ (ltac:(eauto)));
       replace b with (nuevo_intento k (bloqueos (m_db w) !! k)).1 by (by rewrite Hn);
       by apply ew_guardia).
Qed.

Lemma webhook_efecto env now host body w :
  efecto_webhook env now host (m_db w) (m_db (whatsapp_webhook env now host body w).1).
Proof.
  unfold whatsapp_webhook. rewrite ptry_pret_fst. unfold cuerpo_webhook.
  destruct (negb (truthy _)); [constructor|].
  unfold pbind, plift, pret, praise, pget.
  destruct (primer_mensaje _) as [msg|]; [|constructor].
  destruct (message_id_de msg) as [mid|]; [|constructor].
  try (destruct (truthy_str mid); [by destruct (procesados _ !! mid); constructor|]).
  apply atender_mensaje_efecto.
Qed.

End Propiedades.

(** ** Concrete payloads and witnesses *)

Section Testigos.
#[local] Existing Instance Excerpt.ucd_excerpt.
#[local] Existing Instance ts_ejemplo.

Definition env_ej : Entorno := mkEntorno (Some (u "https://votar.example")) (Some (u "clave-waba")) PostgreSQL.
Definition host_ej : ustr := u "https://votar.example/".
Definition numero_ej : ustr := u "+59170000000".

(** A Meta Cloud payload whose message has an id. *)
Definition body_con_id : option json :=
  Some (JObj [(u "entry", JArr [JObj [(u "changes", JArr [JObj [(u "value", JObj [(u "messages",
    JArr [JObj [(u "id", JStr (u "wamid.HBgL")); (u "from", JStr (u "591 700-00000"));
                (u "text", JObj [(u "body", JStr (u "Quiero votar"))])]])])]])]])]).

(** A flat payload whose message has no id. *)
Definition body_sin_id : option json :=
  Some (JObj [(u "messages", JArr [JObj [(u "from", JInt 59170000000);
                                        (u "text", JObj [(u "body", JStr (u "votar"))])]])]).

Definition msg_sin_id : json :=
  JObj [(u "from", JInt 59170000000); (u "text", JObj [(u "body", JStr (u "votar"))])].

Definition nt_ej : NumeroTemporal := mkNumeroTemporal numero_ej (Some (issue (mkPayload numero_ej (u "https://votar.example")) 1000)) 1000.
Definition mundo_registrado : Mundo := mkMundo (mkDb ∅ {[numero_ej := nt_ej]} ∅ ∅) [].
Definition mundo_vacio : Mundo := mkMundo db_vacia [].
Definition mundo_bloqueado : Mundo := mkMundo (mkDb ∅ ∅ ∅ {[numero_ej := mkBloqueo numero_ej 4 true]}) [].

Lemma webhook_con_id_sin_efecto_witness :
  truthy (extraer_mensajes (datos_de body_con_id)) = true /\
  primer_mensaje (extraer_mensajes (datos_de body_con_id)) =
    Some (JObj [(u "id", JStr (u "wamid.HBgL")); (u "from", JStr (u "591 700-00000"));
                (u "text", JObj [(u "body", JStr (u "Quiero votar"))])]) /\
  message_id_de (JObj [(u "id", JStr (u "wamid.HBgL")); (u "from", JStr (u "591 700-00000"));
                (u "text", JObj [(u "body", JStr (u "Quiero votar"))])]) = Some (u "wamid.HBgL") /\
  truthy_str (u "wamid.HBgL") = true /\
  whatsapp_webhook env_ej 2000 host_ej body_con_id mundo_registrado = (mundo_registrado, Ok tt).
Proof.
  split; [vm_compute; reflexivity|]. split; [vm_compute; reflexivity|].
  split; [vm_compute; reflexivity|]. split; [reflexivity|].
  apply (webhook_con_id_sin_efecto _ _ _ _ _
           (JObj [(u "id", JStr (u "wamid.HBgL")); (u "from", JStr (u "591 700-00000"));
                  (u "text", JObj [(u "body", JStr (u "Quiero votar"))])]) (u "wamid.HBgL"));
    vm_compute; reflexivity.
Defined.

Lemma webhook_reemite_token_witness :
  truthy (extraer_mensajes (datos_de body_sin_id)) = true /\
  primer_mensaje (extraer_mensajes (datos_de body_sin_id)) = Some msg_sin_id /\
  message_id_de msg_sin_id = Some [] /\ numero_raw_de msg_sin_id = Some (JInt 59170000000) /\
  texto_de msg_sin_id = Some (u "votar") /\
  esta_bloqueado (bloqueos (m_db mundo_registrado) !! limpiar_numero (py_str (JInt 59170000000))) = false /\
  temporales (m_db mundo_registrado) !! limpiar_numero (py_str (JInt 59170000000)) = Some nt_ej /\
  nt_token nt_ej = Some (issue (mkPayload numero_ej (u "https://votar.example")) 1000) /\
  cabe (env_dialecto env_ej) 50 (limpiar_numero (py_str (JInt 59170000000))) = true /\
  whatsapp_webhook env_ej 2000 host_ej body_sin_id mundo_registrado =
  (let n := limpiar_numero (py_str (JInt 59170000000)) in
   let tok := issue (mkPayload n (dominio_emisor env_ej host_ej)) 2000 in
   (mkMundo (mkDb (votos (m_db mundo_registrado))
                  (<[n := mkNumeroTemporal n (Some tok) 2000]> (temporales (m_db mundo_registrado)))
                  (procesados (m_db mundo_registrado)) (bloqueos (m_db mundo_registrado)))
            (m_salida mundo_registrado ++
             [mkEnvio n (MsgEnlace (dominio_emisor env_ej host_ej) tok) (env_waba_token env_ej)]), Ok tt)).
Proof.
  do 9 (split; [vm_compute; reflexivity|]).
  apply (webhook_reemite_token _ _ _ _ _ msg_sin_id (JInt 59170000000) (u "votar") nt_ej
           (issue (mkPayload numero_ej (u "https://votar.example")) 1000)); vm_compute; reflexivity.
Defined.

Lemma webhook_no_registrado_witness :
  db_wf (m_db mundo_vacio) /\
  truthy (extraer_mensajes (datos_de body_sin_id)) = true /\
  primer_mensaje (extraer_mensajes (datos_de body_sin_id)) = Some msg_sin_id /\
  message_id_de msg_sin_id = Some [] /\ numero_raw_de msg_sin_id = Some (JInt 59170000000) /\
  texto_de msg_sin_id = Some (u "votar") /\
  temporales (m_db mundo_vacio) !! limpiar_numero (py_str (JInt 59170000000)) = None /\
  esta_bloqueado (bloqueos (m_db mundo_vacio) !! limpiar_numero (py_str (JInt 59170000000))) = false /\
  bloqueo_ok (env_dialecto env_ej)
    (nuevo_intento (limpiar_numero (py_str (JInt 59170000000)))
       (bloqueos (m_db mundo_vacio) !! limpiar_numero (py_str (JInt 59170000000)))).1 = true /\
  paso_guardia (limpiar_numero (py_str (JInt 59170000000)))
    (bloqueos (m_db mundo_vacio) !! limpiar_numero (py_str (JInt 59170000000)))
    = (Some (mkBloqueo numero_ej 1 false), Some (MsgAdvertencia 1)) /\
  whatsapp_webhook env_ej 2000 host_ej body_sin_id mundo_vacio =
  (mkMundo (mkDb (votos (m_db mundo_vacio)) (temporales (m_db mundo_vacio)) (procesados (m_db mundo_vacio))
                 (<[limpiar_numero (py_str (JInt 59170000000)) := mkBloqueo numero_ej 1 false]>
                    (bloqueos (m_db mundo_vacio))))
           (m_salida mundo_vacio ++ [mkEnvio (limpiar_numero (py_str (JInt 59170000000)))
                                      (MsgAdvertencia 1) (env_waba_token env_ej)]), Ok tt).
Proof.
  split; [apply db_vacia_wf|]. do 9 (split; [vm_compute; reflexivity|]).
  apply (webhook_no_registrado env_ej 2000 host_ej body_sin_id mundo_vacio msg_sin_id (JInt 59170000000) (u "votar"));
    first [apply db_vacia_wf | vm_compute; reflexivity].
Defined.

Lemma webhook_bloqueado_sin_efecto_witness :
  truthy (extraer_mensajes (datos_de body_sin_id)) = true /\
  primer_mensaje (extraer_mensajes (datos_de body_sin_id)) = Some msg_sin_id /\
  message_id_de msg_sin_id = Some [] /\ numero_raw_de msg_sin_id = Some (JInt 59170000000) /\
  texto_de msg_sin_id = Some (u "votar") /\
  esta_bloqueado (bloqueos (m_db mundo_bloqueado) !! limpiar_numero (py_str (JInt 59170000000))) = true /\
  whatsapp_webhook env_ej 2000 host_ej body_sin_id mundo_bloqueado = (mundo_bloqueado, Ok tt).
Proof.
  do 6 (split; [vm_compute; reflexivity|]).
  apply (webhook_bloqueado_sin_efecto _ _ _ _ _ msg_sin_id (JInt 59170000000) (u "votar")); vm_compute; reflexivity.
Defined.

End Testigos.
