(* ===== verification/Votar.v ===== *)
(** * The link visit: [votar] (app.py 542-585)

    [votar] reads the [token] query parameter, validates it with
    [serializer.loads(token, max_age=600)], looks up the pending
    authorisation of the token's number {e together with} the token
    (a reissued token makes the old one fail), checks the token's domain
    against [AZURE_DOMAIN], refuses a number that already voted, and
    stores the number in the session ([session['numero_token']]).  The
    session is Flask's signed cookie; [Sesion] is the value of
    ['numero_token'] in it.  The handler writes nothing to the store; it
    may send a WhatsApp notice. *)

From S2P Require Import Prelude Unicode Token Store Mundo.

Local Open Scope Z_scope.

(** [max_age=600] (app.py 550). *)
Definition max_age_enlace : Z := 600.

Section Votar.
Context {U : UnicodeDB} {TS : TokenService}.

Abbreviation Sesion := (option ustr).

Inductive RespVotar :=
| RVAccesoNoValido                          (** "Acceso no válido." (546) *)
| RVYaUtilizado                             (** "Este enlace ya fue utilizado ..." (555, 575) *)
| RVDominioInvalido                         (** "Dominio inválido para este enlace." (565) *)
| RVExpirado                                (** "El enlace ha expirado ..." (568) *)
| RVInvalido                                (** "Enlace inválido o alterado." (570) *)
| RVYaVotado                                (** voto_ya_registrado.html (579) *)
| RVFormulario (numero : ustr) (token : Tok). (** votar.html (585) *)

(** [NumeroTemporal.query.filter_by(numero=numero, token=token).first()]. *)
Definition registro_con_token (numero : ustr) (token : Tok) (db : Db) : bool :=
  match temporales db !! numero with
  | Some r => bool_decide (nt_token r = Some token)
  | None => false
  end.

(** app.py 542-585. *)
Definition votar (env : Entorno) (now : Z) (param : option Tok) (ses : Sesion)
  : PyM Mundo (RespVotar * Sesion) :=
  match param with
  | None => pret (RVAccesoNoValido, ses)
  | Some token =>
      if negb (tok_truthy token) then pret (RVAccesoNoValido, ses)
      else
        match validate token max_age_enlace now with
        | inl SignatureExpired => pret (RVExpirado, ses)
        | inl BadSignature => pret (RVInvalido, ses)
        | inr data =>
            (let numero := limpiar_numero (p_numero data) in
             w <- pget ;;
             if negb (registro_con_token numero token (m_db w)) then
               enviar_mensaje_whatsapp env numero MsgYaUtilizado ;;;
               pret (RVYaUtilizado, ses)
             else if negb (bool_decide (Some (p_dominio data) = env_azure_domain env)) then
               pret (RVDominioInvalido, ses)
             else
               w' <- pget ;;
               if negb (bool_decide (is_Some (temporales (m_db w') !! numero))) then
                 enviar_mensaje_whatsapp env numero MsgDatosFalsos ;;;
                 pret (RVYaUtilizado, ses)
               else if bool_decide (is_Some (votos (m_db w') !! numero)) then
                 pret (RVYaVotado, ses)
               else pret (RVFormulario numero token, Some numero))%py
        end
  end.

End Votar.

Section Propiedades.
Context {U : UnicodeDB} {TS : TokenService}.

(** The branch of a token that validates, with the monad unfolded. *)
Lemma votar_valido env now tok ses w p :
  tok_truthy tok = true -> validate tok max_age_enlace now = inr p ->
  votar env now (Some tok) ses w =
  (let numero := limpiar_numero (p_numero p) in
   if negb (registro_con_token numero tok (m_db w)) then
     ((enviar_mensaje_whatsapp env numero MsgYaUtilizado w).1, Ok (RVYaUtilizado, ses))
   else if negb (bool_decide (Some (p_dominio p) = env_azure_domain env)) then (w, Ok (RVDominioInvalido, ses))
   else if negb (bool_decide (is_Some (temporales (m_db w) !! numero))) then
     ((enviar_mensaje_whatsapp env numero MsgDatosFalsos w).1, Ok (RVYaUtilizado, ses))
   else if bool_decide (is_Some (votos (m_db w) !! numero)) then (w, Ok (RVYaVotado, ses))
   else (w, Ok (RVFormulario numero tok, Some numero))).
Proof.
  intros Ht Hv. unfold votar. rewrite Ht, Hv. cbn [negb]. unfold pbind, pget, pret.
  cbv zeta. unfold enviar_mensaje_whatsapp, post_whatsapp, pmodify.
  repeat case_match; simplify_eq; done.
Qed.

(** The link visit never writes to the store. *)
Lemma votar_no_escribe env now param ses w : m_db (votar env now param ses w).1 = m_db w.
Proof.
  destruct param as [tok|]; [|done].
  destruct (tok_truthy tok) eqn:Ht; [|unfold votar; by rewrite Ht].
  destruct (validate tok max_age_enlace now) as [[]|p] eqn:Hv;
    [unfold votar; by rewrite Ht, Hv..|].
  rewrite (votar_valido env now tok ses w p) by done. cbv zeta.
  unfold enviar_mensaje_whatsapp, post_whatsapp, pmodify, pret.
  repeat case_match; done.
Qed.

(** The link visit sends at most a notice, never a link. *)
Lemma votar_salida env now param ses w :
  exists l, m_salida (votar env now param ses w).1 = m_salida w ++ l /\
            Forall (fun en => e_mensaje en = MsgYaUtilizado \/ e_mensaje en = MsgDatosFalsos) l.
Proof.
  destruct param as [tok|]; [|exists []; by rewrite app_nil_r].
  destruct (tok_truthy tok) eqn:Ht; [|unfold votar; rewrite Ht; exists []; by rewrite app_nil_r].
  destruct (validate tok max_age_enlace now) as [[]|p] eqn:Hv;
    [unfold votar; rewrite Ht, Hv; exists []; by rewrite app_nil_r..|].
  rewrite (votar_valido env now tok ses w p) by done. cbv zeta.
  unfold enviar_mensaje_whatsapp, post_whatsapp, pmodify, pret.
  repeat case_match; simpl;
    first [exists []; split; [by rewrite app_nil_r|constructor]
          | eexists; split; [reflexivity|constructor; [simpl; tauto|constructor]]].
Qed.

(** A token none of whose payloads matches the stored token of its
    number never opens the form. *)
Lemma votar_sin_registro env now tok ses w :
  (forall p, validate tok max_age_enlace now = inr p ->
             registro_con_token (limpiar_numero (p_numero p)) tok (m_db w) = false) ->
  forall n t s, (votar env now (Some tok) ses w).2 <> Ok (RVFormulario n t, s).
Proof.
  intros Hr n t s. destruct (tok_truthy tok) eqn:Ht; [|unfold votar; by rewrite Ht].
  destruct (validate tok max_age_enlace now) as [[]|p] eqn:Hv; [unfold votar; by rewrite Ht, Hv..|].
  rewrite (votar_valido env now tok ses w p) by done. cbv zeta. by rewrite Hr.
Qed.

(** C23: the link visit opens a session for [n] exactly when the token
    validates, the pending authorisation of the token's number holds this
    very token, the token's domain is [AZURE_DOMAIN] and the number has
    not voted; the session holds that number and nothing else changes. *)
Theorem votar_formulario_inv env now param ses w w' n t ses' :
  votar env now param ses w = (w', Ok (RVFormulario n t, ses')) ->
  param = Some t /\ w' = w /\ ses' = Some n /\
  exists p, validate t max_age_enlace now = inr p /\ n = limpiar_numero (p_numero p) /\
            registro_con_token n t (m_db w) = true /\ env_azure_domain env = Some (p_dominio p) /\
            votos (m_db w) !! n = None.
Proof.
  destruct param as [tok|]; [|done].
  destruct (tok_truthy tok) eqn:Ht; [|unfold votar; by rewrite Ht].
  destruct (validate tok max_age_enlace now) as [[]|p] eqn:Hv;
    [unfold votar; by rewrite Ht, Hv..|].
  rewrite (votar_valido env now tok ses w p) by done. cbv zeta.
  repeat case_match; try done. intros [= <- <- <- <-].
  do 3 (split; [done|]). exists p. split; [done|]. split; [done|].
  repeat match goal with H : negb _ = false |- _ => apply negb_false_iff in H end.
  repeat match goal with H : bool_decide _ = _ |- _ => first [apply bool_decide_eq_true in H | apply bool_decide_eq_false in H] end.
  split; [done|]. split; [done|]. by apply eq_None_not_Some.
Qed.

(** C28: a token older than 600 seconds (or from the future) fails with
    "expired", whatever the store holds, and nothing changes. *)
Theorem votar_expirado env now p t ses w :
  en_plazo max_age_enlace t now = false ->
  votar env now (Some (issue p t)) ses w = (w, Ok (RVExpirado, ses)).
Proof. intros He. unfold votar. by rewrite issue_truthy, validate_issue, He. Qed.

(** C29: a valid token that is no longer the stored token of its number
    (it was reissued, or the number voted and its row was deleted) fails
    with the ambiguous "already used or invalid" answer, and the number
    is notified when [WABA_TOKEN] is set. *)
Theorem votar_token_no_vigente env now tok ses w p :
  tok_truthy tok = true -> validate tok max_age_enlace now = inr p ->
  registro_con_token (limpiar_numero (p_numero p)) tok (m_db w) = false ->
  votar env now (Some tok) ses w =
  ((enviar_mensaje_whatsapp env (limpiar_numero (p_numero p)) MsgYaUtilizado w).1, Ok (RVYaUtilizado, ses)).
Proof. intros Ht Hv Hr. rewrite (votar_valido env now tok ses w p) by done. cbv zeta. by rewrite Hr. Qed.

(** C30: without [AZURE_DOMAIN] no link opens the ballot form, although
    [whatsapp_webhook] and [generar_link] then sign the request's host
    URL as the token's domain. *)
Theorem votar_sin_azure_domain env now param ses w :
  env_azure_domain env = None ->
  forall n t ses', (votar env now param ses w).2 <> Ok (RVFormulario n t, ses').
Proof.
  intros Henv n t ses'. destruct param as [tok|]; [|done].
  destruct (tok_truthy tok) eqn:Ht; [|unfold votar; by rewrite Ht].
  destruct (validate tok max_age_enlace now) as [[]|p] eqn:Hv;
    [unfold votar; by rewrite Ht, Hv..|].
  rewrite (votar_valido env now tok ses w p) by done. cbv zeta.
  rewrite Henv, bool_decide_false by done. repeat case_match; done.
Qed.

End Propiedades.

Section Testigos.
#[local] Existing Instance Excerpt.ucd_excerpt.
#[local] Existing Instance ts_ejemplo.

Definition env_v : Entorno := mkEntorno (Some (u "https://votar.example")) (Some (u "clave-waba")) PostgreSQL.
Definition num_v : ustr := u "+59170000000".
Definition tok_v (t : Z) : Tok := issue (mkPayload num_v (u "https://votar.example")) t.
Definition mundo_v (t : Z) : Mundo :=
  mkMundo (mkDb ∅ {[num_v := mkNumeroTemporal num_v (Some (tok_v t)) t]} ∅ ∅) [].

Lemma votar_formulario_inv_witness :
  votar env_v 1200 (Some (tok_v 1000)) None (mundo_v 1000) =
    (mundo_v 1000, Ok (RVFormulario num_v (tok_v 1000), Some num_v)) /\
  (Some (tok_v 1000) = Some (tok_v 1000) /\ mundo_v 1000 = mundo_v 1000 /\ Some num_v = Some num_v /\
   exists p, validate (tok_v 1000) max_age_enlace 1200 = inr p /\ num_v = limpiar_numero (p_numero p) /\
     registro_con_token num_v (tok_v 1000) (m_db (mundo_v 1000)) = true /\
     env_azure_domain env_v = Some (p_dominio p) /\ votos (m_db (mundo_v 1000)) !! num_v = None).
Proof.
  assert (H : votar env_v 1200 (Some (tok_v 1000)) None (mundo_v 1000) =
              (mundo_v 1000, Ok (RVFormulario num_v (tok_v 1000), Some num_v))) by (vm_compute; reflexivity).
  split; [exact H|]. exact (votar_formulario_inv _ _ _ _ _ _ _ _ _ H).
Defined.

Lemma votar_expirado_witness :
  en_plazo max_age_enlace 1000 1601 = false /\
  votar env_v 1601 (Some (issue (mkPayload num_v (u "https://votar.example")) 1000)) None (mundo_v 1000)
    = (mundo_v 1000, Ok (RVExpirado, None)).
Proof. split; [reflexivity|]. apply votar_expirado. reflexivity. Defined.

(** The token issued at 1000 after the number was given a new one at 1100. *)
Lemma votar_token_no_vigente_witness :
  tok_truthy (tok_v 1000) = true /\
  validate (tok_v 1000) max_age_enlace 1200 = inr (mkPayload num_v (u "https://votar.example")) /\
  registro_con_token (limpiar_numero (p_numero (mkPayload num_v (u "https://votar.example")))) (tok_v 1000)
    (m_db (mundo_v 1100)) = false /\
  votar env_v 1200 (Some (tok_v 1000)) None (mundo_v 1100) =
  ((enviar_mensaje_whatsapp env_v (limpiar_numero (p_numero (mkPayload num_v (u "https://votar.example"))))
      MsgYaUtilizado (mundo_v 1100)).1, Ok (RVYaUtilizado, None)).
Proof.
  do 3 (split; [vm_compute; reflexivity|]).
  apply votar_token_no_vigente; vm_compute; reflexivity.
Defined.

Lemma votar_sin_azure_domain_witness :
  env_azure_domain (mkEntorno None (Some (u "clave-waba")) SQLite) = None /\
  (votar (mkEntorno None (Some (u "clave-waba")) SQLite) 1200 (Some (tok_v 1000)) None (mundo_v 1000)).2
    <> Ok (RVFormulario num_v (tok_v 1000), Some num_v).
Proof. split; [reflexivity|]. by apply votar_sin_azure_domain. Defined.

End Testigos.
