(* ===== verification/EnviarVoto.v ===== *)
(** * Ballot submission: [enviar_voto] (app.py 593-687)

    Flask-WTF's [CSRFProtect] checks the form's CSRF token before the
    view runs.  The view then applies a best-effort [Referer] check (an
    absent Referer passes; a present one must contain the allowed domain
    as a substring), takes the number from the session, never from the
    form, requires twelve form fields, requires [ci] when [pregunta3] is
    exactly ["Sí"], converts [ci] with [int] (a [ValueError] there is
    answered with 400), refuses a number that already voted, builds the
    [Voto] row (where [int(dia)], [int(mes)], [int(anio)],
    [float(latitud)] and [float(longitud)] may raise [ValueError], which
    is not caught: HTTP 500), adds it, deletes the number's
    [NumeroTemporal] row and commits, then pops the session key.

    [preparar_voto] is everything up to the row to insert: it only reads
    the store.  [confirmar_voto] is the commit.  [enviar_voto] runs one
    after the other, as the code does within one request; [Sistema] lets
    other requests run in between. *)

From S2P Require Import Prelude Unicode PyConv Token Store Mundo.

Section EnviarVoto.
Context {U : UnicodeDB} {TS : TokenService}.

Abbreviation Sesion := (option ustr).

(** [request.form.get(...)] of the fields the view reads. *)
Record FormVoto := mkFormVoto {
  f_genero : option ustr; f_pais : option ustr; f_departamento : option ustr;
  f_provincia : option ustr; f_id_municipio : option ustr; f_municipio_nombre : option ustr;
  f_recinto : option ustr; f_dia : option ustr; f_mes : option ustr; f_anio : option ustr;
  f_candidato : option ustr; f_pregunta3 : option ustr; f_ci : option ustr;
  f_latitud : option ustr; f_longitud : option ustr }.

Record PeticionVoto := mkPeticionVoto {
  pv_csrf_ok : bool;                 (** Flask-WTF accepted the CSRF token *)
  pv_referer : option ustr;          (** [Referer] header *)
  pv_xff : option ustr;              (** [X-Forwarded-For] header *)
  pv_remote_addr : option ustr;      (** [request.remote_addr] *)
  pv_form : FormVoto }.

Inductive RespVoto :=
| REVCsrf                 (** CSRFError, 400, before the view *)
| REVRefererInvalido      (** 403 (600) *)
| REVSinSesion            (** 403 (605, 610) *)
| REVFaltanCampos         (** faltan_campos.html (634) *)
| REVFaltaCI              (** 400 (639) *)
| REVCIInvalido           (** 400 (645) *)
| REVYaVotado             (** voto_ya_registrado.html (648) *)
| REVExito (numero : ustr). (** voto_exitoso.html (676) *)

(** The default of [os.environ.get("AZURE_DOMAIN", ...)] (app.py 597). *)
Definition dominio_por_defecto : ustr :=
  u "votacionprimarias2025-g7ebaphpgrcucgbr.brazilsouth-01.azurewebsites.net".

(** ["Sí"]. *)
Definition si : ustr := [83; 237]%N.

(** app.py 596-600. *)
Definition referer_valido (env : Entorno) (referer : option ustr) : bool :=
  let r := default [] referer in
  let permitido := default dominio_por_defecto (env_azure_domain env) in
  negb (truthy_str r && negb (py_in permitido r)).

(** app.py 629: [request.headers.get('X-Forwarded-For', request.remote_addr)
    .split(',')[0].strip()]; [None.split] raises. *)
Definition ip_de (req : PeticionVoto) : option ustr :=
  match pv_xff req with
  | Some x => Some x
  | None => pv_remote_addr req
  end ≫= fun s => Some (py_strip (split_first cp_comma s)).

(** The twelve fields of the [all([...])] test (app.py 632-633). *)
Definition requeridos (f : FormVoto) : list (option ustr) :=
  [f_genero f; f_pais f; f_departamento f; f_provincia f; f_municipio_nombre f; f_id_municipio f;
   f_recinto f; f_dia f; f_mes f; f_anio f; f_candidato f; f_pregunta3 f].

(** [request.form.get('ci') or None] (app.py 626). *)
Definition ci_de (f : FormVoto) : option ustr :=
  match f_ci f with Some c => if truthy_str c then Some c else None | None => None end.

(** [float(x) if x else None] (app.py 662-663). *)
Definition coordenada (x : option ustr) : res (option PyFloat) :=
  match x with
  | Some s => if truthy_str s then match py_float s with Some v => Ok (Some v) | None => Exc ExcValue end
              else Ok None
  | None => Ok None
  end.

Definition res_of {A} (o : option A) : res A := match o with Some a => Ok a | None => Exc ExcValue end.

Definition res_bind {A B} (r : res A) (k : A -> res B) : res B :=
  match r with Ok a => k a | Exc e => Exc e end.

(** app.py 596-669: the checks and the row to insert; [inl] is an early
    answer, [Exc] an exception that escapes the view. *)
Definition preparar_voto (env : Entorno) (now : Z) (req : PeticionVoto) (ses : Sesion) (db : Db)
  : res (RespVoto + Voto) :=
  if negb (referer_valido env (pv_referer req)) then Ok (inl REVRefererInvalido) else
  match ses with
  | None => Ok (inl REVSinSesion)
  | Some s =>
    if negb (truthy_str s) then Ok (inl REVSinSesion) else
    let numero := limpiar_numero s in
    if negb (truthy_str numero) then Ok (inl REVSinSesion) else
    let f := pv_form req in
    let ci := ci_de f in
    match ip_de req with
    | None => Exc ExcType
    | Some ip =>
      if negb (forallb truthy_opt (requeridos f)) then Ok (inl REVFaltanCampos) else
      if bool_decide (f_pregunta3 f = Some si) && negb (bool_decide (is_Some ci)) then Ok (inl REVFaltaCI) else
      match (match ci with Some c => option_map Some (py_int c) | None => Some None end) with
      | None => Ok (inl REVCIInvalido)
      | Some ci_int =>
        if bool_decide (is_Some (votos db !! numero)) then Ok (inl REVYaVotado) else
        res_bind (res_of (f_dia f ≫= py_int)) (fun dia =>
        res_bind (res_of (f_mes f ≫= py_int)) (fun mes =>
        res_bind (res_of (f_anio f ≫= py_int)) (fun anio =>
        res_bind (coordenada (f_latitud f)) (fun lat =>
        res_bind (coordenada (f_longitud f)) (fun lon =>
        Ok (inr (mkVoto numero (default [] (f_genero f)) (default [] (f_pais f))
                   (default [] (f_departamento f)) (default [] (f_provincia f))
                   (f_id_municipio f) (default [] (f_municipio_nombre f)) (default [] (f_recinto f))
                   dia mes anio lat lon ip now (default [] (f_candidato f))
                   (default [] (f_pregunta3 f)) ci_int)))))))
      end
    end
  end.

(** app.py 671-673: add the row, delete the pending authorisation, commit. *)
Definition confirmar_voto (env : Entorno) (v : Voto) : PyM Mundo unit :=
  db_commit env [InsVoto v; DelTemporal (v_numero v)].

(** app.py 647-686: what the view does after its checks and its [Voto]
    query of line 647, given their outcome [lectura]: raise, answer, or
    commit the ballot, clear the session and answer success. *)
Definition enviar_voto_tras_lectura (env : Entorno) (ses : Sesion) (lectura : res (RespVoto + Voto))
  : PyM Mundo (RespVoto * Sesion) :=
  match lectura with
  | Exc e => praise e
  | Ok (inl r) => pret (r, ses)
  | Ok (inr v) => confirmar_voto env v ;;; pret (REVExito (v_numero v), None)
  end%py.

(** app.py 593-687; [Exc] is an HTTP 500. *)
Definition enviar_voto (env : Entorno) (now : Z) (req : PeticionVoto) (ses : Sesion)
  : PyM Mundo (RespVoto * Sesion) :=
  if negb (pv_csrf_ok req) then pret (REVCsrf, ses)
  else
    (w <- pget ;;
     enviar_voto_tras_lectura env ses (preparar_voto env now req ses (m_db w)))%py.

End EnviarVoto.

Section Propiedades.
Context {U : UnicodeDB} {TS : TokenService}.

Lemma res_bind_inr {A B} (r : res A) (k : A -> res B) b :
  res_bind r k = Ok b -> exists a, r = Ok a /\ k a = Ok b.
Proof. destruct r; simpl; [eauto|done]. Qed.

(** The case analysis of [preparar_voto] down to a prepared row. *)
Ltac preparar_casos Hreq :=
  unfold preparar_voto;
  destruct (forallb truthy_opt (requeridos (pv_form _))) eqn:Hreq;
    repeat (case_match; simpl; try done);
  intros Hr; repeat (apply res_bind_inr in Hr as [? [? Hr]]); injection Hr as <-; simpl;
  repeat match goal with
         | H : bool_decide (is_Some (votos _ !! _)) = false |- _ =>
             apply bool_decide_eq_false, eq_None_not_Some in H
         end.

(** A prepared row belongs to the session's number, which has not voted. *)
Lemma preparar_voto_sesion env now req ses db v :
  preparar_voto env now req ses db = Ok (inr v) ->
  (exists s, ses = Some s /\ v_numero v = limpiar_numero s) /\ votos db !! v_numero v = None.
Proof. preparar_casos Hreq. all: split; [eauto|done]. Qed.

(** C21: a row is prepared only when all twelve required fields are
    present, and it carries an identity number whenever the answer to
    [pregunta3] is exactly "Sí"; the row's number is the session's
    (never a form field) and has not voted. *)
Theorem preparar_voto_inr env now req ses db v :
  preparar_voto env now req ses db = Ok (inr v) ->
  (exists s, ses = Some s /\ v_numero v = limpiar_numero s) /\
  votos db !! v_numero v = None /\
  Forall (fun o => truthy_opt o = true) (requeridos (pv_form req)) /\
  v_pregunta3 v = default [] (f_pregunta3 (pv_form req)) /\
  (f_pregunta3 (pv_form req) = Some si -> is_Some (v_ci v)).
Proof.
  preparar_casos Hreq.
  all: split; [eauto|]; split; [done|]; split;
    [apply Forall_forall; intros o' Ho; rewrite forallb_forall in Hreq; by apply Hreq, list_elem_of_In|].
  all: split; [done|]; intros Hsi.
  all: match goal with
  | H : option_map Some (py_int ?c) = Some ?o |- _ => destruct (py_int c); simpl in H; simplify_eq; by eexists
  | H : bool_decide _ && negb (bool_decide (is_Some None)) = false |- _ =>
      rewrite bool_decide_true in H by done; rewrite bool_decide_false in H by (intros [? ?]; done); done
  end.
Qed.

(** The early answers of [preparar_voto] are never a success. *)
Lemma preparar_voto_no_exito env now req ses db n :
  preparar_voto env now req ses db <> Ok (inl (REVExito n)).
Proof.
  unfold preparar_voto. repeat (case_match; simpl; try done).
  all: intros Hr; repeat (apply res_bind_inr in Hr as [? [? Hr]]); discriminate.
Qed.

(** The effect of a successful commit of a ballot. *)
Lemma confirmar_voto_ok env v w :
  voto_ok (env_dialecto env) v = true -> votos (m_db w) !! v_numero v = None ->
  confirmar_voto env v w =
  (mkMundo (mkDb (<[v_numero v := v]> (votos (m_db w))) (delete (v_numero v) (temporales (m_db w)))
                 (procesados (m_db w)) (bloqueos (m_db w))) (m_salida w), Ok tt).
Proof. intros Hok Hv. unfold confirmar_voto, db_commit. simpl. unfold insertar_unico. by rewrite Hok, Hv. Qed.

Lemma confirmar_voto_error env v w :
  (voto_ok (env_dialecto env) v = false \/ is_Some (votos (m_db w) !! v_numero v)) ->
  exists e, confirmar_voto env v w = (w, Exc e).
Proof.
  intros Hv. unfold confirmar_voto, db_commit. simpl. unfold insertar_unico.
  destruct (voto_ok _ v) eqn:Hok; [|eauto].
  destruct Hv as [?|[x Hx]]; [done|]. rewrite Hx. eauto.
Qed.

(** A prepared row that fits its columns is committed. *)
Lemma enviar_voto_ok env now req ses w v :
  pv_csrf_ok req = true -> preparar_voto env now req ses (m_db w) = Ok (inr v) ->
  voto_ok (env_dialecto env) v = true ->
  enviar_voto env now req ses w =
  (mkMundo (mkDb (<[v_numero v := v]> (votos (m_db w))) (delete (v_numero v) (temporales (m_db w)))
                 (procesados (m_db w)) (bloqueos (m_db w))) (m_salida w), Ok (REVExito (v_numero v), None)).
Proof.
  intros Hc Hp Hok. unfold enviar_voto, enviar_voto_tras_lectura. rewrite Hc. simpl. unfold ptry, pbind, pget, pret.
  rewrite Hp. destruct (preparar_voto_sesion _ _ _ _ _ _ Hp) as (_ & Hnv). by rewrite confirmar_voto_ok.
Qed.

(** C8: a successful submission stores the prepared row under the
    session's number, deletes that number's pending authorisation (so
    its link can no longer be used) and clears the session; nothing else
    changes. *)
Theorem enviar_voto_exito env now req ses w w' n ses' :
  enviar_voto env now req ses w = (w', Ok (REVExito n, ses')) ->
  ses' = None /\
  exists v, preparar_voto env now req ses (m_db w) = Ok (inr v) /\ v_numero v = n /\
    w' = mkMundo (mkDb (<[n := v]> (votos (m_db w))) (delete n (temporales (m_db w)))
                       (procesados (m_db w)) (bloqueos (m_db w))) (m_salida w).
Proof.
  unfold enviar_voto, enviar_voto_tras_lectura. destruct (pv_csrf_ok req); [|done]. simpl. unfold ptry, pbind, pget, pret, praise.
  destruct (preparar_voto env now req ses (m_db w)) as [[r|v]|e] eqn:Hp; try done.
  { intros [= _ -> _]. by apply preparar_voto_no_exito in Hp. }
  destruct (preparar_voto_sesion _ _ _ _ _ _ Hp) as (_ & Hnv).
  destruct (voto_ok (env_dialecto env) v) eqn:Hok.
  - rewrite confirmar_voto_ok by done. intros [= <- <- <-]. split; [done|]. eauto.
  - destruct (confirmar_voto_error env v w) as [e He]; [by left|]. by rewrite He.
Qed.

(** once a number has voted, no submission for it changes the
    store, whatever the form and the headers say: at most one ballot per
    number. *)
Theorem enviar_voto_ya_votado env now req s w v :
  votos (m_db w) !! limpiar_numero s = Some v ->
  m_db (enviar_voto env now req (Some s) w).1 = m_db w.
Proof.
  intros Hv. unfold enviar_voto, enviar_voto_tras_lectura. destruct (pv_csrf_ok req); [|done]. simpl. unfold ptry, pbind, pget, pret, praise.
  destruct (preparar_voto env now req (Some s) (m_db w)) as [[r|v']|e] eqn:Hp; try done.
  destruct (preparar_voto_sesion _ _ _ _ _ _ Hp) as ([s' [[= <-] Hn]] & Hnv).
  rewrite Hn, Hv in Hnv. done.
Qed.

(** C31: an identity number that does not fit a [BigInteger] (64 bits)
    passes [int(ci)] but makes the commit fail (HTTP 500) on both
    dialects: the ballot is lost and nothing is stored. *)
Theorem enviar_voto_ci_desborda env now req ses w v :
  preparar_voto env now req ses (m_db w) = Ok (inr v) -> pv_csrf_ok req = true ->
  (exists c, v_ci v = Some c /\ int64_ok c = false) ->
  exists e, enviar_voto env now req ses w = (w, Exc e).
Proof.
  intros Hp Hcsrf [c [Hc Hb]]. unfold enviar_voto, enviar_voto_tras_lectura. rewrite Hcsrf. simpl. unfold ptry, pbind, pget, pret.
  rewrite Hp. destruct (confirmar_voto_error env v w) as [e He].
  { left. unfold voto_ok. rewrite Hc, Hb. by rewrite !andb_false_r. }
  rewrite He. eauto.
Qed.

(** The submission's effect on the store: none, or one ballot inserted
    under the session's number with that number's pending authorisation
    deleted. *)
Lemma enviar_voto_efecto env now req ses w :
  m_db (enviar_voto env now req ses w).1 = m_db w \/
  exists s v, ses = Some s /\ v_numero v = limpiar_numero s /\ votos (m_db w) !! v_numero v = None /\
    m_db (enviar_voto env now req ses w).1 =
      mkDb (<[v_numero v := v]> (votos (m_db w))) (delete (v_numero v) (temporales (m_db w)))
           (procesados (m_db w)) (bloqueos (m_db w)).
Proof.
  unfold enviar_voto, enviar_voto_tras_lectura. destruct (pv_csrf_ok req); [|by left]. simpl. unfold ptry, pbind, pget, pret, praise.
  destruct (preparar_voto env now req ses (m_db w)) as [[r|v]|e] eqn:Hp; [by left| |by left].
  destruct (preparar_voto_sesion _ _ _ _ _ _ Hp) as ([s [-> Hs]] & Hnv).
  pose proof (db_commit_efecto env [InsVoto v; DelTemporal (v_numero v)] w) as Hef. unfold confirmar_voto.
  destruct (db_commit env _ w) as [w' [[]|e]]; simpl in *.
  - destruct Hef as [(_ & _ & Hc)|[_ [? ?]]]; [|done].
    right. exists s, v. by apply commit_voto in Hc as [_ <-].
  - destruct Hef as [(? & _)|[-> _]]; [done|]. by left.
Qed.

(** C19: the answer to a submission does not depend on the pending
    authorisations: neither the number's row, nor its token, nor the
    time of the link visit are looked at; the signed session value alone
    authorises a ballot, for as long as the client keeps the cookie. *)
Theorem enviar_voto_sin_autorizacion env now req ses w t :
  (enviar_voto env now req ses w).2 =
  (enviar_voto env now req ses (mkMundo (mkDb (votos (m_db w)) t (procesados (m_db w)) (bloqueos (m_db w)))
                                        (m_salida w))).2.
Proof.
  unfold enviar_voto, enviar_voto_tras_lectura. destruct (pv_csrf_ok req); [|done]. simpl. unfold ptry, pbind, pget, pret, praise.
  set (w' := mkMundo (mkDb (votos (m_db w)) t (procesados (m_db w)) (bloqueos (m_db w))) (m_salida w)).
  assert (Hp : preparar_voto env now req ses (m_db w') = preparar_voto env now req ses (m_db w)) by reflexivity.
  rewrite Hp.
  destruct (preparar_voto env now req ses (m_db w)) as [[r|v]|e]; [done| |done].
  unfold confirmar_voto, db_commit. simpl. unfold insertar_unico.
  destruct (voto_ok _ v); [|done]. by destruct (votos (m_db w) !! v_numero v).
Qed.

(** The view down to the conversions, for a submission that passes the
    Referer, session, field and identity-number checks. *)
Lemma enviar_voto_validado env now req s w ip ci :
  pv_csrf_ok req = true -> referer_valido env (pv_referer req) = true -> truthy_str s = true ->
  ip_de req = Some ip -> forallb truthy_opt (requeridos (pv_form req)) = true ->
  bool_decide (f_pregunta3 (pv_form req) = Some si) && negb (bool_decide (is_Some (ci_de (pv_form req)))) = false ->
  match ci_de (pv_form req) with Some c => option_map Some (py_int c) | None => Some None end = Some ci ->
  votos (m_db w) !! limpiar_numero s = None ->
  preparar_voto env now req (Some s) (m_db w) =
    (let f := pv_form req in
     res_bind (res_of (f_dia f ≫= py_int)) (fun dia =>
     res_bind (res_of (f_mes f ≫= py_int)) (fun mes =>
     res_bind (res_of (f_anio f ≫= py_int)) (fun anio =>
     res_bind (coordenada (f_latitud f)) (fun lat =>
     res_bind (coordenada (f_longitud f)) (fun lon =>
     Ok (inr (mkVoto (limpiar_numero s) (default [] (f_genero f)) (default [] (f_pais f))
                (default [] (f_departamento f)) (default [] (f_provincia f))
                (f_id_municipio f) (default [] (f_municipio_nombre f)) (default [] (f_recinto f))
                dia mes anio lat lon ip now (default [] (f_candidato f))
                (default [] (f_pregunta3 f)) ci)))))))).
Proof.
  intros _ Hr Hs Hip Hreq Hsi Hci Hv. unfold preparar_voto.
  rewrite Hr, Hs, Hip, Hreq, Hsi, Hci, Hv. simpl. case_bool_decide as Hn; [by destruct Hn|done].
Qed.

(** C22: the design's scenario: a submission that answers "Sí" to
    [pregunta3] without an identity number is refused with 400
    ([MissingConditionalField]) and stores nothing, the session kept. *)
Theorem enviar_voto_falta_ci env now req s w ip :
  pv_csrf_ok req = true -> referer_valido env (pv_referer req) = true -> truthy_str s = true ->
  ip_de req = Some ip -> forallb truthy_opt (requeridos (pv_form req)) = true ->
  f_pregunta3 (pv_form req) = Some si -> ci_de (pv_form req) = None ->
  enviar_voto env now req (Some s) w = (w, Ok (REVFaltaCI, Some s)).
Proof.
  intros Hc Hr Hs Hip Hreq Hp3 Hci. unfold enviar_voto, enviar_voto_tras_lectura. rewrite Hc. simpl. unfold ptry, pbind, pget, pret.
  unfold preparar_voto. rewrite Hr, Hs, Hip, Hreq, Hp3, Hci. simpl.
  repeat case_bool_decide; done.
Qed.

(** C32: a birth day that [int()] rejects raises a [ValueError] the view
    does not catch (HTTP 500), after every other check has passed:
    nothing is stored and the voter gets no page of the application. *)
Theorem enviar_voto_dia_invalido env now req s w ip ci :
  pv_csrf_ok req = true -> referer_valido env (pv_referer req) = true -> truthy_str s = true ->
  ip_de req = Some ip -> forallb truthy_opt (requeridos (pv_form req)) = true ->
  bool_decide (f_pregunta3 (pv_form req) = Some si) && negb (bool_decide (is_Some (ci_de (pv_form req)))) = false ->
  match ci_de (pv_form req) with Some c => option_map Some (py_int c) | None => Some None end = Some ci ->
  votos (m_db w) !! limpiar_numero s = None ->
  f_dia (pv_form req) ≫= py_int = None ->
  enviar_voto env now req (Some s) w = (w, Exc ExcValue).
Proof.
  intros Hc Hr Hs Hip Hreq Hsi Hci Hv Hd. unfold enviar_voto, enviar_voto_tras_lectura. rewrite Hc. simpl. unfold ptry, pbind, pget, praise.
  rewrite (enviar_voto_validado env now req s w ip ci) by done. simpl. by rewrite Hd.
Qed.

(** The submission sends no WhatsApp message. *)
Lemma enviar_voto_salida env now req ses w : m_salida (enviar_voto env now req ses w).1 = m_salida w.
Proof.
  unfold enviar_voto, enviar_voto_tras_lectura. destruct (pv_csrf_ok req); [|done]. simpl. unfold ptry, pbind, pget, pret, praise.
  destruct (preparar_voto env now req ses (m_db w)) as [[r|v]|e]; try done.
  unfold confirmar_voto.
  match goal with |- context [db_commit env ?ops w] =>
    pose proof (db_commit_efecto env ops w) as Hef; destruct (db_commit env ops w) as [w' [[]|e]] end;
    simpl in *; destruct Hef as [(? & ? & _)|[-> _]]; done.
Qed.

End Propiedades.

Section Testigos.
#[local] Existing Instance Excerpt.ucd_excerpt.
#[local] Existing Instance ts_ejemplo.
Local Open Scope Z_scope.

Definition env_ev : Entorno := mkEntorno (Some (u "https://votar.example")) (Some (u "clave-waba")) PostgreSQL.
Definition numero_ev : ustr := u "+59170000000".

(** A complete form answering "No" to [pregunta3], without [ci]. *)
Definition form_no : FormVoto :=
  mkFormVoto (Some (u "F")) (Some (u "Bolivia")) (Some (u "La Paz")) (Some (u "Murillo"))
             (Some (u "20101")) (Some (u "La Paz")) (Some (u "U.E. Ayacucho"))
             (Some (u "12")) (Some (u "5")) (Some (u "1990")) (Some (u "A"))
             (Some (u "No")) None None None.

(** The same form answering "Sí" with an identity number beyond 64 bits. *)
Definition form_si_ci (ci : ustr) : FormVoto :=
  mkFormVoto (Some (u "F")) (Some (u "Bolivia")) (Some (u "La Paz")) (Some (u "Murillo"))
             (Some (u "20101")) (Some (u "La Paz")) (Some (u "U.E. Ayacucho"))
             (Some (u "12")) (Some (u "5")) (Some (u "1990")) (Some (u "A"))
             (Some si) (Some ci) None None.

Definition peticion_ev (f : FormVoto) : PeticionVoto :=
  mkPeticionVoto true (Some (u "https://votar.example/votar?token=x")) (Some (u "190.0.2.1, 10.0.0.1")) None f.

Definition voto_ev (fecha : Z) (p3 : ustr) (ci : option Z) : Voto :=
  mkVoto numero_ev (u "F") (u "Bolivia") (u "La Paz") (u "Murillo") (Some (u "20101")) (u "La Paz")
         (u "U.E. Ayacucho") 12 5 1990 None None (u "190.0.2.1") fecha (u "A") p3 ci.

Definition mundo_ev : Mundo := mkMundo (mkDb ∅ {[numero_ev := mkNumeroTemporal numero_ev None 1000]} ∅ ∅) [].

Definition ci_grande : ustr := u "99999999999999999999".

Lemma preparar_voto_inr_witness :
  preparar_voto env_ev 1200 (peticion_ev form_no) (Some numero_ev) (m_db mundo_ev) = Ok (inr (voto_ev 1200 (u "No") None)) /\
  ((exists s, Some numero_ev = Some s /\ v_numero (voto_ev 1200 (u "No") None) = limpiar_numero s) /\
   votos (m_db mundo_ev) !! v_numero (voto_ev 1200 (u "No") None) = None /\
   Forall (fun o => truthy_opt o = true) (requeridos (pv_form (peticion_ev form_no))) /\
   v_pregunta3 (voto_ev 1200 (u "No") None) = default [] (f_pregunta3 (pv_form (peticion_ev form_no))) /\
   (f_pregunta3 (pv_form (peticion_ev form_no)) = Some si -> is_Some (v_ci (voto_ev 1200 (u "No") None)))).
Proof.
  assert (H : preparar_voto env_ev 1200 (peticion_ev form_no) (Some numero_ev) (m_db mundo_ev)
              = Ok (inr (voto_ev 1200 (u "No") None))) by (vm_compute; reflexivity).
  split; [exact H|]. exact (preparar_voto_inr _ _ _ _ _ _ H).
Defined.

Lemma enviar_voto_exito_witness :
  enviar_voto env_ev 1200 (peticion_ev form_no) (Some numero_ev) mundo_ev =
    (mkMundo (mkDb {[numero_ev := voto_ev 1200 (u "No") None]} ∅ ∅ ∅) [], Ok (REVExito numero_ev, None)) /\
  (None = @None ustr /\
   exists v, preparar_voto env_ev 1200 (peticion_ev form_no) (Some numero_ev) (m_db mundo_ev) = Ok (inr v) /\
     v_numero v = numero_ev /\
     mkMundo (mkDb {[numero_ev := voto_ev 1200 (u "No") None]} ∅ ∅ ∅) [] =
       mkMundo (mkDb (<[numero_ev := v]> (votos (m_db mundo_ev))) (delete numero_ev (temporales (m_db mundo_ev)))
                     (procesados (m_db mundo_ev)) (bloqueos (m_db mundo_ev))) (m_salida mundo_ev)).
Proof.
  assert (H : enviar_voto env_ev 1200 (peticion_ev form_no) (Some numero_ev) mundo_ev =
    (mkMundo (mkDb {[numero_ev := voto_ev 1200 (u "No") None]} ∅ ∅ ∅) [], Ok (REVExito numero_ev, None)))
    by (vm_compute; reflexivity).
  split; [exact H|]. exact (enviar_voto_exito _ _ _ _ _ _ _ _ H).
Defined.

Lemma enviar_voto_ya_votado_witness :
  votos (m_db (mkMundo (mkDb {[numero_ev := voto_ev 1200 (u "No") None]} ∅ ∅ ∅) []))
    !! limpiar_numero numero_ev = Some (voto_ev 1200 (u "No") None) /\
  m_db (enviar_voto env_ev 1300 (peticion_ev form_no) (Some numero_ev)
          (mkMundo (mkDb {[numero_ev := voto_ev 1200 (u "No") None]} ∅ ∅ ∅) [])).1 =
  m_db (mkMundo (mkDb {[numero_ev := voto_ev 1200 (u "No") None]} ∅ ∅ ∅) []).
Proof.
  assert (H : votos (m_db (mkMundo (mkDb {[numero_ev := voto_ev 1200 (u "No") None]} ∅ ∅ ∅) []))
    !! limpiar_numero numero_ev = Some (voto_ev 1200 (u "No") None)) by (vm_compute; reflexivity).
  split; [exact H|]. exact (enviar_voto_ya_votado _ _ _ _ _ _ H).
Defined.

Lemma enviar_voto_ci_desborda_witness :
  preparar_voto env_ev 1200 (peticion_ev (form_si_ci ci_grande)) (Some numero_ev) (m_db mundo_ev) =
    Ok (inr (voto_ev 1200 si (Some 99999999999999999999))) /\
  pv_csrf_ok (peticion_ev (form_si_ci ci_grande)) = true /\
  (exists c, v_ci (voto_ev 1200 si (Some 99999999999999999999)) = Some c /\ int64_ok c = false) /\
  exists e, enviar_voto env_ev 1200 (peticion_ev (form_si_ci ci_grande)) (Some numero_ev) mundo_ev = (mundo_ev, Exc e).
Proof.
  assert (Hp : preparar_voto env_ev 1200 (peticion_ev (form_si_ci ci_grande)) (Some numero_ev) (m_db mundo_ev) =
    Ok (inr (voto_ev 1200 si (Some 99999999999999999999)))) by (vm_compute; reflexivity).
  assert (Hc : exists c, v_ci (voto_ev 1200 si (Some 99999999999999999999)) = Some c /\ int64_ok c = false)
    by (exists 99999999999999999999; split; reflexivity).
  split; [exact Hp|]. split; [reflexivity|]. split; [exact Hc|].
  exact (enviar_voto_ci_desborda _ _ _ _ _ _ Hp eq_refl Hc).
Defined.

(** "Sí" without [ci]; and "No" with the birth day written in letters. *)
Definition form_si_sin_ci : FormVoto :=
  mkFormVoto (Some (u "F")) (Some (u "Bolivia")) (Some (u "La Paz")) (Some (u "Murillo"))
             (Some (u "20101")) (Some (u "La Paz")) (Some (u "U.E. Ayacucho"))
             (Some (u "12")) (Some (u "5")) (Some (u "1990")) (Some (u "A"))
             (Some si) None None None.

Definition form_dia_texto : FormVoto :=
  mkFormVoto (Some (u "F")) (Some (u "Bolivia")) (Some (u "La Paz")) (Some (u "Murillo"))
             (Some (u "20101")) (Some (u "La Paz")) (Some (u "U.E. Ayacucho"))
             (Some (u "doce")) (Some (u "5")) (Some (u "1990")) (Some (u "A"))
             (Some (u "No")) None None None.

Lemma enviar_voto_falta_ci_witness :
  pv_csrf_ok (peticion_ev form_si_sin_ci) = true /\
  referer_valido env_ev (pv_referer (peticion_ev form_si_sin_ci)) = true /\ truthy_str numero_ev = true /\
  ip_de (peticion_ev form_si_sin_ci) = Some (u "190.0.2.1") /\
  forallb truthy_opt (requeridos (pv_form (peticion_ev form_si_sin_ci))) = true /\
  f_pregunta3 (pv_form (peticion_ev form_si_sin_ci)) = Some si /\ ci_de (pv_form (peticion_ev form_si_sin_ci)) = None /\
  enviar_voto env_ev 1200 (peticion_ev form_si_sin_ci) (Some numero_ev) mundo_ev = (mundo_ev, Ok (REVFaltaCI, Some numero_ev)).
Proof.
  do 7 (split; [vm_compute; reflexivity|]).
  apply (enviar_voto_falta_ci _ _ _ _ _ (u "190.0.2.1")); vm_compute; reflexivity.
Defined.

Lemma enviar_voto_dia_invalido_witness :
  pv_csrf_ok (peticion_ev form_dia_texto) = true /\
  referer_valido env_ev (pv_referer (peticion_ev form_dia_texto)) = true /\ truthy_str numero_ev = true /\
  ip_de (peticion_ev form_dia_texto) = Some (u "190.0.2.1") /\
  forallb truthy_opt (requeridos (pv_form (peticion_ev form_dia_texto))) = true /\
  bool_decide (f_pregunta3 (pv_form (peticion_ev form_dia_texto)) = Some si)
    && negb (bool_decide (is_Some (ci_de (pv_form (peticion_ev form_dia_texto))))) = false /\
  match ci_de (pv_form (peticion_ev form_dia_texto)) with
  | Some c => option_map Some (py_int c) | None => Some None end = Some None /\
  votos (m_db mundo_ev) !! limpiar_numero numero_ev = None /\
  f_dia (pv_form (peticion_ev form_dia_texto)) ≫= py_int = None /\
  enviar_voto env_ev 1200 (peticion_ev form_dia_texto) (Some numero_ev) mundo_ev = (mundo_ev, Exc ExcValue).
Proof.
  do 9 (split; [vm_compute; reflexivity|]).
  apply (enviar_voto_dia_invalido _ _ _ _ _ (u "190.0.2.1") None); vm_compute; reflexivity.
Defined.

End Testigos.
