(* ===== verification/Registro.v ===== *)
(** * Registration form: [generar_link] (app.py 482-534)

    A POST with [pais] and [numero] removes spaces and dashes from the
    number, strips the country code and prefixes it with ['+'] when it
    lacks one, normalises the concatenation with [limpiar_numero], answers
    "already voted" for a number with a [Voto], and otherwise signs a new
    token and writes it into the number's [NumeroTemporal] row, creating
    the row if needed (an overwrite, never a second row), before
    redirecting to WhatsApp.  Nothing checks that the person submitting
    the form owns the number: the link itself only travels by WhatsApp
    to the number, through [whatsapp_webhook].  A GET renders the form. *)

From S2P Require Import Prelude Unicode Token Store Mundo.

Section Registro.
Context {U : UnicodeDB} {TS : TokenService}.

Record PeticionRegistro := mkPeticionRegistro {
  pr_post : bool;                 (** [request.method == 'POST'] *)
  pr_csrf_ok : bool;              (** Flask-WTF accepted the CSRF token *)
  pr_pais : option ustr;          (** [request.form.get('pais')] *)
  pr_numero : option ustr;        (** [request.form.get('numero')] *)
  pr_host_url : ustr }.           (** [request.host_url] *)

Inductive RespRegistro :=
| RGCsrf                   (** CSRFError, 400, before the view *)
| RGFormulario             (** generar_link.html (534) *)
| RGFaltanDatos            (** "Por favor, selecciona un país ..." (489) *)
| RGYaVotado               (** voto_ya_registrado.html (503) *)
| RGRedirigir.             (** redirect to wa.me (532) *)

(** app.py 492-497: the key the form registers. *)
Definition numero_formulario (pais numero : ustr) : ustr :=
  let numero := remove_char cp_minus (remove_char cp_space numero) in
  let pais := py_strip pais in
  let pais := if startswith [cp_plus] pais then pais else cp_plus :: pais in
  limpiar_numero (pais ++ numero).

(** app.py 518-526: the write that the row read at line 518 leads to,
    an INSERT of a new row or an UPDATE of the loaded one. *)
Definition op_temporal (temporal : option NumeroTemporal) (numero : ustr) (token : Tok) (now : Z) : Op :=
  match temporal with
  | None => InsTemporal (mkNumeroTemporal numero (Some token) now)
  | Some _ => UpdTemporal (mkNumeroTemporal numero (Some token) now)
  end.

(** app.py 518-528: insert the row or overwrite its token and date. *)
Definition guardar_temporal (env : Entorno) (numero : ustr) (token : Tok) (now : Z) : PyM Mundo unit :=
  (w <- pget ;;
   db_commit env [op_temporal (temporales (m_db w) !! numero) numero token now])%py.

(** app.py 482-534. *)
Definition generar_link (env : Entorno) (now : Z) (req : PeticionRegistro) : PyM Mundo RespRegistro :=
  if negb (pr_post req) then pret RGFormulario
  else if negb (pr_csrf_ok req) then pret RGCsrf
  else
    match pr_pais req, pr_numero req with
    | Some pais, Some numero =>
        if negb (truthy_str pais && truthy_str numero) then pret RGFaltanDatos
        else
          (let numero_completo := numero_formulario pais numero in
           w <- pget ;;
           if bool_decide (is_Some (votos (m_db w) !! numero_completo)) then pret RGYaVotado
           else
             let dominio := dominio_emisor env (pr_host_url req) in
             let token := issue (mkPayload numero_completo dominio) now in
             guardar_temporal env numero_completo token now ;;;
             pret RGRedirigir)%py
    | _, _ => pret RGFaltanDatos
    end.

End Registro.

Section Propiedades.
Context {U : UnicodeDB} {TS : TokenService}.

Lemma ruido_ascii_no_digito c : (c < 48 \/ 57 < c < 128)%N -> ruido c.
Proof. intros Hc. apply digitos_ascii_nondigit; lia. Qed.

Lemma digitos_remove_char c s : ruido c -> digitos (remove_char c s) = digitos s.
Proof.
  intros Hc. unfold remove_char. apply digitos_quitar. intros d Hd%N.eqb_eq. by subst.
Qed.

(** Removing spaces and dashes, stripping the country code and
    adding ['+'] never change the key: the form registers the number
    under [limpiar_numero (pais ++ numero)], the key under which
    [whatsapp_webhook] looks up a sender with the same digits. *)
Lemma numero_formulario_clave pais numero :
  numero_formulario pais numero = limpiar_numero (pais ++ numero).
Proof.
  unfold numero_formulario. rewrite !limpiar_numero_digitos, !digitos_app. f_equal.
  rewrite !digitos_remove_char by (apply ruido_ascii_no_digito; unfold cp_minus, cp_space; lia).
  f_equal. destruct (startswith [cp_plus] (py_strip pais)); [apply digitos_strip|].
  rewrite digitos_cons, ruido_plus. apply digitos_strip.
Qed.

(** The upsert of lines 518-528 when the commit goes through. *)
Lemma guardar_temporal_ok env numero token now w :
  temporal_ok (env_dialecto env) (mkNumeroTemporal numero (Some token) now) = true ->
  guardar_temporal env numero token now w =
  (mkMundo (mkDb (votos (m_db w)) (<[numero := mkNumeroTemporal numero (Some token) now]> (temporales (m_db w)))
                 (procesados (m_db w)) (bloqueos (m_db w))) (m_salida w), Ok tt).
Proof.
  intros Hok. unfold guardar_temporal, pbind, pget, db_commit. simpl.
  destruct (temporales (m_db w) !! numero) eqn:E; simpl;
    [unfold actualizar|unfold insertar_unico]; by rewrite Hok, E.
Qed.

(** A registration of a number that has not voted leaves exactly one
    pending authorisation for it, holding the newly signed token (any
    earlier token of the number is overwritten), and changes nothing
    else. *)
Lemma generar_link_registra env now req pais numero :
  pr_post req = true -> pr_csrf_ok req = true ->
  pr_pais req = Some pais -> pr_numero req = Some numero ->
  truthy_str pais = true -> truthy_str numero = true ->
  forall w, votos (m_db w) !! limpiar_numero (pais ++ numero) = None ->
  cabe (env_dialecto env) 50 (limpiar_numero (pais ++ numero)) = true ->
  generar_link env now req w =
  (let k := limpiar_numero (pais ++ numero) in
   let tok := issue (mkPayload k (dominio_emisor env (pr_host_url req))) now in
   (mkMundo (mkDb (votos (m_db w)) (<[k := mkNumeroTemporal k (Some tok) now]> (temporales (m_db w)))
                  (procesados (m_db w)) (bloqueos (m_db w))) (m_salida w), Ok RGRedirigir)).
Proof.
  intros Hpost Hcsrf Hp Hn Htp Htn w Hv Hc. unfold generar_link.
  rewrite Hpost, Hcsrf, Hp, Hn, Htp, Htn. simpl. unfold pbind, pget, pret.
  rewrite numero_formulario_clave, ?Hv. simpl. by rewrite guardar_temporal_ok.
Qed.

(** C14: roundtrip of the link token.  The token a registration stores
    for a number, read back with [serializer.loads(token, max_age)] at
    any time [t], gives back the signed payload [{"numero": k,
    "dominio": d}] exactly when [0 <= t - now <= max_age] and fails with
    [SignatureExpired] otherwise; and [limpiar_numero] of the number it
    carries is [k] again, the key of the row, so the number the link
    visit derives (app.py 551-552) is the number that registered. *)
Theorem generar_link_token_ida_vuelta env now req pais numero w max_age t :
  pr_post req = true -> pr_csrf_ok req = true ->
  pr_pais req = Some pais -> pr_numero req = Some numero ->
  truthy_str pais = true -> truthy_str numero = true ->
  votos (m_db w) !! limpiar_numero (pais ++ numero) = None ->
  cabe (env_dialecto env) 50 (limpiar_numero (pais ++ numero)) = true ->
  exists tok,
    nt_token <$> temporales (m_db (generar_link env now req w).1) !! limpiar_numero (pais ++ numero) = Some (Some tok) /\
    validate tok max_age t =
      (if en_plazo max_age now t
       then inr (mkPayload (limpiar_numero (pais ++ numero)) (dominio_emisor env (pr_host_url req)))
       else inl SignatureExpired) /\
    limpiar_numero (limpiar_numero (pais ++ numero)) = limpiar_numero (pais ++ numero).
Proof.
  intros Hpost Hcsrf Hp Hn Htp Htn Hv Hc.
  rewrite (generar_link_registra env now req pais numero) by done. simpl.
  eexists. rewrite lookup_insert_eq. split; [done|]. split; [apply validate_issue|].
  apply limpiar_numero_idempotente.
Qed.

(** C27: a registration of a number that has voted changes nothing. *)
Theorem generar_link_ya_votado env now req pais numero w v :
  pr_post req = true -> pr_csrf_ok req = true ->
  pr_pais req = Some pais -> pr_numero req = Some numero ->
  truthy_str pais = true -> truthy_str numero = true ->
  votos (m_db w) !! limpiar_numero (pais ++ numero) = Some v ->
  generar_link env now req w = (w, Ok RGYaVotado).
Proof.
  intros Hpost Hcsrf Hp Hn Htp Htn Hv. unfold generar_link.
  rewrite Hpost, Hcsrf, Hp, Hn, Htp, Htn. simpl. unfold pbind, pget, pret.
  by rewrite numero_formulario_clave, Hv.
Qed.

(** The registration's effect on the store: none, or the number's
    pending authorisation set to a freshly signed token, for a number
    that has not voted. *)
Lemma generar_link_efecto env now req w :
  m_db (generar_link env now req w).1 = m_db w \/
  exists k, votos (m_db w) !! k = None /\
    m_db (generar_link env now req w).1 =
      mkDb (votos (m_db w))
           (<[k := mkNumeroTemporal k (Some (issue (mkPayload k (dominio_emisor env (pr_host_url req))) now)) now]>
              (temporales (m_db w)))
           (procesados (m_db w)) (bloqueos (m_db w)).
Proof.
  unfold generar_link. destruct (pr_post req); [|by left]. destruct (pr_csrf_ok req); [|by left]. simpl.
  destruct (pr_pais req) as [pais|], (pr_numero req) as [numero|]; try by left.
  destruct (truthy_str pais && truthy_str numero); [|by left]. simpl. unfold pbind, pget, pret.
  set (k := numero_formulario pais numero).
  destruct (bool_decide (is_Some (votos (m_db w) !! k))) eqn:Hv; [by left|].
  apply bool_decide_eq_false, eq_None_not_Some in Hv.
  unfold guardar_temporal, pbind, pget.
  destruct (temporales (m_db w) !! k) eqn:Ht;
  (match goal with |- context [db_commit env ?ops w] =>
     pose proof (db_commit_efecto env ops w) as Hef; destruct (db_commit env ops w) as [w' [[]|e]] end);
  simpl in *;
  [destruct Hef as [(_ & _ & Hc)|[_ [? ?]]]; [|done]; apply commit_upd_temporal in Hc as [_ Hc]
  |destruct Hef as [(? & _)|[-> _]]; [done|]; by left
  |destruct Hef as [(_ & _ & Hc)|[_ [? ?]]]; [|done]; apply commit_ins_temporal in Hc as [_ Hc]
  |destruct Hef as [(? & _)|[-> _]]; [done|]; by left].
  all: right; exists k; split; [done|]; by rewrite Hc.
Qed.

(** The registration sends no WhatsApp message. *)
Lemma generar_link_salida env now req w : m_salida (generar_link env now req w).1 = m_salida w.
Proof.
  unfold generar_link. destruct (pr_post req); [|done]. destruct (pr_csrf_ok req); [|done]. simpl.
  destruct (pr_pais req) as [pais|], (pr_numero req) as [numero|]; try done.
  destruct (truthy_str pais && truthy_str numero); [|done]. simpl. unfold pbind, pget, pret.
  try (destruct (bool_decide _); [done|]). unfold guardar_temporal, pbind, pget.
  destruct (temporales (m_db w) !! numero_formulario pais numero);
  (match goal with |- context [db_commit env ?ops w] =>
     pose proof (db_commit_efecto env ops w) as Hef; destruct (db_commit env ops w) as [w' [[]|e]] end);
  simpl in *; destruct Hef as [(? & ? & _)|[-> _]]; done.
Qed.

End Propiedades.

Section Testigos.
#[local] Existing Instance Excerpt.ucd_excerpt.
#[local] Existing Instance ts_ejemplo.
Local Open Scope Z_scope.

Definition env_rg : Entorno := mkEntorno (Some (u "https://votar.example")) None SQLite.

(** The country code typed with spaces, the number with a dash and a space. *)
Definition peticion_rg : PeticionRegistro :=
  mkPeticionRegistro true true (Some (u " 591 ")) (Some (u "700-000 00")) (u "https://votar.example/").

Definition voto_rg : Voto :=
  mkVoto (u "+59170000000") (u "M") (u "Bolivia") (u "Oruro") (u "Cercado") None (u "Oruro")
         (u "U.E. Junin") 1 1 1980 None None (u "190.0.2.9") 900 (u "B") (u "No") None.

Definition mundo_rg : Mundo := mkMundo (mkDb {[u "+59170000000" := voto_rg]} ∅ ∅ ∅) [].

Definition mundo_vacio_rg : Mundo := mkMundo db_vacia [].

Lemma generar_link_token_ida_vuelta_witness :
  pr_post peticion_rg = true /\ pr_csrf_ok peticion_rg = true /\
  pr_pais peticion_rg = Some (u " 591 ") /\ pr_numero peticion_rg = Some (u "700-000 00") /\
  truthy_str (u " 591 ") = true /\ truthy_str (u "700-000 00") = true /\
  votos (m_db mundo_vacio_rg) !! limpiar_numero (u " 591 " ++ u "700-000 00") = None /\
  cabe (env_dialecto env_rg) 50 (limpiar_numero (u " 591 " ++ u "700-000 00")) = true /\
  exists tok,
    nt_token <$> temporales (m_db (generar_link env_rg 1000 peticion_rg mundo_vacio_rg).1)
                   !! limpiar_numero (u " 591 " ++ u "700-000 00") = Some (Some tok) /\
    validate tok 600 1300 =
      (if en_plazo 600 1000 1300
       then inr (mkPayload (limpiar_numero (u " 591 " ++ u "700-000 00")) (dominio_emisor env_rg (pr_host_url peticion_rg)))
       else inl SignatureExpired) /\
    limpiar_numero (limpiar_numero (u " 591 " ++ u "700-000 00")) = limpiar_numero (u " 591 " ++ u "700-000 00").
Proof.
  do 8 (split; [vm_compute; reflexivity|]).
  apply (generar_link_token_ida_vuelta env_rg 1000 peticion_rg (u " 591 ") (u "700-000 00")); vm_compute; reflexivity.
Defined.

Lemma generar_link_ya_votado_witness :
  pr_post peticion_rg = true /\ pr_csrf_ok peticion_rg = true /\
  pr_pais peticion_rg = Some (u " 591 ") /\ pr_numero peticion_rg = Some (u "700-000 00") /\
  truthy_str (u " 591 ") = true /\ truthy_str (u "700-000 00") = true /\
  votos (m_db mundo_rg) !! limpiar_numero (u " 591 " ++ u "700-000 00") = Some voto_rg /\
  generar_link env_rg 1000 peticion_rg mundo_rg = (mundo_rg, Ok RGYaVotado).
Proof.
  do 6 (split; [reflexivity|]).
  assert (H : votos (m_db mundo_rg) !! limpiar_numero (u " 591 " ++ u "700-000 00") = Some voto_rg)
    by (vm_compute; reflexivity).
  split; [exact H|]. by apply (generar_link_ya_votado _ _ _ (u " 591 ") (u "700-000 00") _ voto_rg).
Defined.

End Testigos.
