(* ===== verification/Sistema.v ===== *)
(** * The service as a whole: requests served one after another

    [Estado] is the world ([Mundo]: the store and the WhatsApp outbox)
    together with the values of ['numero_token'] the server has signed
    into a session cookie.  Flask's session is a cookie signed with
    [SECRET_KEY] and kept by the client: the server keeps no list of open
    sessions, so a client may send back any cookie it was ever given, and
    none other as long as the key is secret ([e_sesiones] only grows).
    Flask loads the cookie with [max_age] the session lifetime (31 days
    by default, [vida_sesion]): an older cookie is an empty session, the
    same as sending none.  A response signs a new cookie only when the
    view modified the session: [votar] when it opens the form (line
    581); [enviar_voto]'s [session.pop] (line 674) deletes the cookie,
    which a client may ignore, so it signs nothing.

    [Peticion] has one constructor per route that reads or writes the
    store.  [atender] serves one request from start to end (Flask runs
    each request's view with its own SQLAlchemy session; the store is
    read and committed inside it), [paso] is the step relation of the
    server and [ejecucion] a run: a list of timed requests served in
    order.  [ejecutar] computes a run.

    [inv] is the invariant of every state reached from the empty store:
    rows keyed by their unique column, no number both voted and pending,
    no [WhatsappMensajeProcesado] row ever, counter rows of the guard's
    machine, every ballot cast through a signed session.  The last
    sections follow a voter through registration, link and ballot, and
    split [enviar_voto] at the point where it reads the store and the
    point where it commits, to show what two concurrent submissions do;
    they also show that a voter with a pending token can always finish,
    and Section [Bloqueo] runs the lockout through the server: four
    messages without [id] block an unregistered number after any run. *)

From stdpp Require Import relations.
From S2P Require Import Prelude Unicode Token Store Mundo Guard Json Webhook Votar EnviarVoto Registro.

Section Sistema.
Context {U : UnicodeDB} {TS : TokenService}.

(** Flask's [PERMANENT_SESSION_LIFETIME], left at its default of 31 days. *)
Definition vida_sesion : Z := 31 * 24 * 3600.

(** The world and the values of ['numero_token'] signed so far, each with
    the second it was signed at. *)
Record Estado := mkEstado { e_mundo : Mundo; e_sesiones : list (ustr * Z) }.

(** [db.create_all()] on an empty database, nothing sent, no session. *)
Definition inicial : Estado := mkEstado (mkMundo db_vacia []) [].

Inductive Peticion :=
| PWebhook (host_url : ustr) (body : option json)     (** POST /whatsapp *)
| PRegistro (req : PeticionRegistro)                  (** /generar_link *)
| PVotar (token : option Tok) (ses : option ustr)     (** GET /votar *)
| PEnviarVoto (req : PeticionVoto) (ses : option ustr). (** POST /enviar_voto *)

(** The ['numero_token'] of the session cookie the request carries. *)
Definition sesion_de (p : Peticion) : option ustr :=
  match p with PVotar _ s | PEnviarVoto _ s => s | _ => None end.

(** A cookie the server accepts at [now]: absent, or a value it signed
    within the session lifetime. *)
Definition sesion_valida (e : Estado) (now : Z) (ses : option ustr) : bool :=
  match ses with
  | Some s => existsb (fun st => bool_decide (st.1 = s) && en_plazo vida_sesion st.2 now) (e_sesiones e)
  | None => true
  end.

(** The world after the request and the value the response signs into
    a new session cookie, if it signs one. *)
Definition servir (env : Entorno) (now : Z) (p : Peticion) (w : Mundo) : Mundo * option ustr :=
  match p with
  | PWebhook host body => ((whatsapp_webhook env now host body w).1, None)
  | PRegistro req => ((generar_link env now req w).1, None)
  | PVotar tok ses =>
      let '(w', r) := votar env now tok ses w in
      (w', match r with Ok (RVFormulario _ _, s) => s | _ => None end)
  | PEnviarVoto req ses => ((enviar_voto env now req ses w).1, None)
  end.

Definition emitir (c : option ustr) (now : Z) (l : list (ustr * Z)) : list (ustr * Z) :=
  match c with Some n => (n, now) :: l | None => l end.

Definition atender (env : Entorno) (now : Z) (p : Peticion) (e : Estado) : Estado :=
  let '(w', c) := servir env now p (e_mundo e) in mkEstado w' (emitir c now (e_sesiones e)).

(** One request, served at time [now]. *)
Inductive paso (env : Entorno) (now : Z) (p : Peticion) (e : Estado) : Estado -> Prop :=
| paso_atender : sesion_valida e now (sesion_de p) = true -> paso env now p e (atender env now p e).

(** A run: the requests of the list served in order. *)
Inductive ejecucion (env : Entorno) : list (Z * Peticion) -> Estado -> Estado -> Prop :=
| ej_nil e : ejecucion env [] e e
| ej_cons now p ps e e' e'' :
    paso env now p e e' -> ejecucion env ps e' e'' -> ejecucion env ((now, p) :: ps) e e''.

Fixpoint ejecutar (env : Entorno) (ps : list (Z * Peticion)) (e : Estado) : option Estado :=
  match ps with
  | [] => Some e
  | (now, p) :: ps =>
      if sesion_valida e now (sesion_de p) then ejecutar env ps (atender env now p e) else None
  end.

(** The invariant of the reachable states. *)
Record inv_db (db : Db) (sesiones : list ustr) : Prop := {
  inv_wf : db_wf db;
  inv_disjuntos : forall k, is_Some (votos db !! k) -> temporales db !! k = None;
  inv_procesados : procesados db = ∅;
  inv_bloqueos : map_Forall (fun k b => bloqueo_inv k (Some b)) (bloqueos db);
  inv_votos : forall k, is_Some (votos db !! k) -> exists s, s ∈ sesiones /\ k = limpiar_numero s }.

Definition inv (e : Estado) : Prop := inv_db (m_db (e_mundo e)) (e_sesiones e).*1.

Definition es_enlace (m : Mensaje) : bool := match m with MsgEnlace _ _ => true | _ => false end.

(** No link message in the outbox. *)
Definition sin_enlaces (w : Mundo) : Prop := Forall (fun en => es_enlace (e_mensaje en) = false) (m_salida w).

(** A webhook body whose first message has an [id]: what WhatsApp sends. *)
Definition con_id (body : option json) : bool :=
  truthy (extraer_mensajes (datos_de body)) &&
  match primer_mensaje (extraer_mensajes (datos_de body)) ≫= message_id_de with
  | Some mid => truthy_str mid
  | None => false
  end.

Definition peticion_con_id (p : Peticion) : bool :=
  match p with PWebhook _ body => con_id body | _ => true end.

End Sistema.

Section Invariante.
Context {U : UnicodeDB} {TS : TokenService}.

Lemma ejecutar_ejecucion env ps e e' : ejecutar env ps e = Some e' <-> ejecucion env ps e e'.
Proof.
  split.
  - revert e. induction ps as [|[now p] ps IH]; intros e; cbn [ejecutar]; [intros [= ->]; constructor|].
    destruct (sesion_valida e now (sesion_de p)) eqn:Hs; [|done]. intros H. econstructor; [by constructor|auto].
  - induction 1 as [|now p ps e1 e2 e3 Hp _ IH]; [done|]. destruct Hp as [Hs]. cbn [ejecutar]. by rewrite Hs.
Qed.

Lemma ejecucion_app env ps qs e1 e2 e3 :
  ejecucion env ps e1 e2 -> ejecucion env qs e2 e3 -> ejecucion env (ps ++ qs) e1 e3.
Proof. induction 1; simpl; [done|]. intros. econstructor; eauto. Qed.

Lemma sesion_valida_elem e now s : sesion_valida e now (Some s) = true -> s ∈ (e_sesiones e).*1.
Proof.
  simpl. rewrite existsb_exists. intros [[s' t] [Hin Hs]].
  apply andb_true_iff in Hs as [Hs _]. apply bool_decide_eq_true in Hs. simpl in Hs. subst s'.
  apply (list_elem_of_fmap_2 fst _ (s, t)). by apply list_elem_of_In.
Qed.

(** A value signed at [now] is accepted for the session lifetime. *)
Lemma sesion_valida_emitida w n now now' l :
  en_plazo vida_sesion now now' = true -> sesion_valida (mkEstado w ((n, now) :: l)) now' (Some n) = true.
Proof. intros Hp. simpl. by rewrite bool_decide_true, Hp. Qed.

Lemma emitir_incl c now l : l.*1 ⊆ (emitir c now l).*1.
Proof. destruct c; simpl; set_solver. Qed.

Lemma inv_inicial : inv inicial.
Proof.
  split; simpl; [apply db_vacia_wf| | done | apply map_Forall_empty |];
    intros k [? Hk]; by rewrite lookup_empty in Hk.
Qed.

Lemma inv_db_sesiones db l l' : l ⊆ l' -> inv_db db l -> inv_db db l'.
Proof.
  intros Hl [Hwf Hd Hp Hb Hv]. split; [done..|]. intros k Hk.
  destruct (Hv k Hk) as (s & Hs & ->). exists s. split; [set_solver|done].
Qed.

(** A pending authorisation written for a number that has not voted. *)
Lemma inv_temporal db l nt :
  inv_db db l -> votos db !! nt_numero nt = None ->
  inv_db (mkDb (votos db) (<[nt_numero nt := nt]> (temporales db)) (procesados db) (bloqueos db)) l.
Proof.
  intros [(Hv & Ht & Hp & Hb) Hd Hpr Hbl Hvs] Hn. split; simpl; [|intros k Hk..|done|done|done].
  - repeat split; [done| |done|done]. by apply map_Forall_insert_2.
  - destruct (decide (nt_numero nt = k)) as [<-|Hne]; [rewrite Hn in Hk; by destruct Hk|].
    rewrite lookup_insert_ne by done. by apply Hd.
Qed.

(** A ballot stored under a signed session's number, its pending
    authorisation deleted. *)
Lemma inv_voto db l s v :
  inv_db db l -> s ∈ l -> v_numero v = limpiar_numero s -> votos db !! v_numero v = None ->
  inv_db (mkDb (<[v_numero v := v]> (votos db)) (delete (v_numero v) (temporales db))
               (procesados db) (bloqueos db)) l.
Proof.
  intros [(Hv & Ht & Hp & Hb) Hd Hpr Hbl Hvs] Hs Hn Hnone. split; simpl; [|intros k Hk..|done|done|].
  - repeat split; [by apply map_Forall_insert_2|by apply map_Forall_delete|done|done].
  - destruct (decide (v_numero v = k)) as [<-|Hne]; [apply lookup_delete_eq|].
    rewrite lookup_delete_ne, <-(Hd k) by (rewrite ?lookup_insert_ne in Hk; done). done.
  - intros k Hk. destruct (decide (v_numero v = k)) as [<-|Hne]; [eauto|].
    rewrite lookup_insert_ne in Hk by done. by apply Hvs.
Qed.

(** A counted message of an unblocked number. *)
(** The counter row of any number is a reachable row of the guard. *)
Lemma bloqueos_inv db k :
  map_Forall (fun k b => bloqueo_inv k (Some b)) (bloqueos db) -> bloqueo_inv k (bloqueos db !! k).
Proof. intros Hbl. destruct (bloqueos db !! k) eqn:E; [|done]. by apply (map_Forall_lookup_1 _ _ _ _ Hbl E). Qed.

Lemma inv_guardia db l k :
  inv_db db l -> esta_bloqueado (bloqueos db !! k) = false ->
  inv_db (mkDb (votos db) (temporales db) (procesados db)
               (<[bw_numero (nuevo_intento k (bloqueos db !! k)).1 := (nuevo_intento k (bloqueos db !! k)).1]>
                  (bloqueos db))) l.
Proof.
  intros [(Hv & Ht & Hp & Hb) Hd Hpr Hbl Hvs] Hnb.
  assert (Hi : bloqueo_inv k (Some (nuevo_intento k (bloqueos db !! k)).1)).
  { apply nuevo_intento_inv; [by apply bloqueos_inv|]. intros b Hb'. by rewrite Hb' in Hnb. }
  split; simpl; [|done..| |done].
  - repeat split; [done..|by apply map_Forall_insert_2].
  - apply map_Forall_insert_2; [|done]. destruct Hi as [Hk Hr]. by rewrite Hk.
Qed.

Lemma inv_webhook env now host db db' l :
  inv_db db l -> efecto_webhook env now host db db' -> inv_db db' l.
Proof.
  intros Hi Hef. destruct Hef as [|k nt Ht _|k _ Hnb]; [done| |by apply inv_guardia].
  apply (inv_temporal db l (mkNumeroTemporal k _ now) Hi). simpl.
  destruct (votos db !! k) eqn:Hv; [|done]. by rewrite (inv_disjuntos _ _ Hi k) in Ht.
Qed.

(** Every request keeps the invariant. *)
Lemma inv_paso env now p e e' : inv e -> paso env now p e e' -> inv e'.
Proof.
  intros Hi [Hs]. unfold inv, atender.
  destruct p as [host body|req|tok ses|req ses]; simpl in *.
  - eapply inv_webhook; [done|apply webhook_efecto].
  - destruct (generar_link_efecto env now req (e_mundo e)) as [->|(k & Hv & ->)]; [done|].
    by apply (inv_temporal _ _ (mkNumeroTemporal k _ now)).
  - pose proof (votar_no_escribe env now tok ses (e_mundo e)) as Hd.
    destruct (votar env now tok ses (e_mundo e)) as [w' r]. simpl in *.
    apply (inv_db_sesiones _ (e_sesiones e).*1); [apply emitir_incl|]. by rewrite Hd.
  - pose proof (enviar_voto_efecto env now req ses (e_mundo e)) as Hef.
    destruct (enviar_voto env now req ses (e_mundo e)) as [w' r]. simpl in *.
    destruct Hef as [->|(s & v & -> & Hn & Hnv & ->)]; [done|].
    apply (inv_voto _ _ s); [done|by apply (sesion_valida_elem _ now)|done|done].
Qed.

Lemma inv_ejecucion env ps e e' : inv e -> ejecucion env ps e e' -> inv e'.
Proof. intros Hi H. induction H; eauto using inv_paso. Qed.

End Invariante.

Section Propiedades.
Context {U : UnicodeDB} {TS : TokenService}.

(** A webhook body whose first message has an id leaves the world as it was. *)
Lemma webhook_con_id_mundo env now host body w :
  con_id body = true -> (whatsapp_webhook env now host body w).1 = w.
Proof.
  unfold con_id. destruct (truthy (extraer_mensajes (datos_de body))) eqn:Ht; [|done].
  destruct (primer_mensaje (extraer_mensajes (datos_de body))) as [msg|] eqn:Hp; [|done]. simpl.
  destruct (message_id_de msg) as [mid|] eqn:Hm; [|done]. intros Hid.
  unfold whatsapp_webhook, cuerpo_webhook, ptry, pbind, plift, pret, praise, pget.
  rewrite Ht. cbn [negb]. rewrite Hp. cbv beta iota zeta. rewrite Hm. cbv beta iota zeta.
  rewrite Hid. by destruct (procesados (m_db w) !! mid).
Qed.

Lemma sin_enlaces_paso env now p e e' :
  peticion_con_id p = true -> sin_enlaces (e_mundo e) -> paso env now p e e' -> sin_enlaces (e_mundo e').
Proof.
  intros Hid Hs [_]. unfold sin_enlaces, atender in *.
  destruct p as [host body|req|tok ses|req ses]; simpl in *.
  - by rewrite webhook_con_id_mundo.
  - by rewrite generar_link_salida.
  - destruct (votar_salida env now tok ses (e_mundo e)) as (l & Hl & Hf).
    destruct (votar env now tok ses (e_mundo e)) as [w' r]. simpl in *. rewrite Hl.
    apply Forall_app. split; [done|]. eapply Forall_impl; [exact Hf|]. by intros en [-> | ->].
  - pose proof (enviar_voto_salida env now req ses (e_mundo e)) as Hl.
    destruct (enviar_voto env now req ses (e_mundo e)) as [w' r]. simpl in *. by rewrite Hl.
Qed.

Lemma sin_enlaces_ejecucion env ps e e' :
  Forall (fun q => peticion_con_id q.2 = true) ps -> sin_enlaces (e_mundo e) ->
  ejecucion env ps e e' -> sin_enlaces (e_mundo e').
Proof.
  intros Hps Hs H. revert Hps Hs. induction H as [|now p ps e1 e2 e3 Hp _ IH]; [done|].
  intros [Hid Hps]%Forall_cons Hs. apply IH; [done|]. by eapply sin_enlaces_paso.
Qed.

Lemma efecto_webhook_votos env now host db db' :
  efecto_webhook env now host db db' -> votos db' = votos db.
Proof. by destruct 1. Qed.

Lemma votos_paso env now p e e' k v :
  paso env now p e e' -> votos (m_db (e_mundo e)) !! k = Some v -> votos (m_db (e_mundo e')) !! k = Some v.
Proof.
  intros [_] Hk. unfold atender. destruct p as [host body|req|tok ses|req ses]; simpl.
  - by rewrite (efecto_webhook_votos _ _ _ _ _ (webhook_efecto env now host body (e_mundo e))).
  - by destruct (generar_link_efecto env now req (e_mundo e)) as [->|(k' & _ & ->)].
  - pose proof (votar_no_escribe env now tok ses (e_mundo e)) as Hd.
    destruct (votar env now tok ses (e_mundo e)) as [w' r]. simpl in *. by rewrite Hd.
  - pose proof (enviar_voto_efecto env now req ses (e_mundo e)) as Hef.
    destruct (enviar_voto env now req ses (e_mundo e)) as [w' r]. simpl in *.
    destruct Hef as [->|(s & v' & _ & _ & Hn & ->)]; [done|]. simpl.
    rewrite lookup_insert_ne; [done|]. intros Heq. rewrite Heq in Hn. by rewrite Hn in Hk.
Qed.

(** C3: every state that a run of requests reaches from the empty store
    satisfies [inv]: each row is stored under its unique column, no number
    both has a ballot and a pending authorisation, the table of processed
    WhatsApp messages stays empty, each counter row is a row of the
    guard's machine, and each ballot's number is the normalisation of a
    session value the server signed. *)
Theorem sistema_invariante env ps e : ejecucion env ps inicial e -> inv e.
Proof. intros H. exact (inv_ejecucion env ps inicial e inv_inicial H). Qed.

(** C2: when every message WhatsApp delivers carries an [id] (as the
    WhatsApp Cloud API and 360dialog do), no run ever sends a voting
    link: the only request that sends one is the webhook, and line 317
    makes it do nothing for such messages. *)
Theorem sin_enlaces_con_id env ps e :
  Forall (fun q => peticion_con_id q.2 = true) ps -> ejecucion env ps inicial e -> sin_enlaces (e_mundo e).
Proof. intros Hps H. apply (sin_enlaces_ejecucion env ps inicial); [done|constructor|done]. Qed.

(** C5: once a number has voted, every valid token of that number is
    refused with the ambiguous "already used" answer (and a notice to the
    number), however recent: voting closed its pending authorisation. *)
Theorem voto_cierra_enlaces env ps e k now tok p ses :
  ejecucion env ps inicial e -> is_Some (votos (m_db (e_mundo e)) !! k) ->
  tok_truthy tok = true -> validate tok max_age_enlace now = inr p -> limpiar_numero (p_numero p) = k ->
  votar env now (Some tok) ses (e_mundo e) =
    ((enviar_mensaje_whatsapp env k MsgYaUtilizado (e_mundo e)).1, Ok (RVYaUtilizado, ses)).
Proof.
  intros H Hk Ht Hv Hp. destruct (inv_ejecucion _ _ _ _ inv_inicial H) as [_ Hd _ _ _].
  rewrite (votar_valido env now tok ses _ p) by done. cbv zeta. rewrite Hp.
  unfold registro_con_token. by rewrite (Hd k Hk).
Qed.

(** C20: a stored ballot is never changed nor removed by any later
    request. *)
Theorem votos_estables env ps e e' k v :
  ejecucion env ps e e' -> votos (m_db (e_mundo e)) !! k = Some v -> votos (m_db (e_mundo e')) !! k = Some v.
Proof. induction 1; eauto using votos_paso. Qed.

End Propiedades.

Section Escenarios.
Context {U : UnicodeDB} {TS : TokenService}.

(** A pending authorisation of [limpiar_numero n] holding the token
    signed at [t0] for the configured domain opens the ballot form
    within 600 seconds, with any incoming session, and signs the number
    into the session; the store is not written. *)
Lemma votar_abre_formulario env w n d t0 t1 nt ses :
  temporales (m_db w) !! limpiar_numero n = Some nt ->
  nt_token nt = Some (issue (mkPayload (limpiar_numero n) d) t0) ->
  votos (m_db w) !! limpiar_numero n = None ->
  env_azure_domain env = Some d -> en_plazo max_age_enlace t0 t1 = true ->
  votar env t1 (Some (issue (mkPayload (limpiar_numero n) d) t0)) ses w =
    (w, Ok (RVFormulario (limpiar_numero n) (issue (mkPayload (limpiar_numero n) d) t0), Some (limpiar_numero n))).
Proof.
  intros Ht Htok Hv Hd Hpl.
  rewrite (votar_valido env t1 _ ses w (mkPayload (limpiar_numero n) d));
    [|apply issue_truthy|by rewrite validate_issue, Hpl].
  cbv zeta. simpl. rewrite limpiar_numero_idempotente. unfold registro_con_token.
  rewrite Ht, Htok, Hv, Hd. repeat case_bool_decide; simpl; try done.
  all: match goal with H : ~ _ |- _ => destruct H; by eauto | H : is_Some None |- _ => by destruct H end.
Qed.

(** C4: the voter's path.  A pending authorisation of number [k] holding
    the token signed at [t0] for the configured domain opens the ballot
    form at any [t1] within 600 seconds; a submission that passes the
    form checks then stores the ballot under [k] and deletes the pending
    authorisation; after that the same link never opens the form again,
    at any time, with any session. *)
Theorem ciclo_de_voto env w n d t0 t1 t2 t3 nt reqv v :
  temporales (m_db w) !! limpiar_numero n = Some nt ->
  nt_token nt = Some (issue (mkPayload (limpiar_numero n) d) t0) ->
  votos (m_db w) !! limpiar_numero n = None ->
  env_azure_domain env = Some d -> en_plazo max_age_enlace t0 t1 = true ->
  pv_csrf_ok reqv = true -> preparar_voto env t2 reqv (Some (limpiar_numero n)) (m_db w) = Ok (inr v) ->
  voto_ok (env_dialecto env) v = true ->
  votar env t1 (Some (issue (mkPayload (limpiar_numero n) d) t0)) None w =
    (w, Ok (RVFormulario (limpiar_numero n) (issue (mkPayload (limpiar_numero n) d) t0), Some (limpiar_numero n))) /\
  enviar_voto env t2 reqv (Some (limpiar_numero n)) w =
    (mkMundo (mkDb (<[limpiar_numero n := v]> (votos (m_db w))) (delete (limpiar_numero n) (temporales (m_db w)))
                   (procesados (m_db w)) (bloqueos (m_db w))) (m_salida w),
     Ok (REVExito (limpiar_numero n), None)) /\
  forall ses n' t' s',
    (votar env t3 (Some (issue (mkPayload (limpiar_numero n) d) t0)) ses
       (enviar_voto env t2 reqv (Some (limpiar_numero n)) w).1).2 <> Ok (RVFormulario n' t', s').
Proof.
  intros Ht Htok Hv Hd Hpl Hc Hp Hok.
  destruct (preparar_voto_sesion _ _ _ _ _ _ Hp) as ([s [[= <-] Hn]] & _).
  rewrite limpiar_numero_idempotente in Hn.
  assert (He := enviar_voto_ok _ _ _ _ _ _ Hc Hp Hok). rewrite Hn in He.
  split; [|split; [exact He|]].
  - by apply (votar_abre_formulario env w n d t0 t1 nt None).
  - intros ses. rewrite He. apply votar_sin_registro. intros p Hp'.
    apply validate_issue_payload in Hp' as ->. simpl. rewrite limpiar_numero_idempotente.
    unfold registro_con_token. simpl. by rewrite lookup_delete_eq.
Qed.

(** C11: liveness of the voter's path.  In every state a run reaches
    from the empty store, a number [k] whose pending authorisation holds
    a token signed at [t0] for the configured domain can still vote: the
    two requests a browser sends, the link visit at [t1] within 600
    seconds (with no cookie) and the submission of a valid form at [t2]
    with the cookie that visit returned, within its 31-day lifetime, are
    both accepted by the server, and the state they reach holds the ballot under [k] and no
    longer a pending authorisation of [k]. *)
Theorem voto_alcanzable env ps e n d t0 t1 t2 nt reqv v :
  ejecucion env ps inicial e ->
  temporales (m_db (e_mundo e)) !! limpiar_numero n = Some nt ->
  nt_token nt = Some (issue (mkPayload (limpiar_numero n) d) t0) ->
  env_azure_domain env = Some d -> en_plazo max_age_enlace t0 t1 = true ->
  en_plazo vida_sesion t1 t2 = true -> pv_csrf_ok reqv = true ->
  preparar_voto env t2 reqv (Some (limpiar_numero n)) (m_db (e_mundo e)) = Ok (inr v) ->
  voto_ok (env_dialecto env) v = true ->
  exists e', ejecucion env (ps ++ [(t1, PVotar (Some (issue (mkPayload (limpiar_numero n) d) t0)) None);
                                  (t2, PEnviarVoto reqv (Some (limpiar_numero n)))]) inicial e' /\
    votos (m_db (e_mundo e')) !! limpiar_numero n = Some v /\
    temporales (m_db (e_mundo e')) !! limpiar_numero n = None.
Proof.
  intros Hrun Ht Htok Hd Hpl Hsv Hc Hp Hok.
  assert (Hv : votos (m_db (e_mundo e)) !! limpiar_numero n = None).
  { destruct (votos _ !! _) eqn:Hv; [|done]. exfalso.
    rewrite (inv_disjuntos _ _ (inv_ejecucion env ps _ _ inv_inicial Hrun)) in Ht; [done|by eexists]. }
  destruct (preparar_voto_sesion _ _ _ _ _ _ Hp) as ([s [[= <-] Hn]] & _).
  rewrite limpiar_numero_idempotente in Hn.
  eexists. split; [|split].
  - eapply ejecucion_app; [exact Hrun|].
    eapply ej_cons; [constructor; done|].
    eapply ej_cons; [constructor|constructor].
    unfold atender, servir. rewrite (votar_abre_formulario env _ n d t0 t1 nt None) by done.
    cbn -[sesion_valida]. by apply sesion_valida_emitida.
  - unfold atender, servir. rewrite (votar_abre_formulario env _ n d t0 t1 nt None) by done.
    cbn [e_mundo]. rewrite (enviar_voto_ok env t2 reqv _ _ v Hc Hp Hok). simpl.
    rewrite Hn. apply lookup_insert_eq.
  - unfold atender, servir. rewrite (votar_abre_formulario env _ n d t0 t1 nt None) by done.
    cbn [e_mundo]. rewrite (enviar_voto_ok env t2 reqv _ _ v Hc Hp Hok). simpl.
    rewrite Hn. apply lookup_delete_eq.
Qed.

(** C9: a registration at [t1] of a number that has not voted kills
    every link signed for it at another second [t0]: the old token no
    longer opens the form, at any time, with any session. *)
Theorem reemision_invalida_anterior env t0 t1 t2 req pais numero w ses :
  pr_post req = true -> pr_csrf_ok req = true ->
  pr_pais req = Some pais -> pr_numero req = Some numero ->
  truthy_str pais = true -> truthy_str numero = true ->
  votos (m_db w) !! limpiar_numero (pais ++ numero) = None ->
  cabe (env_dialecto env) 50 (limpiar_numero (pais ++ numero)) = true -> t0 <> t1 ->
  forall n t s,
    (votar env t2 (Some (issue (mkPayload (limpiar_numero (pais ++ numero)) (dominio_emisor env (pr_host_url req))) t0))
       ses (generar_link env t1 req w).1).2 <> Ok (RVFormulario n t, s).
Proof.
  intros Hpost Hcsrf Hp Hn Htp Htn Hv Hc Ht.
  rewrite (generar_link_registra env t1 req pais numero) by done. simpl.
  apply votar_sin_registro. intros p Hp'. apply validate_issue_payload in Hp' as ->. simpl.
  rewrite limpiar_numero_idempotente. unfold registro_con_token. simpl. rewrite lookup_insert_eq.
  apply bool_decide_eq_false. intros [= Heq]. apply issue_inj in Heq as [_ ?]. lia.
Qed.

(** C10: two submissions of the same session that both read the store
    before either commits both pass the "already voted" check (line
    647).  The first request answers success and stores its ballot; the
    second, resuming after its read with the rest of its view
    ([enviar_voto_tras_lectura]) on the world the first one left, fails
    on the unique index of [voto.numero] with an [IntegrityError] that
    the view does not catch: its answer is an exception (HTTP 500), not
    the "already voted" page, and the first ballot stays. *)
Theorem doble_envio_concurrente env now1 now2 req1 req2 s w v1 v2 :
  pv_csrf_ok req1 = true ->
  preparar_voto env now1 req1 (Some s) (m_db w) = Ok (inr v1) ->
  preparar_voto env now2 req2 (Some s) (m_db w) = Ok (inr v2) ->
  voto_ok (env_dialecto env) v1 = true -> voto_ok (env_dialecto env) v2 = true ->
  (enviar_voto env now1 req1 (Some s) w).2 = Ok (REVExito (limpiar_numero s), None) /\
  enviar_voto_tras_lectura env (Some s) (preparar_voto env now2 req2 (Some s) (m_db w))
    (enviar_voto env now1 req1 (Some s) w).1
  = ((enviar_voto env now1 req1 (Some s) w).1, Exc ExcIntegrity) /\
  votos (m_db (enviar_voto env now1 req1 (Some s) w).1) !! limpiar_numero s = Some v1.
Proof.
  intros Hc Hp1 Hp2 Hok1 Hok2.
  destruct (preparar_voto_sesion _ _ _ _ _ _ Hp1) as ([s1 [[= <-] Hn1]] & Hnv).
  destruct (preparar_voto_sesion _ _ _ _ _ _ Hp2) as ([s2 [[= <-] Hn2]] & _).
  rewrite (enviar_voto_ok env now1 req1 _ w v1 Hc Hp1 Hok1), Hp2. simpl.
  rewrite <-Hn1. split; [done|]. split; [|apply lookup_insert_eq].
  unfold pbind, confirmar_voto, db_commit. simpl. unfold insertar_unico.
  by rewrite Hok2, Hn2, <-Hn1, lookup_insert_eq.
Qed.

End Escenarios.

Section Bloqueo.
Context {U : UnicodeDB} {TS : TokenService}.

(** One webhook request whose message has no [id] and comes from a
    number with no pending authorisation: the number's counter row
    becomes the one of [paso_guardia], the pending authorisations are
    untouched. *)
Lemma atender_webhook_no_registrado env now host body msg raw txt e :
  inv e ->
  truthy (extraer_mensajes (datos_de body)) = true ->
  primer_mensaje (extraer_mensajes (datos_de body)) = Some msg ->
  message_id_de msg = Some [] -> numero_raw_de msg = Some raw -> texto_de msg = Some txt ->
  temporales (m_db (e_mundo e)) !! limpiar_numero (py_str raw) = None ->
  cabe (env_dialecto env) 50 (limpiar_numero (py_str raw)) = true ->
  bloqueos (m_db (e_mundo (atender env now (PWebhook host body) e))) !! limpiar_numero (py_str raw) =
    (paso_guardia (limpiar_numero (py_str raw)) (bloqueos (m_db (e_mundo e)) !! limpiar_numero (py_str raw))).1 /\
  temporales (m_db (e_mundo (atender env now (PWebhook host body) e))) = temporales (m_db (e_mundo e)).
Proof.
  intros Hi Ht Hp Hm Hr Htx Hnt Hc. unfold atender, servir.
  assert (Hinv := bloqueos_inv (m_db (e_mundo e)) (limpiar_numero (py_str raw)) (inv_bloqueos _ _ Hi)).
  destruct (esta_bloqueado (bloqueos (m_db (e_mundo e)) !! limpiar_numero (py_str raw))) eqn:Hb.
  - rewrite (webhook_atiende env now host body _ msg raw txt) by done. unfold ptry.
    rewrite (atender_mensaje_lecturas env now host msg raw txt) by done. cbv zeta. rewrite Hb. simpl.
    split; [|done]. by destruct (bloqueos _ !! _) as [[? ? []]|].
  - rewrite (webhook_guardia env now host body _ msg raw txt);
      [|apply (inv_wf _ _ Hi)|done..|by apply nuevo_intento_ok].
    simpl. split; [|done]. rewrite lookup_insert_eq. by rewrite paso_guardia_no_bloqueado.
Qed.

(** [ts] further such requests, served after a run: the counter row
    follows [iterar_guardia]. *)
Lemma ejecucion_webhooks env ps e host body msg raw txt ts :
  ejecucion env ps inicial e ->
  truthy (extraer_mensajes (datos_de body)) = true ->
  primer_mensaje (extraer_mensajes (datos_de body)) = Some msg ->
  message_id_de msg = Some [] -> numero_raw_de msg = Some raw -> texto_de msg = Some txt ->
  temporales (m_db (e_mundo e)) !! limpiar_numero (py_str raw) = None ->
  cabe (env_dialecto env) 50 (limpiar_numero (py_str raw)) = true ->
  exists e', ejecucion env (ps ++ map (fun t => (t, PWebhook host body)) ts) inicial e' /\
    bloqueos (m_db (e_mundo e')) !! limpiar_numero (py_str raw) =
      (iterar_guardia (limpiar_numero (py_str raw)) (length ts)
         (bloqueos (m_db (e_mundo e)) !! limpiar_numero (py_str raw))).1.
Proof.
  intros Hrun Ht Hp Hm Hr Htx Hnt Hc. revert ps e Hrun Hnt.
  induction ts as [|t ts IH]; intros ps e Hrun Hnt.
  - exists e. by rewrite app_nil_r.
  - destruct (atender_webhook_no_registrado env t host body msg raw txt e
                (inv_ejecucion env ps _ _ inv_inicial Hrun) Ht Hp Hm Hr Htx Hnt Hc) as [Hb Htm].
    destruct (IH (ps ++ [(t, PWebhook host body)]) (atender env t (PWebhook host body) e)) as (e' & Hrun' & Hb');
      [eapply ejecucion_app; [exact Hrun|]; econstructor; [by constructor|constructor]|by rewrite Htm|].
    exists e'. rewrite <-app_assoc in Hrun'. split; [exact Hrun'|].
    by rewrite Hb', Hb, <-iterar_guardia_S_fst.
Qed.

(** C12: liveness of the lockout at the level of the server.  After any
    run from the empty store, a number with no pending authorisation
    (and a [String(50)] number) that sends four more WhatsApp messages
    without [id] (the format the webhook processes) is blocked, whatever
    its counter was. *)
Theorem bloqueo_alcanzable env ps e host body msg raw txt ts :
  ejecucion env ps inicial e ->
  truthy (extraer_mensajes (datos_de body)) = true ->
  primer_mensaje (extraer_mensajes (datos_de body)) = Some msg ->
  message_id_de msg = Some [] -> numero_raw_de msg = Some raw -> texto_de msg = Some txt ->
  temporales (m_db (e_mundo e)) !! limpiar_numero (py_str raw) = None ->
  cabe (env_dialecto env) 50 (limpiar_numero (py_str raw)) = true ->
  length ts = Z.to_nat umbral ->
  exists e', ejecucion env (ps ++ map (fun t => (t, PWebhook host body)) ts) inicial e' /\
    exists b, bloqueos (m_db (e_mundo e')) !! limpiar_numero (py_str raw) = Some b /\ bw_bloqueado b = true.
Proof.
  intros Hrun Ht Hp Hm Hr Htx Hnt Hc Hlen.
  destruct (ejecucion_webhooks env ps e host body msg raw txt ts) as (e' & Hrun' & Hb); [done..|].
  assert (Hinv := bloqueos_inv (m_db (e_mundo e)) (limpiar_numero (py_str raw))
                   (inv_bloqueos _ _ (inv_ejecucion env ps _ _ inv_inicial Hrun))).
  exists e'. split; [done|]. rewrite Hb, Hlen. apply iterar_guardia_bloquea; [done|].
  pose proof (intentos_de_inv _ _ Hinv). lia.
Qed.

End Bloqueo.

Section Testigos.
#[local] Existing Instance Excerpt.ucd_excerpt.
#[local] Existing Instance ts_ejemplo.
Local Open Scope Z_scope.

Definition dominio_s : ustr := u "https://votar.example".
Definition tok_s (t : Z) : Tok := issue (mkPayload numero_ev dominio_s) t.

(** Registration at 1000, a WhatsApp message without id at 1010 (the
    link is reissued), the link visit at 1100 and the ballot at 1200. *)
Definition ps_voto : list (Z * Peticion) :=
  [(1000, PRegistro peticion_rg); (1010, PWebhook host_ej body_sin_id);
   (1100, PVotar (Some (tok_s 1010)) None); (1200, PEnviarVoto (peticion_ev form_no) (Some numero_ev))].

Definition e_voto : Estado := default inicial (ejecutar env_ev ps_voto inicial).

(** The same voter with the payload WhatsApp really sends. *)
Definition ps_real : list (Z * Peticion) :=
  [(1000, PRegistro peticion_rg); (1010, PWebhook host_ej body_con_id); (1100, PVotar (Some (tok_s 1000)) None)].

Definition e_real : Estado := default inicial (ejecutar env_ev ps_real inicial).

(** After the ballot: a second submission and a second registration. *)
Definition ps_despues : list (Z * Peticion) :=
  [(1300, PEnviarVoto (peticion_ev form_no) (Some numero_ev)); (1400, PRegistro peticion_rg)].

Definition e_despues : Estado := default e_voto (ejecutar env_ev ps_despues e_voto).

Definition nt_s : NumeroTemporal := mkNumeroTemporal numero_ev (Some (tok_s 1000)) 1000.
Definition mundo_s : Mundo := mkMundo (mkDb ∅ {[numero_ev := nt_s]} ∅ ∅) [].

Lemma sistema_invariante_witness : ejecucion env_ev ps_voto inicial e_voto /\ inv e_voto.
Proof.
  assert (H : ejecucion env_ev ps_voto inicial e_voto) by (apply ejecutar_ejecucion; vm_compute; reflexivity).
  split; [exact H|]. exact (sistema_invariante _ _ _ H).
Defined.

Lemma sin_enlaces_con_id_witness :
  Forall (fun q => peticion_con_id q.2 = true) ps_real /\ ejecucion env_ev ps_real inicial e_real /\
  sin_enlaces (e_mundo e_real).
Proof.
  assert (H1 : Forall (fun q => peticion_con_id q.2 = true) ps_real)
    by (apply (bool_decide_eq_true_1 _); vm_compute; reflexivity).
  assert (H2 : ejecucion env_ev ps_real inicial e_real) by (apply ejecutar_ejecucion; vm_compute; reflexivity).
  split; [exact H1|]. split; [exact H2|]. exact (sin_enlaces_con_id _ _ _ H1 H2).
Defined.

Lemma voto_cierra_enlaces_witness :
  ejecucion env_ev ps_voto inicial e_voto /\ is_Some (votos (m_db (e_mundo e_voto)) !! numero_ev) /\
  tok_truthy (tok_s 1010) = true /\
  validate (tok_s 1010) max_age_enlace 1300 = inr (mkPayload numero_ev dominio_s) /\
  limpiar_numero (p_numero (mkPayload numero_ev dominio_s)) = numero_ev /\
  votar env_ev 1300 (Some (tok_s 1010)) None (e_mundo e_voto) =
    ((enviar_mensaje_whatsapp env_ev numero_ev MsgYaUtilizado (e_mundo e_voto)).1, Ok (RVYaUtilizado, None)).
Proof.
  assert (H : ejecucion env_ev ps_voto inicial e_voto) by (apply ejecutar_ejecucion; vm_compute; reflexivity).
  assert (Hk : is_Some (votos (m_db (e_mundo e_voto)) !! numero_ev))
    by (apply (bool_decide_eq_true_1 _); vm_compute; reflexivity).
  split; [exact H|]. split; [exact Hk|]. do 3 (split; [vm_compute; reflexivity|]).
  apply (voto_cierra_enlaces env_ev ps_voto e_voto numero_ev 1300 (tok_s 1010) (mkPayload numero_ev dominio_s) None H Hk);
    vm_compute; reflexivity.
Defined.

Lemma votos_estables_witness :
  ejecucion env_ev ps_despues e_voto e_despues /\
  votos (m_db (e_mundo e_voto)) !! numero_ev = Some (voto_ev 1200 (u "No") None) /\
  votos (m_db (e_mundo e_despues)) !! numero_ev = Some (voto_ev 1200 (u "No") None).
Proof.
  assert (H : ejecucion env_ev ps_despues e_voto e_despues) by (apply ejecutar_ejecucion; vm_compute; reflexivity).
  assert (Hv : votos (m_db (e_mundo e_voto)) !! numero_ev = Some (voto_ev 1200 (u "No") None))
    by (vm_compute; reflexivity).
  split; [exact H|]. split; [exact Hv|]. exact (votos_estables _ _ _ _ _ _ H Hv).
Defined.

Lemma ciclo_de_voto_witness :
  temporales (m_db mundo_s) !! limpiar_numero numero_ev = Some nt_s /\
  nt_token nt_s = Some (issue (mkPayload (limpiar_numero numero_ev) dominio_s) 1000) /\
  votos (m_db mundo_s) !! limpiar_numero numero_ev = None /\
  env_azure_domain env_ev = Some dominio_s /\ en_plazo max_age_enlace 1000 1100 = true /\
  pv_csrf_ok (peticion_ev form_no) = true /\
  preparar_voto env_ev 1200 (peticion_ev form_no) (Some (limpiar_numero numero_ev)) (m_db mundo_s) =
    Ok (inr (voto_ev 1200 (u "No") None)) /\
  voto_ok (env_dialecto env_ev) (voto_ev 1200 (u "No") None) = true /\
  (votar env_ev 1100 (Some (issue (mkPayload (limpiar_numero numero_ev) dominio_s) 1000)) None mundo_s =
    (mundo_s, Ok (RVFormulario (limpiar_numero numero_ev) (issue (mkPayload (limpiar_numero numero_ev) dominio_s) 1000),
                  Some (limpiar_numero numero_ev))) /\
  enviar_voto env_ev 1200 (peticion_ev form_no) (Some (limpiar_numero numero_ev)) mundo_s =
    (mkMundo (mkDb (<[limpiar_numero numero_ev := voto_ev 1200 (u "No") None]> (votos (m_db mundo_s)))
                   (delete (limpiar_numero numero_ev) (temporales (m_db mundo_s)))
                   (procesados (m_db mundo_s)) (bloqueos (m_db mundo_s))) (m_salida mundo_s),
     Ok (REVExito (limpiar_numero numero_ev), None)) /\
  forall ses n' t' s',
    (votar env_ev 1300 (Some (issue (mkPayload (limpiar_numero numero_ev) dominio_s) 1000)) ses
       (enviar_voto env_ev 1200 (peticion_ev form_no) (Some (limpiar_numero numero_ev)) mundo_s).1).2
      <> Ok (RVFormulario n' t', s')).
Proof.
  do 8 (split; [vm_compute; reflexivity|]).
  apply (ciclo_de_voto env_ev mundo_s numero_ev dominio_s 1000 1100 1200 1300 nt_s); vm_compute; reflexivity.
Defined.

Definition ps_registro : list (Z * Peticion) := [(1000, PRegistro peticion_rg)].
Definition e_registro : Estado := default inicial (ejecutar env_ev ps_registro inicial).

Lemma voto_alcanzable_witness :
  ejecucion env_ev ps_registro inicial e_registro /\
  temporales (m_db (e_mundo e_registro)) !! limpiar_numero numero_ev = Some nt_s /\
  nt_token nt_s = Some (issue (mkPayload (limpiar_numero numero_ev) dominio_s) 1000) /\
  env_azure_domain env_ev = Some dominio_s /\ en_plazo max_age_enlace 1000 1500 = true /\
  en_plazo vida_sesion 1500 1550 = true /\ pv_csrf_ok (peticion_ev form_no) = true /\
  preparar_voto env_ev 1550 (peticion_ev form_no) (Some (limpiar_numero numero_ev)) (m_db (e_mundo e_registro)) =
    Ok (inr (voto_ev 1550 (u "No") None)) /\
  voto_ok (env_dialecto env_ev) (voto_ev 1550 (u "No") None) = true /\
  exists e', ejecucion env_ev (ps_registro ++
                [(1500, PVotar (Some (issue (mkPayload (limpiar_numero numero_ev) dominio_s) 1000)) None);
                 (1550, PEnviarVoto (peticion_ev form_no) (Some (limpiar_numero numero_ev)))]) inicial e' /\
    votos (m_db (e_mundo e')) !! limpiar_numero numero_ev = Some (voto_ev 1550 (u "No") None) /\
    temporales (m_db (e_mundo e')) !! limpiar_numero numero_ev = None.
Proof.
  assert (H : ejecucion env_ev ps_registro inicial e_registro) by (apply ejecutar_ejecucion; vm_compute; reflexivity).
  split; [exact H|]. do 8 (split; [vm_compute; reflexivity|]).
  apply (voto_alcanzable env_ev ps_registro e_registro numero_ev dominio_s 1000 1500 1550 nt_s); 
    first [exact H | vm_compute; reflexivity].
Defined.

(** An unregistered number that has already been warned twice. *)
Definition ps_avisos : list (Z * Peticion) := [(2000, PWebhook host_ej body_sin_id); (2010, PWebhook host_ej body_sin_id)].
Definition e_avisos : Estado := default inicial (ejecutar env_ev ps_avisos inicial).

Lemma bloqueo_alcanzable_witness :
  ejecucion env_ev ps_avisos inicial e_avisos /\
  truthy (extraer_mensajes (datos_de body_sin_id)) = true /\
  primer_mensaje (extraer_mensajes (datos_de body_sin_id)) = Some msg_sin_id /\
  message_id_de msg_sin_id = Some [] /\ numero_raw_de msg_sin_id = Some (JInt 59170000000) /\
  texto_de msg_sin_id = Some (u "votar") /\
  temporales (m_db (e_mundo e_avisos)) !! limpiar_numero (py_str (JInt 59170000000)) = None /\
  cabe (env_dialecto env_ev) 50 (limpiar_numero (py_str (JInt 59170000000))) = true /\
  length [2020; 2030; 2040; 2050] = Z.to_nat umbral /\
  exists e', ejecucion env_ev (ps_avisos ++ map (fun t => (t, PWebhook host_ej body_sin_id)) [2020; 2030; 2040; 2050])
               inicial e' /\
    exists b, bloqueos (m_db (e_mundo e')) !! limpiar_numero (py_str (JInt 59170000000)) = Some b /\
              bw_bloqueado b = true.
Proof.
  assert (H : ejecucion env_ev ps_avisos inicial e_avisos) by (apply ejecutar_ejecucion; vm_compute; reflexivity).
  split; [exact H|]. do 8 (split; [vm_compute; reflexivity|]).
  apply (bloqueo_alcanzable env_ev ps_avisos e_avisos host_ej body_sin_id msg_sin_id (JInt 59170000000) (u "votar"));
    first [exact H | vm_compute; reflexivity].
Defined.

Lemma reemision_invalida_anterior_witness :
  pr_post peticion_rg = true /\ pr_csrf_ok peticion_rg = true /\
  pr_pais peticion_rg = Some (u " 591 ") /\ pr_numero peticion_rg = Some (u "700-000 00") /\
  truthy_str (u " 591 ") = true /\ truthy_str (u "700-000 00") = true /\
  votos (m_db mundo_s) !! limpiar_numero (u " 591 " ++ u "700-000 00") = None /\
  cabe (env_dialecto env_ev) 50 (limpiar_numero (u " 591 " ++ u "700-000 00")) = true /\ 1000 <> 1010 /\
  forall n t s,
    (votar env_ev 1100 (Some (issue (mkPayload (limpiar_numero (u " 591 " ++ u "700-000 00"))
                                               (dominio_emisor env_ev (pr_host_url peticion_rg))) 1000))
       None (generar_link env_ev 1010 peticion_rg mundo_s).1).2 <> Ok (RVFormulario n t, s).
Proof.
  do 8 (split; [vm_compute; reflexivity|]). split; [lia|].
  apply (reemision_invalida_anterior env_ev 1000 1010 1100 peticion_rg (u " 591 ") (u "700-000 00"));
    first [vm_compute; reflexivity | lia].
Defined.

Lemma doble_envio_concurrente_witness :
  pv_csrf_ok (peticion_ev form_no) = true /\
  preparar_voto env_ev 1200 (peticion_ev form_no) (Some numero_ev) (m_db mundo_s) = Ok (inr (voto_ev 1200 (u "No") None)) /\
  preparar_voto env_ev 1201 (peticion_ev form_no) (Some numero_ev) (m_db mundo_s) = Ok (inr (voto_ev 1201 (u "No") None)) /\
  voto_ok (env_dialecto env_ev) (voto_ev 1200 (u "No") None) = true /\
  voto_ok (env_dialecto env_ev) (voto_ev 1201 (u "No") None) = true /\
  ((enviar_voto env_ev 1200 (peticion_ev form_no) (Some numero_ev) mundo_s).2
     = Ok (REVExito (limpiar_numero numero_ev), None) /\
   enviar_voto_tras_lectura env_ev (Some numero_ev)
     (preparar_voto env_ev 1201 (peticion_ev form_no) (Some numero_ev) (m_db mundo_s))
     (enviar_voto env_ev 1200 (peticion_ev form_no) (Some numero_ev) mundo_s).1
   = ((enviar_voto env_ev 1200 (peticion_ev form_no) (Some numero_ev) mundo_s).1, Exc ExcIntegrity) /\
   votos (m_db (enviar_voto env_ev 1200 (peticion_ev form_no) (Some numero_ev) mundo_s).1) !! limpiar_numero numero_ev
     = Some (voto_ev 1200 (u "No") None)).
Proof.
  do 5 (split; [vm_compute; reflexivity|]).
  apply (doble_envio_concurrente env_ev 1200 1201 (peticion_ev form_no) (peticion_ev form_no) numero_ev mundo_s
           (voto_ev 1200 (u "No") None) (voto_ev 1201 (u "No") None));
    vm_compute; reflexivity.
Defined.

End Testigos.
