(* ===== verification/Especificacion.v ===== *)
(** * The design's contract for the voting state, and the refinement

    Sections 3 and 4 of the design describe the state that matters for
    voting: pending authorisations, with at most one live token per
    number, overwritten on every reissue and deleted when the number
    votes; and ballots, created once per number and never changed.
    [Abstracto] is that state and [paso_abs] its transitions: issue a
    token for a number that has not voted, cast the ballot of a number
    that has not voted (closing its pending authorisation), or nothing.
    [abs] reads the abstract state off a state of [Sistema];
    [refinamiento_traza] shows that every run of the service is a run of
    the abstract machine, so the machine's own invariants
    ([inv_abs_paso], [votados_crecen]) hold of the service. *)

From stdpp Require Import relations.
From S2P Require Import Prelude Unicode Token Store Mundo Guard Json Webhook Votar EnviarVoto Registro Sistema.

Section Especificacion.
Context {TS : TokenService}.

Record Abstracto := mkAbstracto { a_pendientes : gmap ustr Tok; a_votados : gset ustr }.

Inductive paso_abs : Abstracto -> Abstracto -> Prop :=
| pa_nada a : paso_abs a a
| pa_emitir a k t : k ∉ a_votados a ->
    paso_abs a (mkAbstracto (<[k := t]> (a_pendientes a)) (a_votados a))
| pa_votar a k : k ∉ a_votados a ->
    paso_abs a (mkAbstracto (delete k (a_pendientes a)) ({[k]} ∪ a_votados a)).

(** The design's invariant: a number that voted has no live token. *)
Definition inv_abs (a : Abstracto) : Prop := forall k, k ∈ a_votados a -> a_pendientes a !! k = None.

Definition abs_db (db : Db) : Abstracto := mkAbstracto (omap nt_token (temporales db)) (dom (votos db)).

End Especificacion.

Section Contrato.
Context {U : UnicodeDB} {TS : TokenService}.

Lemma inv_abs_paso a a' : inv_abs a -> paso_abs a a' -> inv_abs a'.
Proof.
  intros Hi Hp. destruct Hp as [|a k t Hk|a k Hk]; [done| |]; intros k' Hk'; simpl in *.
  - rewrite lookup_insert_ne by set_solver. by apply Hi.
  - destruct (decide (k = k')) as [<-|Hne]; [apply lookup_delete_eq|].
    rewrite lookup_delete_ne by done. apply Hi. set_solver.
Qed.

Lemma votados_crecen a a' : paso_abs a a' -> a_votados a ⊆ a_votados a'.
Proof. destruct 1; simpl; set_solver. Qed.

Lemma inv_abs_rtc a a' : inv_abs a -> rtc paso_abs a a' -> inv_abs a'.
Proof. intros Hi H. induction H; eauto using inv_abs_paso. Qed.

Lemma abs_db_vacia : abs_db db_vacia = mkAbstracto ∅ ∅.
Proof. unfold abs_db. simpl. by rewrite omap_empty, dom_empty_L. Qed.

(** A token written for a number that has not voted is an issue. *)
Lemma abs_temporal db k tok now :
  votos db !! k = None ->
  paso_abs (abs_db db) (abs_db (mkDb (votos db) (<[k := mkNumeroTemporal k (Some tok) now]> (temporales db))
                                     (procesados db) (bloqueos db))).
Proof.
  intros Hk. unfold abs_db. simpl. rewrite (omap_insert_Some _ _ _ _ tok) by done.
  apply (pa_emitir (mkAbstracto _ _)). simpl. by apply not_elem_of_dom.
Qed.

(** A ballot stored with its pending authorisation deleted is a vote. *)
Lemma abs_voto db v :
  votos db !! v_numero v = None ->
  paso_abs (abs_db db) (abs_db (mkDb (<[v_numero v := v]> (votos db)) (delete (v_numero v) (temporales db))
                                     (procesados db) (bloqueos db))).
Proof.
  intros Hk. unfold abs_db. simpl. rewrite omap_delete, dom_insert_L.
  apply (pa_votar (mkAbstracto _ _)). simpl. by apply not_elem_of_dom.
Qed.

Lemma abs_webhook env now host db db' :
  (forall k, is_Some (votos db !! k) -> temporales db !! k = None) ->
  efecto_webhook env now host db db' -> paso_abs (abs_db db) (abs_db db').
Proof.
  intros Hd Hef. destruct Hef as [|k nt Ht _|k _ _]; [constructor| |constructor].
  apply abs_temporal. destruct (votos db !! k) eqn:Hv; [|done]. by rewrite Hd in Ht.
Qed.

(** Every request of a state satisfying [inv] is one abstract transition. *)
Lemma refina_paso env now p e e' :
  inv e -> paso env now p e e' -> paso_abs (abs_db (m_db (e_mundo e))) (abs_db (m_db (e_mundo e'))).
Proof.
  intros Hi [_]. unfold atender.
  destruct p as [host body|req|tok ses|req ses]; simpl.
  - apply (abs_webhook env now host); [apply Hi|apply webhook_efecto].
  - destruct (generar_link_efecto env now req (e_mundo e)) as [->|(k & Hv & ->)]; [constructor|].
    by apply abs_temporal.
  - pose proof (votar_no_escribe env now tok ses (e_mundo e)) as Hd.
    destruct (votar env now tok ses (e_mundo e)) as [w' r]. simpl in *. rewrite Hd. constructor.
  - pose proof (enviar_voto_efecto env now req ses (e_mundo e)) as Hef.
    destruct (enviar_voto env now req ses (e_mundo e)) as [w' r]. simpl in *.
    destruct Hef as [->|(s & v & _ & _ & Hnv & ->)]; [constructor|]. by apply abs_voto.
Qed.

Lemma refina_ejecucion env ps e e' :
  inv e -> ejecucion env ps e e' -> rtc paso_abs (abs_db (m_db (e_mundo e))) (abs_db (m_db (e_mundo e'))).
Proof.
  intros Hi H. induction H as [|now p ps e1 e2 e3 Hp _ IH]; [done|].
  eapply rtc_l; [by eapply refina_paso|]. apply IH. by eapply inv_paso.
Qed.

End Contrato.

Section Propiedades.
Context {U : UnicodeDB} {TS : TokenService}.

(** C6: every run of the service from the empty store is a run of the
    design's abstract machine: each request issues a token for a number
    that has not voted, casts the ballot of a number that has not voted
    and closes its pending authorisation, or leaves the voting state as
    it was. *)
Theorem refinamiento_traza env ps e :
  ejecucion env ps inicial e -> rtc paso_abs (mkAbstracto ∅ ∅) (abs_db (m_db (e_mundo e))).
Proof.
  intros H. pose proof (refina_ejecucion env ps inicial e inv_inicial H) as Hr.
  change (abs_db (m_db (e_mundo inicial))) with (abs_db db_vacia) in Hr. by rewrite abs_db_vacia in Hr.
Qed.

(** The design's invariants, carried to the service by the refinement: a
    number that voted has no live token, and each run only adds ballots. *)
Corollary contrato_alcanzable env ps e :
  ejecucion env ps inicial e ->
  inv_abs (abs_db (m_db (e_mundo e))) /\
  forall ps' e', ejecucion env ps' e e' -> dom (votos (m_db (e_mundo e))) ⊆ dom (votos (m_db (e_mundo e'))).
Proof.
  intros H. assert (Hi : inv e) by exact (inv_ejecucion _ _ _ _ inv_inicial H). split.
  - eapply inv_abs_rtc; [|exact (refina_ejecucion env ps inicial e inv_inicial H)].
    change (abs_db (m_db (e_mundo inicial))) with (abs_db db_vacia). rewrite abs_db_vacia.
    intros k. simpl. set_solver.
  - intros ps' e' H'. pose proof (refina_ejecucion env ps' e e' Hi H') as Hr.
    change (a_votados (abs_db (m_db (e_mundo e))) ⊆ a_votados (abs_db (m_db (e_mundo e')))).
    induction Hr as [|a1 a2 a3 Hp _ IH]; [done|]. etrans; [apply votados_crecen, Hp|apply IH].
Qed.

End Propiedades.

Section Testigos.
#[local] Existing Instance Excerpt.ucd_excerpt.
#[local] Existing Instance ts_ejemplo.

(** Registration, reissue, link visit and ballot of [Sistema]'s run. *)
Lemma refinamiento_traza_witness :
  ejecucion env_ev ps_voto inicial e_voto /\ rtc paso_abs (mkAbstracto ∅ ∅) (abs_db (m_db (e_mundo e_voto))).
Proof.
  assert (H : ejecucion env_ev ps_voto inicial e_voto) by (apply ejecutar_ejecucion; vm_compute; reflexivity).
  split; [exact H|]. exact (refinamiento_traza _ _ _ H).
Defined.

End Testigos.
