(* ===== verification/Concurrencia.v ===== *)
(** * Concurrent requests: handlers interleaved at their store accesses

    Flask serves requests in concurrent workers against one database; a
    request's reads are separate queries and its writes become visible
    at [db.session.commit()].  [Sistema] serves each request atomically.
    This file splits the three handlers that write to the store into the
    steps between two accesses to it, so that another request can run in
    between:

    - [generar_link]: the checks and the [Voto] query (app.py 484-512),
      the [NumeroTemporal] query (518) with the write it decides
      (520-526, [op_temporal]), the commit (528);
    - [enviar_voto]: the checks and the [Voto] query (596-642, that is
      [preparar_voto]), the commit of the ballot with the deletion of the
      pending authorisation (671-673, [confirmar_voto]);
    - [whatsapp_webhook] for a message without [id]: the payload and the
      [BloqueoWhatsapp] query (278-352), the [NumeroTemporal] query
      (356), then the commit of the counter and its warning (358-405) or
      the commit of a new token and its link (413-462).

    A [Hilo] is a request in flight, at the point before its next access;
    [avanzar] runs one step; [paso_conc] picks any request in flight and
    runs its step.  Each query reads the state committed when it runs and
    each commit is atomic (the isolation of PostgreSQL's default, READ
    COMMITTED, and of SQLite's database lock).  The link visit [votar]
    only reads; it is not split.

    The theorems show that a request run alone is the handler of its
    route (the split is faithful), that every interleaving keeps the
    unique keys, the counter rows of the lockout and every stored ballot
    (the store's unique constraint gives one ballot per number), and
    which interleavings the code does not handle: a registration racing
    a ballot leaves a pending authorisation for a number that has voted,
    two registrations of a new number end in an [IntegrityError], and two
    messages of an unregistered number can count once. *)

From stdpp Require Import relations.
From S2P Require Import Prelude Unicode Token Store Mundo Guard Json Webhook Votar EnviarVoto Registro Sistema.

Section Hilos.
Context {U : UnicodeDB} {TS : TokenService}.

(** The answer of a finished request ([whatsapp_webhook] always answers
    ["ok"]). *)
Inductive Fin :=
| FinRegistro (r : res RespRegistro)
| FinVoto (r : res (RespVoto * option ustr))
| FinWebhook.

Inductive Hilo :=
| HRegistro (now : Z) (req : PeticionRegistro)                      (** before line 502 *)
| HRegistroTemporal (now : Z) (numero : ustr) (token : Tok)         (** before line 518 *)
| HRegistroCommit (temporal : option NumeroTemporal) (numero : ustr) (token : Tok) (now : Z)
                                                                     (** before line 528 *)
| HVoto (now : Z) (req : PeticionVoto) (ses : option ustr)         (** before line 640 *)
| HVotoResto (ses : option ustr) (lectura : res (RespVoto + Voto))  (** before lines 647-686 *)
| HWebhook (now : Z) (host : ustr) (body : option json)             (** before line 347 *)
| HWebhookAutorizado (now : Z) (host : ustr) (numero : ustr) (bloqueo : option Bloqueo)
                                                                     (** before line 356 *)
| HWebhookGuardia (numero : ustr) (bloqueo : option Bloqueo)        (** before line 369 *)
| HWebhookToken (numero dominio : ustr) (token : Tok) (now : Z)     (** before line 425 *)
| HFin (f : Fin).

(** app.py 484-512: the form checks and the [Voto] query. *)
Definition registro_inicio (env : Entorno) (now : Z) (req : PeticionRegistro) (db : Db) : Hilo :=
  if negb (pr_post req) then HFin (FinRegistro (Ok RGFormulario))
  else if negb (pr_csrf_ok req) then HFin (FinRegistro (Ok RGCsrf))
  else
    match pr_pais req, pr_numero req with
    | Some pais, Some numero =>
        if negb (truthy_str pais && truthy_str numero) then HFin (FinRegistro (Ok RGFaltanDatos))
        else
          let numero_completo := numero_formulario pais numero in
          if bool_decide (is_Some (votos db !! numero_completo)) then HFin (FinRegistro (Ok RGYaVotado))
          else
            HRegistroTemporal now numero_completo
              (issue (mkPayload numero_completo (dominio_emisor env (pr_host_url req))) now)
    | _, _ => HFin (FinRegistro (Ok RGFaltanDatos))
    end.

(** app.py 596-647: [enviar_voto] up to its [Voto] query; the rest of
    the view is [enviar_voto_tras_lectura] of what it read. *)
Definition voto_inicio (env : Entorno) (now : Z) (req : PeticionVoto) (ses : option ustr) (db : Db) : Hilo :=
  if negb (pv_csrf_ok req) then HFin (FinVoto (Ok (REVCsrf, ses)))
  else HVotoResto ses (preparar_voto env now req ses db).

(** app.py 278-352: the payload, the sender and the [BloqueoWhatsapp]
    query; every exception ends the request with ["ok"]. *)
Definition webhook_inicio (now : Z) (host : ustr) (body : option json) (db : Db) : Hilo :=
  let messages := extraer_mensajes (datos_de body) in
  if negb (truthy messages) then HFin FinWebhook
  else
    match primer_mensaje messages ≫= message_id_de with
    | None => HFin FinWebhook
    | Some message_id =>
        if truthy_str message_id then HFin FinWebhook
        else
          match primer_mensaje messages ≫= numero_raw_de, primer_mensaje messages ≫= texto_de with
          | Some numero_raw, Some _ =>
              let numero_completo := limpiar_numero (py_str numero_raw) in
              let bloqueo := bloqueos db !! numero_completo in
              if esta_bloqueado bloqueo then HFin FinWebhook
              else HWebhookAutorizado now host numero_completo bloqueo
          | _, _ => HFin FinWebhook
          end
    end.

(** app.py 356-412: the [NumeroTemporal] query and the branch it selects. *)
Definition webhook_autorizado (env : Entorno) (now : Z) (host numero : ustr) (bloqueo : option Bloqueo)
  (db : Db) : Hilo :=
  match temporales db !! numero with
  | None => HWebhookGuardia numero bloqueo
  | Some autorizado =>
      match nt_token autorizado with
      | None => HFin FinWebhook
      | Some _ =>
          let dominio := dominio_emisor env host in
          HWebhookToken numero dominio (issue (mkPayload numero dominio) now) now
      end
  end.

(** One step of a request in flight: [None] when it has finished. *)
Definition avanzar (env : Entorno) (h : Hilo) (w : Mundo) : option (Hilo * Mundo) :=
  match h with
  | HRegistro now req => Some (registro_inicio env now req (m_db w), w)
  | HRegistroTemporal now numero token =>
      Some (HRegistroCommit (temporales (m_db w) !! numero) numero token now, w)
  | HRegistroCommit temporal numero token now =>
      let '(w', r) := db_commit env [op_temporal temporal numero token now] w in
      Some (HFin (FinRegistro (match r with Ok _ => Ok RGRedirigir | Exc e => Exc e end)), w')
  | HVoto now req ses => Some (voto_inicio env now req ses (m_db w), w)
  | HVotoResto ses lectura =>
      let '(w', r) := enviar_voto_tras_lectura env ses lectura w in Some (HFin (FinVoto r), w')
  | HWebhook now host body => Some (webhook_inicio now host body (m_db w), w)
  | HWebhookAutorizado now host numero bloqueo =>
      Some (webhook_autorizado env now host numero bloqueo (m_db w), w)
  | HWebhookGuardia numero bloqueo => Some (HFin FinWebhook, (manejar_no_autorizado env numero bloqueo w).1)
  | HWebhookToken numero dominio token now =>
      Some (HFin FinWebhook,
            ((db_commit env [UpdTemporal (mkNumeroTemporal numero (Some token) now)] ;;;
              post_whatsapp env numero (MsgEnlace dominio token))%py w).1)
  | HFin _ => None
  end.

(** One request alone, for at most [fuel] steps. *)
Fixpoint correr (env : Entorno) (fuel : nat) (h : Hilo) (w : Mundo) : Hilo * Mundo :=
  match fuel with
  | O => (h, w)
  | S fuel' => match avanzar env h w with Some (h', w') => correr env fuel' h' w' | None => (h, w) end
  end.

(** The request of a route that writes, as a request in flight. *)
Definition hilo_de (now : Z) (p : Peticion) : option Hilo :=
  match p with
  | PWebhook host body => Some (HWebhook now host body)
  | PRegistro req => Some (HRegistro now req)
  | PEnviarVoto req ses => Some (HVoto now req ses)
  | PVotar _ _ => None
  end.

(** The answer the handler of the route gives. *)
Definition fin_de (env : Entorno) (now : Z) (p : Peticion) (w : Mundo) : Fin :=
  match p with
  | PWebhook _ _ => FinWebhook
  | PRegistro req => FinRegistro (generar_link env now req w).2
  | PEnviarVoto req ses => FinVoto (enviar_voto env now req ses w).2
  | PVotar _ _ => FinWebhook
  end.

(** Requests in flight over the shared world: any of them takes its
    next step. *)
Inductive paso_conc (env : Entorno) : list Hilo * Mundo -> list Hilo * Mundo -> Prop :=
| pc_avanzar hs w i h h' w' :
    hs !! i = Some h -> avanzar env h w = Some (h', w') -> paso_conc env (hs, w) (<[i := h']> hs, w').

(** A schedule: the indices of the requests that step, in order; an
    index whose request has finished (or does not exist) is skipped. *)
Fixpoint planificar (env : Entorno) (sched : list nat) (c : list Hilo * Mundo) : list Hilo * Mundo :=
  match sched with
  | [] => c
  | i :: sched' =>
      match c.1 !! i ≫= fun h => avanzar env h c.2 with
      | Some (h', w') => planificar env sched' (<[i := h']> c.1, w')
      | None => planificar env sched' c
      end
  end.

End Hilos.

Section Aislado.
Context {U : UnicodeDB} {TS : TokenService}.

Lemma correr_registro env now req w :
  correr env 3 (HRegistro now req) w = (HFin (FinRegistro (generar_link env now req w).2), (generar_link env now req w).1).
Proof.
  unfold correr, avanzar, registro_inicio, generar_link, guardar_temporal, pbind, pget, pret.
  destruct (pr_post req), (pr_csrf_ok req); simpl; try done.
  destruct (pr_pais req) as [pais|], (pr_numero req) as [numero|]; simpl; try done.
  destruct (truthy_str pais && truthy_str numero); simpl; [|done].
  case_bool_decide; simpl; [done|].
  destruct (db_commit _ _ _) as [w' [[]|e]]; done.
Qed.

Lemma correr_voto env now req ses w :
  correr env 3 (HVoto now req ses) w =
  (HFin (FinVoto (enviar_voto env now req ses w).2), (enviar_voto env now req ses w).1).
Proof.
  unfold correr, avanzar, voto_inicio, enviar_voto, pbind, pget, pret.
  destruct (pv_csrf_ok req); simpl; [|done].
  by destruct (enviar_voto_tras_lectura env ses (preparar_voto env now req ses (m_db w)) w).
Qed.

Lemma correr_webhook env now host body w :
  correr env 3 (HWebhook now host body) w = (HFin FinWebhook, (whatsapp_webhook env now host body w).1).
Proof.
  unfold whatsapp_webhook. rewrite ptry_pret_fst.
  unfold correr, avanzar, webhook_inicio, cuerpo_webhook, atender_mensaje, pbind, pget, pret, praise, plift.
  destruct (negb (truthy _)); [done|]. simpl.
  destruct (primer_mensaje _) as [msg|]; simpl; [|done].
  destruct (message_id_de msg) as [mid|]; simpl; [|done].
  destruct (truthy_str mid); [by destruct (procesados _ !! mid)|].
  destruct (numero_raw_de msg) as [raw|], (texto_de msg) as [txt|]; simpl; try done.
  destruct (esta_bloqueado _); [done|]. unfold webhook_autorizado. simpl.
  destruct (temporales _ !! _) as [[? [] ?]|]; simpl; done.
Qed.

End Aislado.

(** ** What one step does to the store *)

Section Efecto.
Context {U : UnicodeDB} {TS : TokenService}.

(** A step reads (the store stays), writes a pending authorisation,
    commits a ballot under a number without one, or commits the counter
    row that the guard computed from the row it read. *)
Inductive efecto_hilo (h : Hilo) (db : Db) : Db -> Prop :=
| eh_nada : efecto_hilo h db db
| eh_temporal nt :
    efecto_hilo h db (mkDb (votos db) (<[nt_numero nt := nt]> (temporales db)) (procesados db) (bloqueos db))
| eh_voto v :
    votos db !! v_numero v = None ->
    efecto_hilo h db (mkDb (<[v_numero v := v]> (votos db)) (delete (v_numero v) (temporales db))
                           (procesados db) (bloqueos db))
| eh_guardia k b :
    h = HWebhookGuardia k b ->
    efecto_hilo h db (mkDb (votos db) (temporales db) (procesados db)
                           (<[bw_numero (nuevo_intento k b).1 := (nuevo_intento k b).1]> (bloqueos db))).

Lemma commit_op_temporal d o k t n db db' :
  commit d [op_temporal o k t n] db = Ok db' ->
  db' = mkDb (votos db) (<[k := mkNumeroTemporal k (Some t) n]> (temporales db)) (procesados db) (bloqueos db).
Proof.
  destruct o; simpl op_temporal;
    [intros H%commit_upd_temporal|intros H%commit_ins_temporal]; by destruct H as [_ ->].
Qed.

Lemma db_commit_fst env ops w db' :
  commit (env_dialecto env) ops (m_db w) = Ok db' -> (db_commit env ops w).1 = mkMundo db' (m_salida w).
Proof. unfold db_commit. by intros ->. Qed.

Lemma avanzar_efecto env h w h' w' :
  avanzar env h w = Some (h', w') -> efecto_hilo h (m_db w) (m_db w').
Proof.
  destruct h as [| |temporal k t n| |ses [[r|v]|e]| | |k b|k d t n|]; simpl; intros Hs;
    try (injection Hs as _ <-; constructor).
  - destruct (db_commit_efecto env [op_temporal temporal k t n] w) as [(_ & _ & Hc)|[He _]];
      destruct (db_commit env _ w) as [w1 r]; simpl in *; injection Hs as _ <-; [|subst; constructor].
    apply commit_op_temporal in Hc as ->. apply (eh_temporal _ _ (mkNumeroTemporal k (Some t) n)).
  - unfold enviar_voto_tras_lectura, pbind, pret, confirmar_voto in Hs.
    destruct (db_commit_efecto env [InsVoto v; DelTemporal (v_numero v)] w) as [(Hok & _ & Hc)|[He [e He2]]];
      destruct (db_commit env _ w) as [w1 r]; simpl in *; subst r; injection Hs as _ <-; [|subst; constructor].
    apply commit_voto in Hc as [Hv ->]. by constructor.
  - injection Hs as _ <-. unfold manejar_no_autorizado.
    destruct (nuevo_intento k b) as [b' op] eqn:Hn. rewrite pbind_post_db.
    destruct (db_commit_efecto env [op] w) as [(_ & _ & Hc)|[-> _]]; [|constructor].
    pose proof (nuevo_intento_op k b) as Hop. rewrite Hn in Hop. simpl in Hop.
    rewrite (commit_bloqueo (env_dialecto env) b' (m_db w) (m_db (db_commit env [op] w).1))
      by (destruct Hop as [-> | ->]; auto).
    replace b' with (nuevo_intento k b).1 by (by rewrite Hn). by apply eh_guardia.
  - injection Hs as _ <-. rewrite pbind_post_db.
    destruct (db_commit_efecto env [UpdTemporal (mkNumeroTemporal k (Some t) n)] w) as [(_ & _ & Hc)|[-> _]];
      [|constructor].
    apply commit_upd_temporal in Hc as [_ ->]. apply (eh_temporal _ _ (mkNumeroTemporal k (Some t) n)).
  - done.
Qed.

End Efecto.

(** ** The invariant of every interleaving *)

Section Invariante.
Context {U : UnicodeDB} {TS : TokenService}.

(** A webhook request that has read an unblocked counter row keeps a
    reachable row of the guard. *)
Definition hilo_ok (h : Hilo) : Prop :=
  match h with
  | HWebhookAutorizado _ _ k b | HWebhookGuardia k b => bloqueo_inv k b /\ esta_bloqueado b = false
  | _ => True
  end.

Record inv_conc (c : list Hilo * Mundo) : Prop := {
  ic_wf : db_wf (m_db c.2);
  ic_procesados : procesados (m_db c.2) = ∅;
  ic_bloqueos : map_Forall (fun k b => bloqueo_inv k (Some b)) (bloqueos (m_db c.2));
  ic_hilos : Forall hilo_ok c.1 }.

Lemma efecto_hilo_inv h db db' :
  hilo_ok h -> db_wf db -> map_Forall (fun k b => bloqueo_inv k (Some b)) (bloqueos db) ->
  efecto_hilo h db db' ->
  db_wf db' /\ procesados db' = procesados db /\
  map_Forall (fun k b => bloqueo_inv k (Some b)) (bloqueos db') /\ votos db ⊆ votos db'.
Proof.
  intros Hh (Hv & Ht & Hp & Hb) Hbl Hef. destruct Hef as [|nt|v Hn|k b ->]; simpl.
  - done.
  - split; [|done]. repeat split; [done| |done|done]. by apply map_Forall_insert_2.
  - split; [repeat split; [by apply map_Forall_insert_2|by apply delete_wf|done|done]|].
    split; [done|]. split; [done|]. by apply insert_subseteq.
  - destruct Hh as [Hi Hnb].
    assert (Hi' := nuevo_intento_inv k b Hi (fun b' Hb' => eq_ind_r (fun o => esta_bloqueado o = false) Hnb (eq_sym Hb'))).
    split; [repeat split; [done|done|done|by apply map_Forall_insert_2]|]. split; [done|].
    split; [|done]. apply map_Forall_insert_2; [|done]. rewrite (proj1 Hi'). split; [done|apply Hi'].
Qed.

Lemma avanzar_hilo_ok env h w h' w' :
  map_Forall (fun k b => bloqueo_inv k (Some b)) (bloqueos (m_db w)) ->
  hilo_ok h -> avanzar env h w = Some (h', w') -> hilo_ok h'.
Proof.
  intros Hbl Hh. destruct h; simpl; intros Hs;
    repeat match goal with
    | H : (let '(_, _) := ?c in _) = _ |- _ => destruct c
    | H : Some _ = Some _ |- _ => injection H as <- _
    end; try done.
  - unfold registro_inicio. by repeat case_match.
  - unfold voto_inicio. by repeat case_match.
  - unfold webhook_inicio. repeat case_match; try done. simpl.
    split; [by apply bloqueos_inv|done].
  - unfold webhook_autorizado. by repeat case_match.
Qed.

Lemma inv_conc_paso env c c' :
  inv_conc c -> paso_conc env c c' -> inv_conc c' /\ votos (m_db c.2) ⊆ votos (m_db c'.2).
Proof.
  intros Hinv Hstep. destruct Hstep as [hs w i h h' w' Hi Hs]. destruct Hinv as [Hwf Hp Hbl Hhs]. simpl in *.
  assert (Hh := Forall_lookup_1 _ _ _ _ Hhs Hi).
  destruct (efecto_hilo_inv h (m_db w) (m_db w') Hh Hwf Hbl (avanzar_efecto env h w h' w' Hs))
    as (Hwf' & Hp' & Hbl' & Hv).
  split; [|done]. split; simpl; [done|by rewrite Hp'|done|].
  apply Forall_insert; [done|]. by apply (avanzar_hilo_ok env h w h' w').
Qed.

Lemma inv_conc_rtc env c c' :
  inv_conc c -> rtc (paso_conc env) c c' -> inv_conc c' /\ votos (m_db c.2) ⊆ votos (m_db c'.2).
Proof.
  intros Hi Hr. induction Hr as [c|c1 c2 c3 H12 _ IH]; [done|].
  destruct (inv_conc_paso env c1 c2 Hi H12) as [Hi2 Hv12]. destruct (IH Hi2) as [Hi3 Hv23].
  split; [done|]. by transitivity (votos (m_db c2.2)).
Qed.

End Invariante.

(** ** Schedules and the faithfulness of the split *)

Section Planificar.
Context {U : UnicodeDB} {TS : TokenService}.

(** Every schedule is an interleaving. *)
Lemma planificar_rtc env sched c : rtc (paso_conc env) c (planificar env sched c).
Proof.
  revert c. induction sched as [|i sched IH]; intros [hs w]; simpl; [done|].
  destruct (hs !! i) as [h|] eqn:Hi; simpl; [|apply IH].
  destruct (avanzar env h w) as [[h' w']|] eqn:Hs; [|apply IH].
  eapply rtc_l; [by econstructor|apply IH].
Qed.

(** The requests of a list, each in flight before its first access. *)
Definition inicio_conc (ps : list (Z * Peticion)) (w : Mundo) : list Hilo * Mundo :=
  (omap (fun tp => hilo_de tp.1 tp.2) ps, w).

Lemma inicio_conc_inv ps :
  inv_conc (inicio_conc ps (mkMundo db_vacia [])).
Proof.
  split; simpl; [apply db_vacia_wf|done|apply map_Forall_empty|].
  induction ps as [|[t p] ps IH]; [constructor|]. destruct p; simpl; try (constructor; [done|]); done.
Qed.

End Planificar.

(** ** The first step of each request *)

Section Pasos.
Context {U : UnicodeDB} {TS : TokenService}.

(** A registration of a number that has not voted passes its [Voto]
    query with the token it signs. *)
Lemma registro_inicio_libre env now req pais numero db :
  pr_post req = true -> pr_csrf_ok req = true ->
  pr_pais req = Some pais -> pr_numero req = Some numero ->
  truthy_str pais = true -> truthy_str numero = true ->
  votos db !! limpiar_numero (pais ++ numero) = None ->
  registro_inicio env now req db =
  HRegistroTemporal now (limpiar_numero (pais ++ numero))
    (issue (mkPayload (limpiar_numero (pais ++ numero)) (dominio_emisor env (pr_host_url req))) now).
Proof.
  intros Hpost Hcsrf Hp Hn Htp Htn Hv. unfold registro_inicio.
  rewrite Hpost, Hcsrf, Hp, Hn, Htp, Htn. simpl. rewrite numero_formulario_clave, Hv. done.
Qed.

Lemma voto_inicio_listo env now req ses db v :
  pv_csrf_ok req = true -> preparar_voto env now req ses db = Ok (inr v) ->
  voto_inicio env now req ses db = HVotoResto ses (Ok (inr v)).
Proof. intros Hc Hp. unfold voto_inicio. by rewrite Hc, Hp. Qed.

(** A message without [id] whose sender and text can be read reaches the
    [BloqueoWhatsapp] query. *)
Lemma webhook_inicio_sin_id now host body db msg raw txt :
  truthy (extraer_mensajes (datos_de body)) = true ->
  primer_mensaje (extraer_mensajes (datos_de body)) = Some msg ->
  message_id_de msg = Some [] -> numero_raw_de msg = Some raw -> texto_de msg = Some txt ->
  webhook_inicio now host body db =
  if esta_bloqueado (bloqueos db !! limpiar_numero (py_str raw)) then HFin FinWebhook
  else HWebhookAutorizado now host (limpiar_numero (py_str raw)) (bloqueos db !! limpiar_numero (py_str raw)).
Proof. intros Ht Hp Hm Hr Htx. unfold webhook_inicio. rewrite Ht. simpl. by rewrite Hp; simpl; rewrite Hm, Hr, Htx. Qed.

End Pasos.

(** ** Properties *)

Section Propiedades.
Context {U : UnicodeDB} {TS : TokenService}.

(** The split is faithful.  A request of a route that writes, run
    alone from the point before its first access, finishes within three
    steps with the answer of the route's handler and the world that
    [Sistema.servir] computes for it. *)
Theorem hilo_aislado env now p h w :
  hilo_de now p = Some h ->
  correr env 3 h w = (HFin (fin_de env now p w), (servir env now p w).1).
Proof.
  intros Hh. destruct p as [host body|req|tok ses|req ses]; simpl in Hh; try discriminate;
    injection Hh as <-; simpl servir.
  - apply correr_webhook.
  - apply correr_registro.
  - rewrite correr_voto. simpl. by destruct (enviar_voto env now req ses w).
Qed.

(** C15: every interleaving of requests started over the empty store keeps
    every row under its unique key, the table of processed messages
    empty and every counter row a reachable row of the lockout (also
    when two messages of a number race), and no later step changes or
    removes a stored ballot: the unique index on [voto.numero] keeps one
    ballot per number whatever the order of the queries and commits. *)
Theorem intercalado_seguro env ps c c' :
  rtc (paso_conc env) (inicio_conc ps (mkMundo db_vacia [])) c -> rtc (paso_conc env) c c' ->
  inv_conc c' /\ votos (m_db c.2) ⊆ votos (m_db c'.2).
Proof.
  intros H1 H2. destruct (inv_conc_rtc env _ _ (inicio_conc_inv ps) H1) as [Hc _].
  exact (inv_conc_rtc env _ _ Hc H2).
Qed.

(** C16: a registration racing a ballot.  A registration of number [k]
    that passes its [Voto] query (line 502) before the ballot of [k] is
    committed, and reaches its [NumeroTemporal] query (line 518) after
    it, inserts a new pending authorisation: both requests succeed and
    the store then holds a ballot and a pending authorisation of [k],
    the state that atomic requests never reach ([Sistema.inv]). *)
Theorem registro_contra_voto env w t1 t2 req pais numero reqv ses v :
  pr_post req = true -> pr_csrf_ok req = true ->
  pr_pais req = Some pais -> pr_numero req = Some numero ->
  truthy_str pais = true -> truthy_str numero = true ->
  votos (m_db w) !! limpiar_numero (pais ++ numero) = None ->
  cabe (env_dialecto env) 50 (limpiar_numero (pais ++ numero)) = true ->
  pv_csrf_ok reqv = true -> preparar_voto env t2 reqv ses (m_db w) = Ok (inr v) ->
  v_numero v = limpiar_numero (pais ++ numero) -> voto_ok (env_dialecto env) v = true ->
  planificar env [0; 1; 1; 0; 0]%nat ([HRegistro t1 req; HVoto t2 reqv ses], w) =
  ([HFin (FinRegistro (Ok RGRedirigir)); HFin (FinVoto (Ok (REVExito (limpiar_numero (pais ++ numero)), None)))],
   mkMundo (mkDb (<[limpiar_numero (pais ++ numero) := v]> (votos (m_db w)))
                 (<[limpiar_numero (pais ++ numero) :=
                      mkNumeroTemporal (limpiar_numero (pais ++ numero))
                        (Some (issue (mkPayload (limpiar_numero (pais ++ numero))
                                                (dominio_emisor env (pr_host_url req))) t1)) t1]>
                    (delete (limpiar_numero (pais ++ numero)) (temporales (m_db w))))
                 (procesados (m_db w)) (bloqueos (m_db w))) (m_salida w)).
Proof.
  intros Hpost Hcsrf Hp Hn Htp Htn Hv Hc Hcv Hpv Hk Hok.
  cbn [planificar lookup list_lookup fst snd mbind option_bind avanzar].
  rewrite (registro_inicio_libre env t1 req pais numero) by done.
  cbn [planificar lookup list_lookup fst snd mbind option_bind avanzar insert list_insert].
  rewrite (voto_inicio_listo env t2 reqv ses _ v) by done.
  cbn [planificar lookup list_lookup fst snd mbind option_bind avanzar insert list_insert].
  unfold enviar_voto_tras_lectura, pbind, pret.
  rewrite (confirmar_voto_ok env v w) by (by rewrite ?Hk).
  cbn [planificar lookup list_lookup fst snd mbind option_bind avanzar insert list_insert m_db temporales].
  rewrite Hk, lookup_delete_eq.
  unfold db_commit. simpl. unfold insertar_unico, temporal_ok. simpl. rewrite Hc, lookup_delete_eq. done.
Qed.

(** C17: two registrations of a new number.  Two submissions of the form
    for a number with no pending authorisation that both run the
    [NumeroTemporal] query (line 518) before either commits both try to
    INSERT the row; the first one commits, the second fails on the
    unique index of [numero_temporal.numero] with an [IntegrityError]
    that [generar_link] does not catch (HTTP 500). *)
Theorem registro_doble env w t1 t2 req pais numero :
  pr_post req = true -> pr_csrf_ok req = true ->
  pr_pais req = Some pais -> pr_numero req = Some numero ->
  truthy_str pais = true -> truthy_str numero = true ->
  votos (m_db w) !! limpiar_numero (pais ++ numero) = None ->
  temporales (m_db w) !! limpiar_numero (pais ++ numero) = None ->
  cabe (env_dialecto env) 50 (limpiar_numero (pais ++ numero)) = true ->
  planificar env [0; 1; 0; 1; 0; 1]%nat ([HRegistro t1 req; HRegistro t2 req], w) =
  ([HFin (FinRegistro (Ok RGRedirigir)); HFin (FinRegistro (Exc ExcIntegrity))],
   mkMundo (mkDb (votos (m_db w))
                 (<[limpiar_numero (pais ++ numero) :=
                      mkNumeroTemporal (limpiar_numero (pais ++ numero))
                        (Some (issue (mkPayload (limpiar_numero (pais ++ numero))
                                                (dominio_emisor env (pr_host_url req))) t1)) t1]>
                    (temporales (m_db w)))
                 (procesados (m_db w)) (bloqueos (m_db w))) (m_salida w)).
Proof.
  intros Hpost Hcsrf Hp Hn Htp Htn Hv Ht Hc.
  cbn [planificar lookup list_lookup fst snd mbind option_bind avanzar].
  rewrite (registro_inicio_libre env t1 req pais numero) by done.
  cbn [planificar lookup list_lookup fst snd mbind option_bind avanzar insert list_insert].
  rewrite (registro_inicio_libre env t2 req pais numero) by done.
  cbn [planificar lookup list_lookup fst snd mbind option_bind avanzar insert list_insert].
  rewrite Ht. unfold db_commit. simpl. unfold insertar_unico, temporal_ok. simpl.
  rewrite Hc, Ht. simpl. rewrite ?Hc, lookup_insert_eq. done.
Qed.

(** C18: two messages counted once.  Two WhatsApp messages without [id]
    of an unregistered, unblocked number whose requests both read the
    counter row (line 347) before either commits (line 369) write the
    same row: the counter advances by one for the two messages (with no
    row, the second INSERT fails and the outer [except] swallows it). *)
Theorem webhook_cuenta_perdida env w t1 t2 host body msg raw txt :
  truthy (extraer_mensajes (datos_de body)) = true ->
  primer_mensaje (extraer_mensajes (datos_de body)) = Some msg ->
  message_id_de msg = Some [] -> numero_raw_de msg = Some raw -> texto_de msg = Some txt ->
  temporales (m_db w) !! limpiar_numero (py_str raw) = None ->
  bloqueo_inv (limpiar_numero (py_str raw)) (bloqueos (m_db w) !! limpiar_numero (py_str raw)) ->
  esta_bloqueado (bloqueos (m_db w) !! limpiar_numero (py_str raw)) = false ->
  cabe (env_dialecto env) 50 (limpiar_numero (py_str raw)) = true ->
  (planificar env [0; 1; 0; 1; 0; 1]%nat ([HWebhook t1 host body; HWebhook t2 host body], w)).1
    = [HFin FinWebhook; HFin FinWebhook] /\
  bloqueos (m_db (planificar env [0; 1; 0; 1; 0; 1]%nat ([HWebhook t1 host body; HWebhook t2 host body], w)).2)
    !! limpiar_numero (py_str raw)
  = Some (nuevo_intento (limpiar_numero (py_str raw)) (bloqueos (m_db w) !! limpiar_numero (py_str raw))).1.
Proof.
  intros Ht Hp Hm Hr Htx Hnt Hi Hb Hc.
  cbn [planificar lookup list_lookup fst snd mbind option_bind avanzar].
  rewrite (webhook_inicio_sin_id t1 host body _ msg raw txt), Hb by done.
  cbn [planificar lookup list_lookup fst snd mbind option_bind avanzar insert list_insert].
  rewrite (webhook_inicio_sin_id t2 host body _ msg raw txt), Hb by done.
  cbn [planificar lookup list_lookup fst snd mbind option_bind avanzar insert list_insert].
  unfold webhook_autorizado. rewrite Hnt.
  cbn [planificar lookup list_lookup fst snd mbind option_bind avanzar insert list_insert].
  pose proof (nuevo_intento_ok (env_dialecto env) _ _ Hi Hc) as Hok.
  set (k := limpiar_numero (py_str raw)) in *.
  unfold manejar_no_autorizado. revert Hi Hb Hok.
  destruct (bloqueos (m_db w) !! k) as [[n i bl]|] eqn:Ebl; intros Hi Hb Hok.
  - destruct Hi as [Hn _]. simpl in Hn, Hok. subst n.
    unfold pbind, db_commit. simpl. unfold actualizar. rewrite Hok, Ebl. simpl.
    rewrite ?Hok, lookup_insert_eq. simpl. split; [done|]. apply lookup_insert_eq.
  - unfold pbind, db_commit. simpl. unfold insertar_unico. simpl in Hok. rewrite Hok, Ebl. simpl.
    rewrite ?Hok, lookup_insert_eq. simpl. split; [done|]. apply lookup_insert_eq.
Qed.

End Propiedades.

Section Testigos.
#[local] Existing Instance Excerpt.ucd_excerpt.
#[local] Existing Instance ts_ejemplo.
Local Open Scope Z_scope.

Definition mundo_c : Mundo := mkMundo db_vacia [].

(** A registration, a ballot of the same number and a WhatsApp message
    of another number, all in flight at once. *)
Definition ps_conc : list (Z * Peticion) :=
  [(1000, PRegistro peticion_rg); (1200, PEnviarVoto (peticion_ev form_no) (Some numero_ev));
   (1010, PWebhook host_ej body_sin_id)].

Definition sched_conc : list nat := [0; 1; 1; 0; 2; 0; 2; 2]%nat.

Lemma hilo_aislado_witness :
  hilo_de 1000 (PRegistro peticion_rg) = Some (HRegistro 1000 peticion_rg) /\
  correr env_ev 3 (HRegistro 1000 peticion_rg) mundo_c =
    (HFin (fin_de env_ev 1000 (PRegistro peticion_rg) mundo_c), (servir env_ev 1000 (PRegistro peticion_rg) mundo_c).1).
Proof. split; [reflexivity|]. by apply hilo_aislado. Defined.

Lemma intercalado_seguro_witness :
  rtc (paso_conc env_ev) (inicio_conc ps_conc mundo_c) (inicio_conc ps_conc mundo_c) /\
  rtc (paso_conc env_ev) (inicio_conc ps_conc mundo_c) (planificar env_ev sched_conc (inicio_conc ps_conc mundo_c)) /\
  inv_conc (planificar env_ev sched_conc (inicio_conc ps_conc mundo_c)) /\
  votos (m_db (inicio_conc ps_conc mundo_c).2) ⊆ votos (m_db (planificar env_ev sched_conc (inicio_conc ps_conc mundo_c)).2).
Proof.
  assert (H1 : rtc (paso_conc env_ev) (inicio_conc ps_conc mundo_c) (inicio_conc ps_conc mundo_c)) by reflexivity.
  assert (H2 := planificar_rtc env_ev sched_conc (inicio_conc ps_conc mundo_c)).
  split; [exact H1|]. split; [exact H2|]. exact (intercalado_seguro env_ev ps_conc _ _ H1 H2).
Defined.

Lemma registro_contra_voto_witness :
  pr_post peticion_rg = true /\ pr_csrf_ok peticion_rg = true /\
  pr_pais peticion_rg = Some (u " 591 ") /\ pr_numero peticion_rg = Some (u "700-000 00") /\
  truthy_str (u " 591 ") = true /\ truthy_str (u "700-000 00") = true /\
  votos (m_db mundo_c) !! limpiar_numero (u " 591 " ++ u "700-000 00") = None /\
  cabe (env_dialecto env_ev) 50 (limpiar_numero (u " 591 " ++ u "700-000 00")) = true /\
  pv_csrf_ok (peticion_ev form_no) = true /\
  preparar_voto env_ev 1200 (peticion_ev form_no) (Some numero_ev) (m_db mundo_c) = Ok (inr (voto_ev 1200 (u "No") None)) /\
  v_numero (voto_ev 1200 (u "No") None) = limpiar_numero (u " 591 " ++ u "700-000 00") /\
  voto_ok (env_dialecto env_ev) (voto_ev 1200 (u "No") None) = true /\
  planificar env_ev [0; 1; 1; 0; 0]%nat
    ([HRegistro 1000 peticion_rg; HVoto 1200 (peticion_ev form_no) (Some numero_ev)], mundo_c) =
  ([HFin (FinRegistro (Ok RGRedirigir));
    HFin (FinVoto (Ok (REVExito (limpiar_numero (u " 591 " ++ u "700-000 00")), None)))],
   mkMundo (mkDb (<[limpiar_numero (u " 591 " ++ u "700-000 00") := voto_ev 1200 (u "No") None]> (votos (m_db mundo_c)))
                 (<[limpiar_numero (u " 591 " ++ u "700-000 00") :=
                      mkNumeroTemporal (limpiar_numero (u " 591 " ++ u "700-000 00"))
                        (Some (issue (mkPayload (limpiar_numero (u " 591 " ++ u "700-000 00"))
                                                (dominio_emisor env_ev (pr_host_url peticion_rg))) 1000)) 1000]>
                    (delete (limpiar_numero (u " 591 " ++ u "700-000 00")) (temporales (m_db mundo_c))))
                 (procesados (m_db mundo_c)) (bloqueos (m_db mundo_c))) (m_salida mundo_c)).
Proof.
  do 12 (split; [vm_compute; reflexivity|]).
  apply (registro_contra_voto env_ev mundo_c 1000 1200 peticion_rg (u " 591 ") (u "700-000 00")); vm_compute; reflexivity.
Defined.

Lemma registro_doble_witness :
  pr_post peticion_rg = true /\ pr_csrf_ok peticion_rg = true /\
  pr_pais peticion_rg = Some (u " 591 ") /\ pr_numero peticion_rg = Some (u "700-000 00") /\
  truthy_str (u " 591 ") = true /\ truthy_str (u "700-000 00") = true /\
  votos (m_db mundo_c) !! limpiar_numero (u " 591 " ++ u "700-000 00") = None /\
  temporales (m_db mundo_c) !! limpiar_numero (u " 591 " ++ u "700-000 00") = None /\
  cabe (env_dialecto env_ev) 50 (limpiar_numero (u " 591 " ++ u "700-000 00")) = true /\
  planificar env_ev [0; 1; 0; 1; 0; 1]%nat ([HRegistro 1000 peticion_rg; HRegistro 1001 peticion_rg], mundo_c) =
  ([HFin (FinRegistro (Ok RGRedirigir)); HFin (FinRegistro (Exc ExcIntegrity))],
   mkMundo (mkDb (votos (m_db mundo_c))
                 (<[limpiar_numero (u " 591 " ++ u "700-000 00") :=
                      mkNumeroTemporal (limpiar_numero (u " 591 " ++ u "700-000 00"))
                        (Some (issue (mkPayload (limpiar_numero (u " 591 " ++ u "700-000 00"))
                                                (dominio_emisor env_ev (pr_host_url peticion_rg))) 1000)) 1000]>
                    (temporales (m_db mundo_c)))
                 (procesados (m_db mundo_c)) (bloqueos (m_db mundo_c))) (m_salida mundo_c)).
Proof.
  do 9 (split; [vm_compute; reflexivity|]).
  apply (registro_doble env_ev mundo_c 1000 1001 peticion_rg (u " 591 ") (u "700-000 00")); vm_compute; reflexivity.
Defined.

(** A number already warned twice. *)
Definition mundo_avisado : Mundo := mkMundo (mkDb ∅ ∅ ∅ {[numero_ej := mkBloqueo numero_ej 2 false]}) [].

Lemma webhook_cuenta_perdida_witness :
  truthy (extraer_mensajes (datos_de body_sin_id)) = true /\
  primer_mensaje (extraer_mensajes (datos_de body_sin_id)) = Some msg_sin_id /\
  message_id_de msg_sin_id = Some [] /\ numero_raw_de msg_sin_id = Some (JInt 59170000000) /\
  texto_de msg_sin_id = Some (u "votar") /\
  temporales (m_db mundo_avisado) !! limpiar_numero (py_str (JInt 59170000000)) = None /\
  bloqueo_inv (limpiar_numero (py_str (JInt 59170000000)))
    (bloqueos (m_db mundo_avisado) !! limpiar_numero (py_str (JInt 59170000000))) /\
  esta_bloqueado (bloqueos (m_db mundo_avisado) !! limpiar_numero (py_str (JInt 59170000000))) = false /\
  cabe (env_dialecto env_ev) 50 (limpiar_numero (py_str (JInt 59170000000))) = true /\
  (planificar env_ev [0; 1; 0; 1; 0; 1]%nat ([HWebhook 2000 host_ej body_sin_id; HWebhook 2001 host_ej body_sin_id],
     mundo_avisado)).1 = [HFin FinWebhook; HFin FinWebhook] /\
  bloqueos (m_db (planificar env_ev [0; 1; 0; 1; 0; 1]%nat
                    ([HWebhook 2000 host_ej body_sin_id; HWebhook 2001 host_ej body_sin_id], mundo_avisado)).2)
    !! limpiar_numero (py_str (JInt 59170000000))
  = Some (nuevo_intento (limpiar_numero (py_str (JInt 59170000000)))
            (bloqueos (m_db mundo_avisado) !! limpiar_numero (py_str (JInt 59170000000)))).1.
Proof.
  assert (Hi : bloqueo_inv (limpiar_numero (py_str (JInt 59170000000)))
                 (bloqueos (m_db mundo_avisado) !! limpiar_numero (py_str (JInt 59170000000))))
    by (vm_compute; repeat split; intros; (done || lia)).
  do 6 (split; [vm_compute; reflexivity|]). split; [exact Hi|]. do 2 (split; [vm_compute; reflexivity|]).
  apply (webhook_cuenta_perdida env_ev mundo_avisado 2000 2001 host_ej body_sin_id msg_sin_id (JInt 59170000000) (u "votar"));
    first [exact Hi | vm_compute; reflexivity].
Defined.

End Testigos.
