(* ===== verification/Catalogo.v ===== *)
(** * Reference data: the candidates' cache and the two JSON routes

    app.py 29-123 load [privado/CandidatosPorMunicipio.csv] once into the
    global [_CANDIDATOS_CACHE]: candidates grouped by [id_municipio], and
    the ids of each normalised municipality name ([_norm_text]).
    [api_recintos] (app.py 696-762) returns every row of
    [privado/RecintosParaPrimaria.csv] behind the same Referer check as
    [enviar_voto]; [api_candidatos] (app.py 765-823) looks up the
    municipality of an id in the precincts file and returns the
    candidates for mayor of that department, province and municipality,
    reading the candidates file again on every request (the cache is
    never read by any route).

    A CSV file is its header line, its rows and whether it starts with a
    byte-order mark: [encoding="utf-8-sig"] drops the mark, [encoding=
    "utf-8"] keeps it as U+FEFF at the start of the first header.  A
    [csv.DictReader] row pairs each header with its field, [None] past
    the end of a short row ([restval]).  [str.upper] and [str.lower] are
    the case mappings of a [CaseDB], one code point at a time (exact but
    for the final-sigma rule of [str.lower]). *)

From S2P Require Import Prelude Unicode Token Store Mundo EnviarVoto.

(** ** Case mappings *)

Definition ascii_upper (c : N) : N := if ((97 <=? c) && (c <=? 122))%N then (c - 32)%N else c.
Definition ascii_lower (c : N) : N := if ((65 <=? c) && (c <=? 90))%N then (c + 32)%N else c.

Class CaseDB := {
  cd_upper : N -> list N;
  cd_lower : N -> list N;
  cd_upper_ascii : forall c, (c < 128)%N -> cd_upper c = [ascii_upper c];
  cd_lower_ascii : forall c, (c < 128)%N -> cd_lower c = [ascii_lower c]
}.

(** ** Data of the CSV files *)

Record Archivo := mkArchivo { a_bom : bool; a_cabeceras : list ustr; a_filas : list (list ustr) }.

Definition Fila := list (ustr * option ustr).

Definition cp_bom : N := 65279.

(** [lector.fieldnames] under the given encoding. *)
Definition cabeceras_de (sig : bool) (a : Archivo) : list ustr :=
  match a_cabeceras a with
  | h :: hs => if a_bom a && negb sig then (cp_bom :: h) :: hs else h :: hs
  | [] => []
  end.

Fixpoint emparejar (hs : list ustr) (vs : list ustr) : Fila :=
  match hs, vs with
  | [], _ => []
  | h :: hs, [] => (h, None) :: emparejar hs []
  | h :: hs, v :: vs => (h, Some v) :: emparejar hs vs
  end.

(** The rows of [csv.DictReader(f)]. *)
Definition filas_de (sig : bool) (a : Archivo) : list Fila :=
  map (emparejar (cabeceras_de sig a)) (a_filas a).

(** [row[k]]: [None] for a [KeyError]; a repeated header keeps its last field. *)
Definition fila_get (f : Fila) (k : ustr) : option (option ustr) :=
  foldl (fun acc '(h, v) => if bool_decide (h = k) then Some v else acc) None f.

(** [(row.get(k) or "").strip()], also under [str(...)]. *)
Definition campo (f : Fila) (k : ustr) : ustr :=
  py_strip (default [] (default None (fila_get f k))).

(** [required - headers], in the order of [sorted]. *)
Definition faltantes (requeridas cabeceras : list ustr) : list ustr :=
  filter (fun r => negb (bool_decide (r ∈ cabeceras))) requeridas.

Section Catalogo.
Context {U : UnicodeDB} {C : CaseDB}.

Definition py_upper (s : ustr) : ustr := flat_map cd_upper s.
Definition py_lower (s : ustr) : ustr := flat_map cd_lower s.

(** [re.sub(r"\s+", " ", s)]; [en_blanco] says the previous character
    was part of a run already replaced. *)
Fixpoint colapsar (en_blanco : bool) (s : ustr) : ustr :=
  match s with
  | [] => []
  | c :: s' =>
      if py_isspace c then (if en_blanco then colapsar true s' else cp_space :: colapsar true s')
      else c :: colapsar false s'
  end.

(** [_norm_text(s)] (app.py 40-48); [unicodedata.combining(ch)] is the
    canonical combining class. *)
Definition norm_text (s : option ustr) : ustr :=
  match s with
  | None => []
  | Some s => colapsar false (py_upper (filter (fun c => bool_decide (ucd_ccc c = 0%N)) (nfkd (py_strip s))))
  end.

(** One entry of [by_id_municipio] (app.py 95-104). *)
Record Item := mkItem {
  it_id_municipio : ustr; it_municipio : ustr; it_id_nombre_completo : ustr; it_nombre_completo : ustr;
  it_id_organizacion_politica : ustr; it_organizacion_politica : ustr; it_id_cargo : ustr; it_cargo : ustr }.

Inductive ErrorCarga := ErrNoExiste | ErrColumnas (faltan : list ustr).

Record Cache := mkCache {
  by_id_municipio : gmap ustr (list Item);
  id_by_municipio : gmap ustr (list ustr);
  loaded : bool;
  error : option ErrorCarga }.

(** The value of [_CANDIDATOS_CACHE] at import (app.py 32-37). *)
Definition cache_inicial : Cache := mkCache ∅ ∅ false None.

(** app.py 72-81, in sorted order. *)
Definition requeridas_candidatos : list ustr :=
  [u "cargo"; u "id_cargo"; u "id_municipio"; u "id_nombre_completo"; u "id_organizacion_politica";
   u "municipio"; u "nombre_completo"; u "organizacion_politica"].

(** The item of a row, when it has an id and a municipality (app.py 89-104). *)
Definition item_de (f : Fila) : option Item :=
  let id_mun := campo f (u "id_municipio") in
  let mun := norm_text (default None (fila_get f (u "municipio"))) in
  if negb (truthy_str id_mun) || negb (truthy_str mun) then None
  else Some (mkItem id_mun mun (campo f (u "id_nombre_completo")) (campo f (u "nombre_completo"))
                    (campo f (u "id_organizacion_politica")) (campo f (u "organizacion_politica"))
                    (campo f (u "id_cargo")) (campo f (u "cargo"))).

(** The two [setdefault] updates of one item (app.py 106-111). *)
Definition indexar (acc : gmap ustr (list Item) * gmap ustr (list ustr)) (it : Item)
  : gmap ustr (list Item) * gmap ustr (list ustr) :=
  let '(por_id, por_mun) := acc in
  let k := it_id_municipio it in
  let m := it_municipio it in
  let ids := default [] (por_mun !! m) in
  (<[k := default [] (por_id !! k) ++ [it]]> por_id,
   <[m := if bool_decide (k ∈ ids) then ids else ids ++ [k]]> por_mun).

Definition agregar_fila (acc : gmap ustr (list Item) * gmap ustr (list ustr)) (f : Fila)
  : gmap ustr (list Item) * gmap ustr (list ustr) :=
  match item_de f with Some it => indexar acc it | None => acc end.

(** [cargar_candidatos_desde_csv()] (app.py 51-116); [None] when the
    file does not exist. *)
Definition cargar_candidatos (archivo : option Archivo) : Cache :=
  match archivo with
  | None => mkCache ∅ ∅ false (Some ErrNoExiste)
  | Some a =>
      match faltantes requeridas_candidatos (cabeceras_de true a) with
      | _ :: _ as f => mkCache ∅ ∅ false (Some (ErrColumnas f))
      | [] => let '(p, m) := foldl agregar_fila (∅, ∅) (filas_de true a) in mkCache p m true None
      end
  end.

(** [asegurar_candidatos_cargados()] (app.py 119-122). *)
Definition asegurar_candidatos (archivo : option Archivo) (c : Cache) : Cache :=
  if negb (loaded c) && bool_decide (error c = None) then cargar_candidatos archivo else c.

(** The reference definition of the index: the items of the rows, in order. *)
Definition items (a : Archivo) : list Item := omap item_de (filas_de true a).

End Catalogo.

Section Rutas.
Context {U : UnicodeDB} {C : CaseDB}.

(** One element of the JSON array of [api_recintos] (app.py 732-753). *)
Record Recinto := mkRecinto {
  r_id_pais : ustr; r_nombre_pais : ustr; r_id_departamento : ustr; r_nombre_departamento : ustr;
  r_id_provincia : ustr; r_nombre_provincia : ustr; r_id_municipio : ustr; r_nombre_municipio : ustr;
  r_id_recinto : ustr; r_nombre_recinto : ustr; r_direccion : ustr; r_latitud : ustr; r_longitud : ustr }.

Definition requeridas_recintos : list ustr :=
  [u "id_pais"; u "nombre_pais"; u "id_departamento"; u "nombre_departamento"; u "id_provincia";
   u "nombre_provincia"; u "id_municipio"; u "nombre_municipio"; u "id_recinto"; u "nombre_recinto"].

Definition recinto_de (f : Fila) : Recinto :=
  mkRecinto (campo f (u "id_pais")) (campo f (u "nombre_pais")) (campo f (u "id_departamento"))
            (campo f (u "nombre_departamento")) (campo f (u "id_provincia")) (campo f (u "nombre_provincia"))
            (campo f (u "id_municipio")) (campo f (u "nombre_municipio")) (campo f (u "id_recinto"))
            (campo f (u "nombre_recinto")) (campo f (u "Direccion")) (campo f (u "latitud"))
            (campo f (u "longitud")).

Inductive RespRecintos :=
| RRProhibido              (** "Acceso no autorizado", 403 (708) *)
| RRColumnas               (** 500 (729) *)
| RRNoDisponible           (** 500 (759) *)
| RRDatos (l : list Recinto). (** jsonify(datos) (755) *)

(** app.py 696-762; [None] when the file does not exist. *)
Definition api_recintos (env : Entorno) (referer : option ustr) (archivo : option Archivo) : RespRecintos :=
  if negb (referer_valido env referer) then RRProhibido
  else match archivo with
       | None => RRNoDisponible
       | Some a =>
           match faltantes requeridas_recintos (cabeceras_de true a) with
           | _ :: _ => RRColumnas
           | [] => RRDatos (map recinto_de (filas_de true a))
           end
       end.

(** One element of the JSON array of [api_candidatos] (app.py 814-821):
    the raw fields, [None] ([null]) past the end of a short row. *)
Record Candidato := mkCandidato {
  c_id_nombre_completo : option ustr; c_nombre_completo : option ustr; c_organizacion_politica : option ustr;
  c_id_organizacion_politica : option ustr; c_id_cargo : option ustr; c_cargo : option ustr }.

(** [row[k]]: [KeyError] for a missing header. *)
Definition fila_idx (f : Fila) (k : ustr) : res (option ustr) :=
  match fila_get f k with Some v => Ok v | None => Exc ExcLookup end.

(** [row[k].strip().lower()]: [AttributeError] on the [None] of a short row. *)
Definition fila_norm (f : Fila) (k : ustr) : res ustr :=
  res_bind (fila_idx f k) (fun v => match v with Some s => Ok (py_lower (py_strip s)) | None => Exc ExcType end).

(** The loop of app.py 785-790: the department, province and
    municipality of the first row with this [id_municipio]. *)
Fixpoint buscar_municipio (id : ustr) (fs : list Fila) : res (option (ustr * ustr * ustr)) :=
  match fs with
  | [] => Ok None
  | f :: fs =>
      res_bind (fila_idx f (u "id_municipio")) (fun v =>
        if bool_decide (v = Some id) then
          res_bind (fila_norm f (u "nombre_departamento")) (fun d =>
          res_bind (fila_norm f (u "nombre_provincia")) (fun p =>
          res_bind (fila_norm f (u "nombre_municipio")) (fun m => Ok (Some (d, p, m)))))
        else buscar_municipio id fs)
  end.

(** The condition of app.py 808-813, evaluated left to right with [and]. *)
Definition es_candidato (d p m : ustr) (f : Fila) : res bool :=
  res_bind (fila_norm f (u "departamento")) (fun d' => if negb (bool_decide (d' = d)) then Ok false else
  res_bind (fila_norm f (u "provincia")) (fun p' => if negb (bool_decide (p' = p)) then Ok false else
  res_bind (fila_norm f (u "municipio")) (fun m' => if negb (bool_decide (m' = m)) then Ok false else
  res_bind (fila_norm f (u "cargo")) (fun c' => Ok (bool_decide (c' = u "alcalde")))))).

Definition candidato_de (f : Fila) : res Candidato :=
  res_bind (fila_idx f (u "id_nombre_completo")) (fun a =>
  res_bind (fila_idx f (u "nombre_completo")) (fun b =>
  res_bind (fila_idx f (u "organizacion_politica")) (fun c =>
  res_bind (fila_idx f (u "id_organizacion_politica")) (fun d =>
  res_bind (fila_idx f (u "id_cargo")) (fun e =>
  res_bind (fila_idx f (u "cargo")) (fun g => Ok (mkCandidato a b c d e g))))))).

(** The loop of app.py 806-821. *)
Fixpoint filtrar_candidatos (d p m : ustr) (fs : list Fila) : res (list Candidato) :=
  match fs with
  | [] => Ok []
  | f :: fs =>
      res_bind (es_candidato d p m f) (fun b =>
        if b then res_bind (candidato_de f) (fun c => res_bind (filtrar_candidatos d p m fs) (fun l => Ok (c :: l)))
        else filtrar_candidatos d p m fs)
  end.

(** app.py 765-823; both files are opened with [encoding="utf-8"]. *)
Definition api_candidatos (id_municipio : option ustr) (recintos candidatos : option Archivo)
  : res (list Candidato) :=
  match id_municipio with
  | None => Ok []
  | Some id =>
      if negb (truthy_str id) then Ok [] else
      match recintos with
      | None => Exc ExcOS
      | Some r =>
          res_bind (buscar_municipio id (filas_de false r)) (fun o =>
            match o with
            | Some (d, p, m) =>
                if negb (truthy_str m) then Ok [] else
                match candidatos with
                | None => Exc ExcOS
                | Some c => filtrar_candidatos d p m (filas_de false c)
                end
            | None => Ok []
            end)
      end
  end.

End Rutas.

Section Indices.
Context {U : UnicodeDB} {C : CaseDB}.

Definition por_id_ok (p : gmap ustr (list Item)) (l : list Item) : Prop :=
  forall k, default [] (p !! k) = filter (fun it => it_id_municipio it = k) l.

Definition por_mun_ok (m : gmap ustr (list ustr)) (l : list Item) : Prop :=
  forall mun, NoDup (default [] (m !! mun)) /\
    forall k, k ∈ default [] (m !! mun) <-> exists it, it ∈ l /\ it_id_municipio it = k /\ it_municipio it = mun.

Lemma indexar_por_id acc l it : por_id_ok acc.1 l -> por_id_ok (indexar acc it).1 (l ++ [it]).
Proof.
  destruct acc as [p m]. intros Hp k. simpl in *. rewrite filter_app, <-Hp.
  destruct (decide (it_id_municipio it = k)) as [<-|Hne].
  - rewrite lookup_insert_eq. simpl. by rewrite filter_cons_True, filter_nil.
  - rewrite lookup_insert_ne by done. rewrite filter_cons_False, filter_nil by done. by rewrite app_nil_r.
Qed.

Lemma indexar_por_mun acc l it : por_mun_ok acc.2 l -> por_mun_ok (indexar acc it).2 (l ++ [it]).
Proof.
  destruct acc as [p m]. intros Hm mun. simpl in *. set (ids := default [] (m !! it_municipio it)).
  destruct (decide (it_municipio it = mun)) as [<-|Hne].
  - rewrite lookup_insert_eq. simpl. destruct (Hm (it_municipio it)) as [Hnd Hin]. fold ids in Hnd, Hin.
    case_bool_decide as Hk; split.
    + done.
    + intros k. rewrite Hin. setoid_rewrite elem_of_app. setoid_rewrite list_elem_of_singleton.
      split; [naive_solver|]. intros (it' & [Hl| ->] & <- & Hm'); [eauto|]. apply Hin in Hk. done.
    + apply NoDup_app. split; [done|]. split; [|apply NoDup_singleton]. intros x Hx ->%list_elem_of_singleton. done.
    + intros k. rewrite elem_of_app, list_elem_of_singleton, Hin. setoid_rewrite elem_of_app.
      setoid_rewrite list_elem_of_singleton. naive_solver.
  - rewrite lookup_insert_ne by done. destruct (Hm mun) as [Hnd Hin]. split; [done|].
    intros k. rewrite Hin. setoid_rewrite elem_of_app. setoid_rewrite list_elem_of_singleton. naive_solver.
Qed.

Lemma foldl_agregar acc l fs :
  por_id_ok acc.1 l -> por_mun_ok acc.2 l ->
  por_id_ok (foldl agregar_fila acc fs).1 (l ++ omap item_de fs) /\
  por_mun_ok (foldl agregar_fila acc fs).2 (l ++ omap item_de fs).
Proof.
  revert acc l. induction fs as [|f fs IH]; intros acc l Hp Hm; simpl; [by rewrite app_nil_r|].
  destruct (item_de f) as [it|] eqn:Hit; simpl.
  - replace (agregar_fila acc f) with (indexar acc it) by (unfold agregar_fila; by rewrite Hit).
    rewrite cons_middle, app_assoc. apply IH; [by apply indexar_por_id|by apply indexar_por_mun].
  - replace (agregar_fila acc f) with acc by (unfold agregar_fila; by rewrite Hit). by apply IH.
Qed.

(** C35: the loader's two indexes against their reference definitions:
    once loaded, the candidates stored under an [id_municipio] are
    exactly the items of the rows with that id, in file order; and the
    ids stored under a normalised municipality name are the ids of the
    items of that municipality, each once. *)
Theorem cargar_candidatos_indices a c :
  cargar_candidatos (Some a) = c -> loaded c = true ->
  (forall k, default [] (by_id_municipio c !! k) = filter (fun it => it_id_municipio it = k) (items a)) /\
  (forall mun, NoDup (default [] (id_by_municipio c !! mun)) /\
     forall k, k ∈ default [] (id_by_municipio c !! mun) <->
               exists it, it ∈ items a /\ it_id_municipio it = k /\ it_municipio it = mun).
Proof.
  intros <-. simpl. destruct (faltantes _ _); [|done]. intros _.
  pose proof (foldl_agregar (∅, ∅) [] (filas_de true a)) as H.
  destruct (foldl agregar_fila (∅, ∅) (filas_de true a)) as [p m]. simpl in *.
  apply H; intros k; rewrite lookup_empty; simpl; [done|]. split; [constructor|]. set_solver.
Qed.

End Indices.

Section Propiedades.
Context {U : UnicodeDB} {C : CaseDB}.

Lemma cargar_definitivo a : loaded (cargar_candidatos a) = true \/ error (cargar_candidatos a) <> None.
Proof.
  destruct a as [a|]; simpl; [|by right]. destruct (faltantes _ _); [|by right].
  destruct (foldl _ _ _); by left.
Qed.

(** [asegurar_candidatos_cargados] reads the file at most once: after
    the first call the cache never changes, whatever the file holds
    later (a failed load is never retried either). *)
Theorem asegurar_una_vez a1 a2 :
  asegurar_candidatos a2 (asegurar_candidatos a1 cache_inicial) = asegurar_candidatos a1 cache_inicial.
Proof.
  unfold asegurar_candidatos at 2. simpl. unfold asegurar_candidatos.
  destruct (cargar_definitivo a1) as [-> | Hne]; [done|].
  rewrite (bool_decide_false (error _ = None)) by done. by rewrite andb_false_r.
Qed.

(** [re.sub(r"\s+", " ", ...)] leaves single spaces as its only white
    space; [en_blanco] as in [colapsar]. *)
Fixpoint forma_colapsada (en_blanco : bool) (s : ustr) : bool :=
  match s with
  | [] => true
  | c :: s' => if py_isspace c then N.eqb c cp_space && negb en_blanco && forma_colapsada true s'
               else forma_colapsada false s'
  end.

Lemma colapsar_forma b s : forma_colapsada b (colapsar b s) = true.
Proof.
  revert b. induction s as [|c s IH]; intros b; [done|]. simpl.
  destruct (py_isspace c) eqn:Hc; [destruct b|]; simpl; rewrite ?Hc; [auto| |auto].
  change (py_isspace cp_space) with true. simpl. rewrite ?N.eqb_refl. apply IH.
Qed.

(** [_norm_text] returns a string whose only white-space characters
    are single spaces: no tab, no newline, no run of blanks. *)
Theorem norm_text_espacios s : forma_colapsada false (norm_text s) = true.
Proof. destruct s; [apply colapsar_forma|done]. Qed.

Lemma es_candidato_true d p m f :
  es_candidato d p m f = Ok true ->
  fila_norm f (u "departamento") = Ok d /\ fila_norm f (u "provincia") = Ok p /\
  fila_norm f (u "municipio") = Ok m /\ fila_norm f (u "cargo") = Ok (u "alcalde").
Proof.
  unfold es_candidato.
  destruct (fila_norm f (u "departamento")) as [d'|]; simpl; [|done]. case_bool_decide; [subst|done]. simpl.
  destruct (fila_norm f (u "provincia")) as [p'|]; simpl; [|done]. case_bool_decide; [subst|done]. simpl.
  destruct (fila_norm f (u "municipio")) as [m'|]; simpl; [|done]. case_bool_decide; [subst|done]. simpl.
  destruct (fila_norm f (u "cargo")) as [c'|]; simpl; [|done]. intros [= Hc]. case_bool_decide; [by subst|done].
Qed.

Lemma filtrar_candidatos_sound d p m fs l x :
  filtrar_candidatos d p m fs = Ok l -> x ∈ l ->
  exists f, f ∈ fs /\ candidato_de f = Ok x /\ es_candidato d p m f = Ok true.
Proof.
  revert l. induction fs as [|f fs IH]; intros l; simpl; [intros [= <-]; set_solver|].
  destruct (es_candidato d p m f) as [[]|] eqn:He; simpl; [|intros H Hx; destruct (IH l H Hx) as (f' & ? & ?); exists f'; set_solver|done].
  destruct (candidato_de f) as [c|] eqn:Hc; simpl; [|done].
  destruct (filtrar_candidatos d p m fs) as [l'|] eqn:Hl; simpl; [|done]. intros [= <-] [->|Hx]%elem_of_cons.
  - exists f. set_solver.
  - destruct (IH l' eq_refl Hx) as (f' & ? & ?). exists f'. set_solver.
Qed.

(** C36: every candidate [api_candidatos] returns comes from a row of the
    candidates file whose department, province and municipality are
    those of the first precinct row with the requested id, and whose
    [cargo] is "alcalde", all compared after [strip().lower()]. *)
Theorem api_candidatos_alcaldes id r c l x :
  api_candidatos (Some id) (Some r) (Some c) = Ok l -> x ∈ l ->
  exists d p m f, buscar_municipio id (filas_de false r) = Ok (Some (d, p, m)) /\ f ∈ filas_de false c /\
    candidato_de f = Ok x /\
    fila_norm f (u "departamento") = Ok d /\ fila_norm f (u "provincia") = Ok p /\
    fila_norm f (u "municipio") = Ok m /\ fila_norm f (u "cargo") = Ok (u "alcalde").
Proof.
  simpl. destruct (truthy_str id); simpl; [|intros [= <-]; set_solver].
  destruct (buscar_municipio id (filas_de false r)) as [[[[d p] m]|]|] eqn:Hb; simpl; [|intros [= <-]; set_solver|done].
  destruct (truthy_str m); simpl; [|intros [= <-]; set_solver].
  intros Hf Hx. destruct (filtrar_candidatos_sound _ _ _ _ _ _ Hf Hx) as (f & Hin & Hc & He).
  exists d, p, m, f. apply es_candidato_true in He. naive_solver.
Qed.

(** A Referer that contains the allowed domain anywhere passes the check. *)
Lemma referer_valido_embed env pre post :
  referer_valido env (Some (pre ++ default dominio_por_defecto (env_azure_domain env) ++ post)) = true.
Proof. unfold referer_valido. simpl. by rewrite py_in_embed, andb_false_r. Qed.

(** C37: the Referer check of [enviar_voto] (app.py 596-600) and of
    [api_recintos] (app.py 694-703) is a substring test that an absent
    header passes: a request whose Referer is any URL containing the
    allowed domain anywhere, on any site, is served exactly as the same
    request without Referer, by both views. *)
Theorem referer_subcadena {TS : TokenService} env now req ses w a pre post :
  enviar_voto env now
    (mkPeticionVoto (pv_csrf_ok req) (Some (pre ++ default dominio_por_defecto (env_azure_domain env) ++ post))
                    (pv_xff req) (pv_remote_addr req) (pv_form req)) ses w =
  enviar_voto env now (mkPeticionVoto (pv_csrf_ok req) None (pv_xff req) (pv_remote_addr req) (pv_form req)) ses w /\
  api_recintos env (Some (pre ++ default dominio_por_defecto (env_azure_domain env) ++ post)) a =
  api_recintos env None a.
Proof.
  split.
  - unfold enviar_voto, preparar_voto. cbn [pv_referer pv_csrf_ok pv_xff pv_remote_addr pv_form].
    by rewrite referer_valido_embed.
  - unfold api_recintos. by rewrite referer_valido_embed.
Qed.

(** Indexing a header that the file does not have raises [KeyError]. *)
Lemma fila_get_ausente hs vs k : k ∉ hs -> fila_get (emparejar hs vs) k = None.
Proof.
  unfold fila_get. intros Hk.
  cut (forall acc, foldl (fun acc '(h, v) => if bool_decide (h = k) then Some v else acc) acc
                         (emparejar hs vs) = acc); [by intros ->|].
  revert vs. induction hs as [|h hs IH]; intros vs acc; [done|].
  apply not_elem_of_cons in Hk as [Hne Hk].
  destruct vs; simpl; (case_bool_decide; [congruence|]); by apply IH.
Qed.

(** C34: the loader and the route disagree on the columns.  Every
    candidates file that has the eight columns the loader requires
    (app.py 72-83) is loaded, but when it has no [departamento] column,
    [api_candidatos] fails with [KeyError] (HTTP 500) on its first row
    for every [id_municipio] whose precinct is found with a municipality:
    the route indexes [fila["departamento"]] (app.py 809). *)
Theorem carga_y_ruta_discrepan id r c d p m :
  faltantes requeridas_candidatos (cabeceras_de true c) = [] ->
  u "departamento" ∉ cabeceras_de false c -> a_filas c <> [] ->
  truthy_str id = true -> buscar_municipio id (filas_de false r) = Ok (Some (d, p, m)) -> truthy_str m = true ->
  loaded (cargar_candidatos (Some c)) = true /\
  api_candidatos (Some id) (Some r) (Some c) = Exc ExcLookup.
Proof.
  intros Hf Hd Hrows Hid Hb Hm. split.
  - simpl. rewrite Hf. by destruct (foldl _ _ _).
  - simpl. rewrite Hid, Hb. simpl. rewrite Hm. simpl.
    unfold filas_de. destruct (a_filas c) as [|row rows]; [done|]. simpl.
    unfold es_candidato, fila_norm, fila_idx. by rewrite fila_get_ausente.
Qed.

End Propiedades.

(** ** An excerpt of the Unicode case mappings: Latin-1 *)

Module Latin1.

Definition upper (c : N) : list N :=
  if (c <? 128)%N then [ascii_upper c]
  else if (c =? 181)%N then [924%N]                       (** MICRO SIGN -> GREEK CAPITAL MU *)
  else if (c =? 223)%N then [83; 83]%N                   (** SHARP S -> "SS" *)
  else if ((224 <=? c) && (c <=? 254) && negb (c =? 247))%N then [(c - 32)%N]
  else if (c =? 255)%N then [376%N]                      (** y WITH DIAERESIS *)
  else [c].

Definition lower (c : N) : list N :=
  if (c <? 128)%N then [ascii_lower c]
  else if ((192 <=? c) && (c <=? 222) && negb (c =? 215))%N then [(c + 32)%N]
  else [c].

Lemma upper_ascii c : (c < 128)%N -> upper c = [ascii_upper c].
Proof. intros Hc. unfold upper. by rewrite (proj2 (N.ltb_lt c 128) Hc). Qed.

Lemma lower_ascii c : (c < 128)%N -> lower c = [ascii_lower c].
Proof. intros Hc. unfold lower. by rewrite (proj2 (N.ltb_lt c 128) Hc). Qed.

Definition caso_latin1 : CaseDB :=
  {| cd_upper := upper; cd_lower := lower; cd_upper_ascii := upper_ascii; cd_lower_ascii := lower_ascii |}.

End Latin1.

Section Testigos.
#[local] Existing Instance Excerpt.ucd_excerpt.
#[local] Existing Instance Latin1.caso_latin1.

Definition recintos_ej : Archivo :=
  mkArchivo true
    [u "id_pais"; u "nombre_pais"; u "id_departamento"; u "nombre_departamento"; u "id_provincia";
     u "nombre_provincia"; u "id_municipio"; u "nombre_municipio"; u "id_recinto"; u "nombre_recinto"]
    [[u "1"; u "Bolivia"; u "2"; u "La Paz"; u "21"; u "Murillo"; u "20101"; u "La Paz"; u "7"; u "U.E. Ayacucho"]].

(** A candidates file with exactly the columns the loader requires. *)
Definition candidatos_cargador : Archivo :=
  mkArchivo false requeridas_candidatos
    [[u "Alcalde"; u "3"; u "20101"; u "9"; u "11"; u " la  paz "; u "Juana Quispe"; u "Frente"];
     [u "Concejal"; u "4"; u "20101"; u "10"; u "11"; u "LA PAZ"; u "Pedro Mamani"; u "Frente"];
     [u "Alcalde"; u "3"; u "20102"; u "12"; u "13"; u "La Paz"; u "Rosa Condori"; u "Unidad"]].

(** The same candidates with the department and province [api_candidatos] reads. *)
Definition candidatos_ruta : Archivo :=
  mkArchivo false
    [u "departamento"; u "provincia"; u "municipio"; u "cargo"; u "id_nombre_completo"; u "nombre_completo";
     u "organizacion_politica"; u "id_organizacion_politica"; u "id_cargo"]
    [[u "La Paz"; u "Murillo"; u " La Paz"; u "ALCALDE"; u "9"; u "Juana Quispe"; u "Frente"; u "11"; u "3"];
     [u "La Paz"; u "Murillo"; u "La Paz"; u "Concejal"; u "10"; u "Pedro Mamani"; u "Frente"; u "11"; u "4"]].

Lemma carga_y_ruta_discrepan_witness :
  faltantes requeridas_candidatos (cabeceras_de true candidatos_cargador) = [] /\
  u "departamento" ∉ cabeceras_de false candidatos_cargador /\ a_filas candidatos_cargador <> [] /\
  truthy_str (u "20101") = true /\
  buscar_municipio (u "20101") (filas_de false recintos_ej) = Ok (Some (u "la paz", u "murillo", u "la paz")) /\
  truthy_str (u "la paz") = true /\
  loaded (cargar_candidatos (Some candidatos_cargador)) = true /\
  api_candidatos (Some (u "20101")) (Some recintos_ej) (Some candidatos_cargador) = Exc ExcLookup.
Proof.
  assert (Hd : u "departamento" ∉ cabeceras_de false candidatos_cargador)
    by (apply (bool_decide_eq_false_1 _); vm_compute; reflexivity).
  split; [vm_compute; reflexivity|]. split; [exact Hd|]. split; [discriminate|].
  do 3 (split; [vm_compute; reflexivity|]).
  apply (carga_y_ruta_discrepan _ _ _ (u "la paz") (u "murillo") (u "la paz")); first [exact Hd | discriminate | vm_compute; reflexivity].
Defined.

Lemma cargar_candidatos_indices_witness :
  cargar_candidatos (Some candidatos_cargador) = cargar_candidatos (Some candidatos_cargador) /\
  loaded (cargar_candidatos (Some candidatos_cargador)) = true /\
  ((forall k, default [] (by_id_municipio (cargar_candidatos (Some candidatos_cargador)) !! k) =
              filter (fun it => it_id_municipio it = k) (items candidatos_cargador)) /\
   (forall mun, NoDup (default [] (id_by_municipio (cargar_candidatos (Some candidatos_cargador)) !! mun)) /\
      forall k, k ∈ default [] (id_by_municipio (cargar_candidatos (Some candidatos_cargador)) !! mun) <->
        exists it, it ∈ items candidatos_cargador /\ it_id_municipio it = k /\ it_municipio it = mun)).
Proof.
  assert (H : loaded (cargar_candidatos (Some candidatos_cargador)) = true) by (vm_compute; reflexivity).
  split; [reflexivity|]. split; [exact H|]. exact (cargar_candidatos_indices _ _ eq_refl H).
Defined.

Lemma api_candidatos_alcaldes_witness :
  api_candidatos (Some (u "20101")) (Some recintos_ej) (Some candidatos_ruta) =
    Ok [mkCandidato (Some (u "9")) (Some (u "Juana Quispe")) (Some (u "Frente")) (Some (u "11")) (Some (u "3"))
                    (Some (u "ALCALDE"))] /\
  mkCandidato (Some (u "9")) (Some (u "Juana Quispe")) (Some (u "Frente")) (Some (u "11")) (Some (u "3"))
              (Some (u "ALCALDE")) ∈
    [mkCandidato (Some (u "9")) (Some (u "Juana Quispe")) (Some (u "Frente")) (Some (u "11")) (Some (u "3"))
                 (Some (u "ALCALDE"))] /\
  exists d p m f, buscar_municipio (u "20101") (filas_de false recintos_ej) = Ok (Some (d, p, m)) /\
    f ∈ filas_de false candidatos_ruta /\
    candidato_de f = Ok (mkCandidato (Some (u "9")) (Some (u "Juana Quispe")) (Some (u "Frente")) (Some (u "11"))
                                     (Some (u "3")) (Some (u "ALCALDE"))) /\
    fila_norm f (u "departamento") = Ok d /\ fila_norm f (u "provincia") = Ok p /\
    fila_norm f (u "municipio") = Ok m /\ fila_norm f (u "cargo") = Ok (u "alcalde").
Proof.
  assert (H : api_candidatos (Some (u "20101")) (Some recintos_ej) (Some candidatos_ruta) =
    Ok [mkCandidato (Some (u "9")) (Some (u "Juana Quispe")) (Some (u "Frente")) (Some (u "11")) (Some (u "3"))
                    (Some (u "ALCALDE"))]) by (vm_compute; reflexivity).
  assert (Hx : mkCandidato (Some (u "9")) (Some (u "Juana Quispe")) (Some (u "Frente")) (Some (u "11")) (Some (u "3"))
              (Some (u "ALCALDE")) ∈
    [mkCandidato (Some (u "9")) (Some (u "Juana Quispe")) (Some (u "Frente")) (Some (u "11")) (Some (u "3"))
                 (Some (u "ALCALDE"))]) by apply list_elem_of_singleton, eq_refl.
  split; [exact H|]. split; [exact Hx|]. exact (api_candidatos_alcaldes _ _ _ _ _ H Hx).
Defined.

End Testigos.
